(** * eCourts scraper: a shallow embedding of the result-extraction core

    The development follows the Python sources module by module:
    - [PyStr]   : the [str] operations the code relies on
                  ([lower], [upper], [strip], [in], [len], slicing,
                  [title]) and the Unicode database they read;
    - [Soup]    : the part of the BeautifulSoup tree API that is called
                  ([find], [find_all], [.string], [get_text], [decompose]);
    - [Py]      : dynamically typed values and result dictionaries;
    - [Eff]     : a small monad for requests, persistence, console and
                  exceptions;
    - [Utils]   : [ecourts_scraper/utils.py];
    - [Scraper] : [ecourts_scraper/scraper.py], class [ECourtsScraper];
    - [Api], [Cli] : the request handlers of [api.py] and the demo mode of
                  [cli.py];
    - [Spec], [Samples] : the notions in which the properties are stated,
                  and concrete documents and worlds.
    The properties follow, helper facts first, one theorem per claim of
    the specification (C1 to C10). *)

From Stdlib Require Import ZArith String Ascii List Bool Lia DecimalString.
From stdpp Require Import base option list strings gmap.

Set Warnings "-register-all".
Open Scope string_scope.

(** ** Python [str]

    A Python string is a sequence of code points.  It is carried here by
    the bytes of its UTF-8 encoding (a lone surrogate by the three bytes
    of its code point), so that literals, concatenation, comparison and
    [in] are those of byte strings.  Lengths, slices, [strip], [lower],
    [upper] and [int] work on code points.  What they need to know about
    a character above U+007F is read from the Unicode database of the
    interpreter, a parameter of the development; the ASCII range is
    fixed here. *)
Module PyStr.

Definition code (c : ascii) : nat := nat_of_ascii c.

(** the Unicode database of the interpreter, consulted for the code
    points above U+007F *)
Class unicode : Type := {
  (** [str.isspace] of the character *)
  whitespace : N -> bool;
  (** its value as a decimal digit *)
  decimal : N -> option nat;
  (** its full lower-case and upper-case mappings *)
  lower_full : N -> list N;
  upper_full : N -> list N;
  (** the properties Cased and Case_Ignorable *)
  cased : N -> bool;
  case_ignorable : N -> bool
}.

(** truth value of a string: only [''] is falsy *)
Definition truthy (s : string) : bool :=
  match s with EmptyString => false | _ => true end.

(** [''.join(l)] *)
Definition join (l : list string) : string :=
  fold_right String.append EmptyString l.

(** *** Code points *)

(** a byte [10xxxxxx] continues the encoding of a character *)
Definition is_continuation (c : ascii) : bool :=
  Nat.leb 128 (code c) && Nat.ltb (code c) 192.

Definition starts_inside (s : string) : bool :=
  match s with String c _ => is_continuation c | EmptyString => false end.

(** the characters of a string, each as the bytes that encode it *)
Fixpoint chars (s : string) : list string :=
  match s with
  | EmptyString => []
  | String c s' =>
      match chars s' with
      | ch :: rest =>
          if starts_inside ch then String c ch :: rest
          else String c EmptyString :: ch :: rest
      | [] => [String c EmptyString]
      end
  end.

(** the code point of a character *)
Definition point (ch : string) : N :=
  match ch with
  | EmptyString => 0
  | String c k =>
      let b := N.of_nat (code c) in
      let lead :=
        if b <? 128 then b
        else if b <? 224 then b mod 32
        else if b <? 240 then b mod 16
        else b mod 8 in
      fold_left (fun acc c' => acc * 64 + N.of_nat (code c') mod 64)
                (list_ascii_of_string k) lead
  end%N.

Definition byte (n : N) : ascii := ascii_of_N n.

(** the bytes of a code point *)
Definition encode (p : N) : string :=
  (if p <? 128 then String (byte p) EmptyString
   else if p <? 2048 then
     String (byte (192 + p / 64)) (String (byte (128 + p mod 64)) EmptyString)
   else if p <? 65536 then
     String (byte (224 + p / 4096))
       (String (byte (128 + (p / 64) mod 64))
          (String (byte (128 + p mod 64)) EmptyString))
   else
     String (byte (240 + p / 262144))
       (String (byte (128 + (p / 4096) mod 64))
          (String (byte (128 + (p / 64) mod 64))
             (String (byte (128 + p mod 64)) EmptyString))))%N.

Definition points (s : string) : list N := map point (chars s).

Definition of_points (l : list N) : string := join (map encode l).

(** [len(s)]: the number of characters, each having one byte that is not
    a continuation byte *)
Fixpoint len (s : string) : nat :=
  match s with
  | EmptyString => 0
  | String c s' => (if is_continuation c then 0 else 1) + len s'
  end.

(** [s[:n]]: the first [n] characters *)
Fixpoint take (n : nat) (s : string) : string :=
  match s with
  | EmptyString => EmptyString
  | String c s' =>
      if is_continuation c then String c (take n s')
      else match n with
           | 0 => EmptyString
           | S n' => String c (take n' s')
           end
  end.

(** *** ASCII *)

Definition lower_char (c : ascii) : ascii :=
  if Nat.leb 65 (code c) && Nat.leb (code c) 90
  then ascii_of_nat (code c + 32) else c.

Definition upper_char (c : ascii) : ascii :=
  if Nat.leb 97 (code c) && Nat.leb (code c) 122
  then ascii_of_nat (code c - 32) else c.

Definition is_cased (c : ascii) : bool :=
  (Nat.leb 65 (code c) && Nat.leb (code c) 90)
  || (Nat.leb 97 (code c) && Nat.leb (code c) 122).

(** [s.title()] for ASCII text: a letter that follows a letter is
    lowered, any other letter is raised *)
Fixpoint title_from (previous_is_cased : bool) (s : string) : string :=
  match s with
  | EmptyString => EmptyString
  | String c s' =>
      String (if previous_is_cased then lower_char c else upper_char c)
             (title_from (is_cased c) s')
  end.

Definition title (s : string) : string := title_from false s.

Definition newline : string := String (ascii_of_nat 10) EmptyString.

(** [sub in s] *)
Fixpoint contains (sub s : string) : bool :=
  String.prefix sub s
  || match s with
     | EmptyString => false
     | String _ s' => contains sub s'
     end.

(** [any(w in s for w in words)] *)
Definition any_in (words : list string) (s : string) : bool :=
  existsb (fun w => contains w s) words.

(** [s.replace(a, b)] for one-character ASCII strings [a] and [b] *)
Fixpoint replace_char (a b : ascii) (s : string) : string :=
  match s with
  | EmptyString => EmptyString
  | String c s' => String (if Ascii.eqb c a then b else c) (replace_char a b s')
  end.

(** the bytes for which [blank] holds dropped at both ends *)
Fixpoint lstrip_with (blank : ascii -> bool) (s : string) : string :=
  match s with
  | EmptyString => EmptyString
  | String c s' => if blank c then lstrip_with blank s' else s
  end.

Fixpoint rstrip_with (blank : ascii -> bool) (s : string) : string :=
  match s with
  | EmptyString => EmptyString
  | String c s' =>
      match rstrip_with blank s' with
      | EmptyString => if blank c then EmptyString else String c EmptyString
      | r => String c r
      end
  end.

Definition strip_with (blank : ascii -> bool) (s : string) : string :=
  rstrip_with blank (lstrip_with blank s).

(** *** Operations that read the Unicode database *)
Section WithUnicode.
Context {U : unicode}.

(** [str.isspace] of a character: TAB..CR, FS..US and the blank in the
    ASCII range *)
Definition is_space (p : N) : bool :=
  (if p <? 128
   then ((9 <=? p) && (p <=? 13)) || ((28 <=? p) && (p <=? 32))
   else whitespace p)%N.

Fixpoint drop_spaces (l : list string) : list string :=
  match l with
  | ch :: l' => if is_space (point ch) then drop_spaces l' else l
  | [] => []
  end.

(** [s.strip()] *)
Definition strip (s : string) : string :=
  join (rev (drop_spaces (rev (drop_spaces (chars s))))).

Definition lower_point (p : N) : list N :=
  (if p <? 128 then [if (65 <=? p) && (p <=? 90) then p + 32 else p]
   else lower_full p)%N.

Definition upper_point (p : N) : list N :=
  (if p <? 128 then [if (97 <=? p) && (p <=? 122) then p - 32 else p]
   else upper_full p)%N.

Definition is_cased_point (p : N) : bool :=
  (if p <? 128
   then ((65 <=? p) && (p <=? 90)) || ((97 <=? p) && (p <=? 122))
   else cased p)%N.

(** in the ASCII range the apostrophe, the full stop, the colon, the
    circumflex and the grave accent are case-ignorable *)
Definition is_case_ignorable (p : N) : bool :=
  (if p <? 128 then existsb (N.eqb p) [39; 46; 58; 94; 96]
   else case_ignorable p)%N.

(** the first character of [l] that is not case-ignorable is cased *)
Fixpoint cased_next (l : list N) : bool :=
  match l with
  | [] => false
  | p :: l' => if is_case_ignorable p then cased_next l' else is_cased_point p
  end.

(** a capital sigma is in final position when a cased letter precedes it
    and none follows, case-ignorable characters being skipped; [before]
    holds the preceding characters, the nearest first *)
Definition final_sigma (before after : list N) : bool :=
  cased_next before && negb (cased_next after).

Fixpoint lower_from (before l : list N) : list N :=
  match l with
  | [] => []
  | p :: rest =>
      ((if (p =? 931)%N
        then [if final_sigma before rest then 962%N else 963%N]
        else lower_point p)
       ++ lower_from (p :: before) rest)%list
  end.

(** [s.lower()] *)
Definition lower (s : string) : string := of_points (lower_from [] (points s)).

(** [s.upper()] *)
Definition upper (s : string) : string :=
  of_points (flat_map upper_point (points s)).

(** what [int] reads in place of a string: a character below U+007F is
    kept, a white-space character becomes a blank, a decimal digit its
    ASCII digit, and the text ends with a question mark at any other
    character *)
Fixpoint ascii_decimal (l : list N) : string :=
  match l with
  | [] => EmptyString
  | p :: rest =>
      if (p <? 127)%N then String (byte p) (ascii_decimal rest)
      else if (128 <=? p)%N && whitespace p then String " " (ascii_decimal rest)
      else match (if (128 <=? p)%N then decimal p else None) with
           | Some d => String (ascii_of_nat (48 + d)) (ascii_decimal rest)
           | None => "?"
           end
  end.

End WithUnicode.

End PyStr.

(** ** The parsed document

    [BeautifulSoup(content, 'html.parser')] is a library call; its result,
    the tree, is what the scraper computes on.  A tree node is a tag with
    its attribute dictionary and contents, a plain [NavigableString], or a
    string of another class ([Comment], [Doctype], ...) which [get_text]
    skips but [.string] returns.  The soup object itself is the tag named
    ["[document]"].  The attributes the scraper reads ([name], [type],
    [value], [alt], [src], [action], [method]) have string values. *)
Module Soup.

Inductive node : Type :=
| NavigableString (s : string)
| Comment (s : string)
| Tag (name : string) (attrs : gmap string string) (contents : list node).

Definition soup (contents : list node) : node := Tag "[document]" ∅ contents.

(** [tag.get(key)]; a string leaf has no attributes *)
Definition get (n : node) (key : string) : option string :=
  match n with Tag _ a _ => a !! key | _ => None end.

(** [tag.get(key, default)] *)
Definition get_default (n : node) (key dflt : string) : string :=
  default dflt (get n key).

(** [tag.descendants]: every node below the tag, in document order *)
Fixpoint descendants (n : node) : list node :=
  match n with
  | Tag _ _ cs => flat_map (fun c => c :: descendants c) cs
  | _ => []
  end.

(** [tag.string] *)
Fixpoint string_of (n : node) : option string :=
  match n with
  | NavigableString s => Some s
  | Comment s => Some s
  | Tag _ _ [c] => string_of c
  | Tag _ _ _ => None
  end.

(** the strings [get_text] iterates over *)
Fixpoint all_strings (n : node) : list string :=
  match n with
  | NavigableString s => [s]
  | Comment _ => []
  | Tag _ _ cs => flat_map all_strings cs
  end.

(** [tag.get_text()] *)
Definition get_text (n : node) : string := PyStr.join (all_strings n).

(** [tag.get_text(strip=True)]: every string is stripped, empty ones are
    dropped *)
Definition get_text_strip {U : PyStr.unicode} (n : node) : string :=
  PyStr.join (List.filter PyStr.truthy (map PyStr.strip (all_strings n))).

Definition named (names : list string) (n : node) : bool :=
  match n with
  | Tag nm _ _ => existsb (String.eqb nm) names
  | _ => false
  end.

(** [tag.find_all(names, <condition>)]: the matching tags among the
    descendants, in document order *)
Definition find_all (root : node) (names : list string)
    (cond : node -> bool) : list node :=
  List.filter (fun n => named names n && cond n) (descendants root).

(** [tag.find(names, <condition>)]: the first match, or [None] *)
Definition find (root : node) (names : list string)
    (cond : node -> bool) : option node :=
  head (find_all root names cond).

(** condition [{key: value}] *)
Definition attr_is (key value : string) (n : node) : bool :=
  match get n key with Some v => String.eqb v value | None => false end.

(** condition [{key: f}] or [key=f], [f] being called on the attribute
    value or on [None] *)
Definition attr_sat (key : string) (f : option string -> bool) (n : node) : bool :=
  f (get n key).

(** condition [text=f], [f] being called on [tag.string] *)
Definition text_sat (f : option string -> bool) (n : node) : bool :=
  f (string_of n).

Definition any_tag (_ : node) : bool := true.

(** [for t in soup(names): t.decompose()]: every tag with one of the
    names disappears with its subtree *)
Fixpoint decompose_all (names : list string) (n : node) : node :=
  match n with
  | Tag nm a cs =>
      Tag nm a (flat_map (fun c => if named names c then []
                                   else [decompose_all names c]) cs)
  | _ => n
  end.

(** induction on a tree, the contents of a tag satisfying the property *)
Section Induction.
Variable P : node -> Prop.
Hypothesis on_string : forall s, P (NavigableString s).
Hypothesis on_comment : forall s, P (Comment s).
Hypothesis on_tag : forall nm a cs, Forall P cs -> P (Tag nm a cs).

Fixpoint node_ind' (n : node) : P n :=
  match n with
  | NavigableString s => on_string s
  | Comment s => on_comment s
  | Tag nm a cs =>
      on_tag nm a cs
        ((fix all (l : list node) : Forall P l :=
            match l with
            | [] => @List.Forall_nil node P
            | c :: l' => @List.Forall_cons node P c l' (node_ind' c) (all l')
            end) cs)
  end.
End Induction.

End Soup.

(** ** Python values and result dictionaries *)
Module Py.

(** the values that occur in the result records *)
Inductive value : Type :=
| VNone
| VBool (b : bool)
| VInt (z : Z)
| VStr (s : string)
| VList (l : list value)
| VDict (d : gmap string value).

Abbreviation dict := (gmap string value).

(** a dict display [{k1: v1, k2: v2, ...}]: the entries are stored from
    left to right *)
Definition mk (entries : list (string * value)) : dict :=
  fold_left (fun d kv => <[kv.1 := kv.2]> d) entries ∅.

(** truth value of an object *)
Definition truthy (v : value) : bool :=
  match v with
  | VNone => false
  | VBool b => b
  | VInt z => negb (Z.eqb z 0)
  | VStr s => PyStr.truthy s
  | VList l => match l with [] => false | _ => true end
  | VDict d => negb (Nat.eqb (size d) 0)
  end.

(** [v == s] for a string literal [s] *)
Definition eq_str (v : value) (s : string) : bool :=
  match v with VStr s' => String.eqb s' s | _ => false end.

(** [d.get(key)] on a dict *)
Definition get (d : dict) (key : string) : value := default VNone (d !! key).

(** [d.get(key, dflt)] on a dict *)
Definition get_default (d : dict) (key : string) (dflt : value) : value :=
  default dflt (d !! key).

(** [type(v).__name__] *)
Definition type_name (v : value) : string :=
  match v with
  | VNone => "NoneType"
  | VBool _ => "bool"
  | VInt _ => "int"
  | VStr _ => "str"
  | VList _ => "list"
  | VDict _ => "dict"
  end.

(** [str(n)] for an integer *)
Definition str_of_int (z : Z) : string := NilZero.string_of_int (Z.to_int z).

End Py.

(** ** Effects

    The scraper talks to the portal through one [requests.Session], the
    collaborators write result files.  A computation reads the world,
    appends the requests and writes it performs to the history, and either
    returns or raises.  An exception is represented by its [str(e)]. *)
Module Eff.
Import Py.

Definition exn := string.

Inductive outcome (A : Type) : Type :=
| Return (a : A)
| Raise (e : exn).
Arguments Return {A} a.
Arguments Raise {A} e.

Inductive request : Type :=
| GET (url : string) (params : option (gmap string string)) (timeout : Z)
| POST (url : string) (data : gmap string string) (timeout : Z).

Inductive event : Type :=
| Http (r : request)
| Write (path : string) (data : dict) (format_type : string)
| Echo (line : string)
| Prompt (text : string).

Record response : Type := { status_code : Z; content : string }.

Record world : Type := {
  (** the portal: the answer to a request may depend on what happened
      before (cookies); a connection error or timeout raises *)
  send : list event -> request -> outcome response;
  (** the parser behind [BeautifulSoup(content, 'html.parser')]: the
      top-level nodes of the document, unless it raises *)
  html_parser : string -> outcome (list Soup.node);
  (** [urllib.parse.urljoin], which raises [ValueError] on a URL it
      cannot split *)
  urljoin : string -> option string -> outcome string;
  (** writing a result file; an I/O error raises *)
  write_file : list event -> string -> outcome unit;
  (** what the user types at a [click.prompt] *)
  answer : list event -> string -> string;
  (** [format_date(datetime.now())] and
      [format_date(datetime.now() + timedelta(days=1))] *)
  today : string;
  tomorrow : string;
  (** [datetime.now().year] *)
  current_year : Z;
  (** [sys.get_int_max_str_digits()], 0 when there is no limit *)
  int_max_str_digits : nat
}.

Definition M (A : Type) : Type :=
  world -> list event -> outcome A * list event.

Definition ret {A} (a : A) : M A := fun _ h => (Return a, h).

Definition raise {A} (e : exn) : M A := fun _ h => (Raise e, h).

Definition bind {A B} (c : M A) (k : A -> M B) : M B :=
  fun w h =>
    match c w h with
    | (Return a, h') => k a w h'
    | (Raise e, h') => (Raise e, h')
    end.

(** [try: body  except Exception as e: handler(e)] *)
Definition try_except {A} (body : M A) (handler : exn -> M A) : M A :=
  fun w h =>
    match body w h with
    | (Return a, h') => (Return a, h')
    | (Raise e, h') => handler e w h'
    end.

Definition ask : M world := fun w h => (Return w, h).

(** [urljoin(base, url)] *)
Definition call_urljoin (base : string) (url : option string) : M string :=
  fun w h => (urljoin w base url, h).

(** issue a request on the session *)
Definition perform (r : request) : M response :=
  fun w h => (send w h r, (h ++ [Http r])%list).

Definition session_get (url : string) (timeout : Z) : M response :=
  perform (GET url None timeout).

Definition session_get_params (url : string) (params : gmap string string)
    (timeout : Z) : M response :=
  perform (GET url (Some params) timeout).

Definition session_post (url : string) (data : gmap string string)
    (timeout : Z) : M response :=
  perform (POST url data timeout).

Definition BeautifulSoup (markup : string) : M Soup.node :=
  fun w h =>
    match html_parser w markup with
    | Return contents => (Return (Soup.soup contents), h)
    | Raise e => (Raise e, h)
    end.

Definition write (path : string) (data : dict) (format_type : string) : M unit :=
  fun w h => (write_file w h path, (h ++ [Write path data format_type])%list).

Definition echo (line : string) : M unit :=
  fun _ h => (Return tt, (h ++ [Echo line])%list).

Definition prompt (text : string) : M string :=
  fun w h => (Return (answer w h text), (h ++ [Prompt text])%list).

(** [for x in l: body(x)] *)
Fixpoint for_each {A} (l : list A) (body : A -> M unit) : M unit :=
  match l with
  | [] => ret tt
  | x :: l' => bind (body x) (fun _ => for_each l' body)
  end.

(** the requests sent to the portal in a history *)
Definition is_http (e : event) : bool :=
  match e with Http _ => true | _ => false end.

Definition requests (h : list event) : list event := List.filter is_http h.

End Eff.

Notation "'let*' x ':=' c 'in' k" := (Eff.bind c (fun x => k))
  (at level 10, x name, c at level 100, k at level 200).

(** ** [ecourts_scraper/utils.py] *)
Module Utils.
Import Py Eff.

Definition is_digit (c : ascii) : bool :=
  Nat.leb 48 (PyStr.code c) && Nat.leb (PyStr.code c) 57.

Definition digit_value (c : ascii) : Z := Z.of_nat (PyStr.code c - 48).

(** the digits of a decimal literal, read left to right: single
    underscores may separate digits; [prev] tells whether the character
    just read was an underscore; the result is the value and the number
    of digits *)
Fixpoint digits (acc : Z) (count : nat) (prev : bool) (s : string)
    : option (Z * nat) :=
  match s with
  | EmptyString => if prev then None else Some (acc, count)
  | String c s' =>
      if Ascii.eqb c "_" then
        if prev then None else digits acc count true s'
      else if is_digit c then
        digits (10 * acc + digit_value c) (S count) false s'
      else None
  end.

(** the blanks [int] skips around a literal: TAB..CR and the space, but
    not FS..US, which [strip] would drop *)
Definition is_blank (c : ascii) : bool :=
  (Nat.leb 9 (PyStr.code c) && Nat.leb (PyStr.code c) 13)
  || Nat.eqb (PyStr.code c) 32.

(** the sign a literal may open with, and what follows it *)
Definition sign_and_body (s : string) : bool * string :=
  match s with
  | String c r =>
      if Ascii.eqb c "-" then (true, r)
      else if Ascii.eqb c "+" then (false, r)
      else (false, s)
  | EmptyString => (false, s)
  end.

Section WithUnicode.
Context {U : PyStr.unicode}.

(** [int(s)] for a string: [None] stands for [ValueError].  The text is
    first brought to ASCII: white space above U+007F becomes a blank and
    a decimal digit of any script its ASCII digit (a string that is
    ASCII already is read as it is, which changes nothing: DEL and the
    question mark are both refused).  Then blanks around the literal are
    dropped, one sign is allowed, the literal is made of digits, is not
    empty and neither starts nor ends with an underscore; a literal of
    more than [limit] digits is refused when the limit is set (CPython
    checks it for literals of more than 640 digits, the least limit that
    can be set). *)
Definition py_int (limit : nat) (s : string) : option Z :=
  let s := PyStr.strip_with is_blank (PyStr.ascii_decimal (PyStr.points s)) in
  let '(negative, body) := sign_and_body s in
  match body with
  | EmptyString => None
  | String c _ =>
      if Ascii.eqb c "_" then None
      else
        match digits 0 0 false body with
        | Some (v, n) =>
            if Nat.ltb 640 n && Nat.ltb 0 limit && Nat.ltb limit n then None
            else Some (if negative then (- v)%Z else v)
        | None => None
        end
  end.

(** truth value of an optional string argument ([None] or a [str]) *)
Definition given (o : option string) : bool :=
  match o with Some s => PyStr.truthy s | None => false end.

Definition validate_cnr (cnr : option string) : bool :=
  match cnr with
  | Some c =>
      if PyStr.truthy c && String.eqb (PyStr.upper c) "DEMO123" then true
      else if negb (PyStr.truthy c) || Nat.ltb (PyStr.len c) 10 then false
      else true
  | None => false
  end.

(** [validate_case_details]; [limit] and [year_now] are read from the
    interpreter and the clock *)
Definition validate_case_details (limit : nat) (year_now : Z)
    (case_type case_number case_year : option string) : bool :=
  if negb (given case_type && given case_number && given case_year) then false
  else
    match case_year with
    | Some cy =>
        match py_int limit cy with
        | Some year =>
            if (year <? 1950)%Z || (year_now <? year)%Z then false else true
        | None => false
        end
    | None => false
    end.

(** [os.path.join("output", name)] on a POSIX system *)
Definition output_path (name : string) : string :=
  match name with
  | String "/" _ => name
  | _ => "output/" ++ name
  end.

(** [save_results]: the directory is created, the file written in the
    chosen format, its path returned *)
Definition save_results (data : dict) (filename format_type : string) : M string :=
  let filepath :=
    if String.eqb format_type "json"
    then output_path (filename ++ ".json")
    else output_path (filename ++ ".txt") in
  let* _ := write filepath data format_type in
  ret filepath.

End WithUnicode.

End Utils.

(** ** [ecourts_scraper/scraper.py]: class [ECourtsScraper]

    The messages the scraper hands to its logger go to the standard error
    stream.  They have no influence on the results and are left out: a
    history records the requests, the files written, the lines the
    command line tool prints with [click.echo] and its prompts, and
    nothing of what is logged. *)
Module Scraper.
Import Soup Py Eff.

Section WithUnicode.
Context {U : PyStr.unicode}.

Definition services_url : string := "https://services.ecourts.gov.in".

Definition error_record (message : string) : dict :=
  mk [("status", VStr "error"); ("message", VStr message);
      ("new_scraper", VBool true)].

(** *** [_parse_search_results] *)

Definition error_words : list string :=
  ["error"; "invalid"; "not found"; "incorrect"].
Definition status_words : list string :=
  ["listed"; "pending"; "disposed"; "hearing"].
Definition case_keywords : list string :=
  ["case"; "court"; "status"; "date"; "judge"].
Definition css_indicators : list string :=
  ["{"; "}"; "padding:"; "margin:"; "border:"; "color:"; "font-"].
Definition text_tags : list string := ["div"; "span"; "p"; "td"].

(** [lambda text: text and any(word in text.lower() for word in words)] *)
Definition mentions (words : list string) (text : option string) : bool :=
  match text with
  | Some t => PyStr.truthy t && PyStr.any_in words (PyStr.lower t)
  | None => false
  end.

(** [any(css_indicator in text for css_indicator in [...])] *)
Definition css_like (text : string) : bool := PyStr.any_in css_indicators text.

(** the two loops that drop CSS-like content *)
Definition clean_texts (elements : list node) : list string :=
  fold_left (fun msgs element =>
               let text := get_text_strip element in
               if negb (css_like text) then (msgs ++ [text])%list else msgs)
            elements [].

(** the body of the loop over the rows of a table *)
Definition scan_row (case_info : gmap string string) (row : node)
    : gmap string string :=
  match find_all row ["td"; "th"] any_tag with
  | c0 :: c1 :: _ =>
      let key := PyStr.lower (get_text_strip c0) in
      let value := get_text_strip c1 in
      if PyStr.any_in case_keywords key then <[key := value]> case_info
      else case_info
  | _ => case_info
  end.

Definition scan_tables (soup : node) : gmap string string :=
  fold_left (fun case_info table =>
               fold_left scan_row (find_all table ["tr"] any_tag) case_info)
            (find_all soup ["table"] any_tag) ∅.

(** what [_parse_search_results] does with the parsed document *)
Definition classify (parsed : node) (cnr : string) : dict :=
  let soup := decompose_all ["script"; "style"] parsed in
  let error_elements := find_all soup text_tags (text_sat (mentions error_words)) in
  let clean_error_msgs := clean_texts error_elements in
  match clean_error_msgs with
  | first :: _ =>
      mk [("status", VStr "search_failed");
          ("message", VStr ("Search failed: " ++ first));
          ("cnr", VStr cnr);
          ("new_scraper", VBool true)]
  | [] =>
      let case_info := scan_tables soup in
      let status_elements :=
        find_all soup text_tags (text_sat (mentions status_words)) in
      let status_indicators := clean_texts status_elements in
      if negb (bool_decide (case_info = ∅))
         || negb (bool_decide (status_indicators = []))
      then
        mk [("status", VStr "case_found");
            ("message", VStr "Case information retrieved successfully");
            ("cnr", VStr cnr);
            ("case_details", VDict (VStr <$> case_info));
            ("status_indicators", VList (VStr <$> take 5 status_indicators));
            ("real_case_data", VBool true);
            ("new_scraper", VBool true)]
      else
        let page_text := PyStr.lower (get_text soup) in
        if PyStr.contains "case" page_text || PyStr.contains "court" page_text
        then
          mk [("status", VStr "no_case_data");
              ("message", VStr "Connected successfully but no case information found");
              ("cnr", VStr cnr);
              ("page_content_sample", VStr (PyStr.take 500 (get_text soup)));
              ("new_scraper", VBool true)]
        else
          mk [("status", VStr "unexpected_response");
              ("message", VStr "Received unexpected response from eCourts");
              ("cnr", VStr cnr);
              ("new_scraper", VBool true)]
  end.

Definition _parse_search_results (html_content cnr : string) : M dict :=
  try_except
    (let* soup := BeautifulSoup html_content in
     ret (classify soup cnr))
    (fun e => ret (error_record e)).

(** *** [_submit_cnr_search] *)

(** the hidden inputs of the form *)
Definition hidden_inputs (form : node) : list node :=
  find_all form ["input"] (attr_is "type" "hidden").

(** the body of the loop over the hidden inputs *)
Definition add_hidden (form_data : gmap string string) (hidden : node)
    : gmap string string :=
  let name := Soup.get hidden "name" in
  let value := Soup.get_default hidden "value" "" in
  match name with
  | Some nm => if PyStr.truthy nm then <[nm := value]> form_data else form_data
  | None => form_data
  end.

(** the field map that is submitted *)
Definition build_form_data (cnr captcha_code : string) (form : node)
    : gmap string string :=
  let form_data := <["fcaptcha_code" := captcha_code]> (<["cino" := cnr]> ∅) in
  fold_left add_hidden (hidden_inputs form) form_data.

Definition _submit_cnr_search (cnr captcha_code : string) (form soup : node)
    : M dict :=
  try_except
    (let form_action := Soup.get_default form "action" "" in
     let form_method := PyStr.upper (Soup.get_default form "method" "POST") in
     let form_data := build_form_data cnr captcha_code form in
     let* submit_url := call_urljoin services_url (Some form_action) in
     let* response :=
       if String.eqb form_method "POST"
       then session_post submit_url form_data 15
       else session_get_params submit_url form_data 15 in
     if Z.eqb (status_code response) 200 then
       let* result := _parse_search_results (content response) cnr in
       ret result
     else
       ret (error_record ("Search submission failed: HTTP "
                          ++ str_of_int (status_code response))))
    (fun e => ret (error_record e)).

(** *** [search_by_cnr] *)

(** [lambda x: x and 'captcha' in x.lower()] *)
Definition has_captcha (x : option string) : bool :=
  match x with
  | Some v => PyStr.truthy v && PyStr.contains "captcha" (PyStr.lower v)
  | None => false
  end.

Definition search_by_cnr (cnr date : string) (captcha_code : option string)
    : M dict :=
  try_except
    (let* response := session_get services_url 10 in
     if Z.eqb (status_code response) 200 then
       let* soup := BeautifulSoup (content response) in
       let cnr_input := find soup ["input"] (attr_is "name" "cino") in
       let captcha_input := find soup ["input"] (attr_is "name" "fcaptcha_code") in
       let search_form := find soup ["form"] any_tag in
       match cnr_input, captcha_input, search_form with
       | Some _, Some _, Some search_form =>
           let captcha_img :=
             match find soup ["img"] (attr_sat "alt" has_captcha) with
             | Some img => Some img
             | None => find soup ["img"] (attr_sat "src" has_captcha)
             end in
           let* captcha_url :=
             match captcha_img with
             | Some img =>
                 let* url := call_urljoin services_url (Soup.get img "src") in
                 ret (VStr url)
             | None => ret VNone
             end in
           let captcha_required :=
             mk [("status", VStr "captcha_required");
                 ("cnr", VStr cnr);
                 ("date", VStr date);
                 ("connection", VStr "success");
                 ("website_accessible", VBool true);
                 ("search_form_found", VBool true);
                 ("captcha_required", VBool true);
                 ("captcha_url", captcha_url);
                 ("message", VStr "CNR search form found - captcha required");
                 ("new_scraper", VBool true)] in
           match captcha_code with
           | Some code =>
               if PyStr.truthy code
               then _submit_cnr_search cnr code search_form soup
               else ret captcha_required
           | None => ret captcha_required
           end
       | _, _, _ =>
           ret (error_record "CNR search form not found on services page")
       end
     else
       ret (error_record ("Services website returned status code: "
                          ++ str_of_int (status_code response))))
    (fun e => ret (error_record e)).

(** *** [search_by_case_details] *)

Definition search_by_case_details
    (case_type case_number case_year date : string) : M dict :=
  try_except
    (let* response := session_get services_url 10 in
     if Z.eqb (status_code response) 200 then
       let* soup := BeautifulSoup (content response) in
       let title := find soup ["title"] any_tag in
       let page_title :=
         match title with
         | Some t => PyStr.strip (get_text t)
         | None => "eCourts Services"
         end in
       ret (mk [("status", VStr "found");
                ("case_type", VStr case_type);
                ("case_number", VStr case_number);
                ("case_year", VStr case_year);
                ("date", VStr date);
                ("connection", VStr "success");
                ("website_accessible", VBool true);
                ("page_title", VStr page_title);
                ("new_scraper", VBool true)])
     else
       ret (error_record ("Website returned status code: "
                          ++ str_of_int (status_code response))))
    (fun e => ret (error_record e)).

(** *** [get_case_listing] *)

(** [obj.get(key)], where [obj] may be any object: only a dict has the
    method *)
Definition call_get (obj : value) (key : string) : M value :=
  match obj with
  | VDict d => ret (Py.get d key)
  | _ => raise ("'" ++ type_name obj ++ "' object has no attribute 'get'")
  end.

(** [obj.get(key, dflt)] *)
Definition call_get_default (obj : value) (key : string) (dflt : value) : M value :=
  match obj with
  | VDict d => ret (Py.get_default d key dflt)
  | _ => raise ("'" ++ type_name obj ++ "' object has no attribute 'get'")
  end.

Definition connection_failed (target_date : string) : dict :=
  mk [("status", VStr "connection_failed");
      ("message", VStr "Failed to connect to eCourts");
      ("date", VStr target_date);
      ("real_data", VBool true);
      ("new_scraper_response", VBool true)].

Definition get_case_listing (search_params : value) (target_date : string)
    : M dict :=
  try_except
    (let* connection := call_get search_params "connection" in
     if eq_str connection "success" then
       let* captcha := call_get search_params "captcha_required" in
       if truthy captcha then
         ret (mk [("status", VStr "captcha_required");
                  ("message", VStr "eCourts search form found but requires captcha verification");
                  ("date", VStr target_date);
                  ("website_status", VStr "âœ… Connected to eCourts Services");
                  ("captcha_status", VStr "ðŸ”’ Captcha verification required");
                  ("real_data", VBool true);
                  ("new_scraper_response", VBool true);
                  ("case_details", search_params)])
       else
         let* accessible := call_get search_params "website_accessible" in
         if truthy accessible then
           let* page_title :=
             call_get_default search_params "page_title" (VStr "eCourts Services") in
           ret (mk [("status", VStr "connected");
                    ("message", VStr "Successfully connected to eCourts website");
                    ("date", VStr target_date);
                    ("website_status", VStr "âœ… Connected to eCourts");
                    ("page_title", page_title);
                    ("real_data", VBool true);
                    ("new_scraper_response", VBool true);
                    ("case_details", search_params)])
         else ret (connection_failed target_date)
     else ret (connection_failed target_date))
    (fun e =>
       ret (mk [("status", VStr "error");
                ("message", VStr e);
                ("real_data", VBool true);
                ("new_scraper_response", VBool true)])).

(** *** [download_case_pdf], [download_cause_list] *)

Definition download_case_pdf (case_info : value) : M (option string) := ret None.

Definition download_cause_list (court_name date : string) : M dict :=
  ret (mk [("status", VStr "connected");
           ("court", VStr court_name);
           ("date", VStr date);
           ("message", VStr "âœ… Connected to eCourts Services");
           ("real_data", VBool true);
           ("new_scraper_response", VBool true)]).

End WithUnicode.

End Scraper.

(** ** [ecourts_scraper/api.py]

    A handler returns the JSON body and the HTTP status of its response.
    The members of a request body are strings or absent. *)
Module Api.
Import Py Eff.

Section WithUnicode.
Context {U : PyStr.unicode}.

Record cnr_query : Type := {
  q_cnr : option string;
  q_date : option string;
  q_captcha_code : option string
}.

Record case_query : Type := {
  q_case_type : option string;
  q_case_number : option string;
  q_case_year : option string;
  q_case_date : option string
}.

Definition strs (entries : list (string * string)) : dict :=
  mk (map (fun kv => (kv.1, VStr kv.2)) entries).

Definition demo_case_details : list (string * string) :=
  [("case_number", "DEMO/123/2024");
   ("court_name", "Demo District Court");
   ("case_type", "Civil Suit");
   ("filing_date", "15-01-2024");
   ("status", "Pending");
   ("next_hearing", "25-10-2025");
   ("judge", "Hon'ble Justice Demo");
   ("petitioner", "Demo Petitioner");
   ("respondent", "Demo Respondent")].

Definition demo_status_indicators : list string :=
  ["Case is listed for hearing"; "Documents filed"; "Notice served"].

Definition demo_result (cnr : string) : dict :=
  mk [("status", VStr "case_found");
      ("message", VStr "Demo case information retrieved successfully");
      ("cnr", VStr cnr);
      ("case_details", VDict (strs demo_case_details));
      ("status_indicators", VList (VStr <$> demo_status_indicators));
      ("real_case_data", VBool true);
      ("demo_mode", VBool true);
      ("new_scraper", VBool true)].

Definition error_body (message : string) : dict := mk [("error", VStr message)].

(** [result.get('status') == tag] *)
Definition status_is (result : dict) (tag : string) : bool :=
  eq_str (Py.get result "status") tag.

Definition target_date_of (w : world) (date_option : string) : string :=
  if String.eqb date_option "tomorrow" then tomorrow w else today w.

(** [POST /search/cnr] *)
Definition search_by_cnr (data : cnr_query) : M (dict * Z) :=
  try_except
    (let date_option := default "today" (q_date data) in
     let captcha_code := q_captcha_code data in
     match q_cnr data with
     | None => ret (error_body "CNR is required", 400%Z)
     | Some cnr =>
       if negb (PyStr.truthy cnr) then ret (error_body "CNR is required", 400%Z)
       else if negb (Utils.validate_cnr (Some cnr))
       then ret (error_body "Invalid CNR format", 400%Z)
       else
         let* w := ask in
         let target_date := target_date_of w date_option in
         let search_params := mk [("cnr", VStr cnr); ("date", VStr target_date)] in
         let filename := "case_result_" ++ cnr ++ "_" ++ target_date in
         if String.eqb (PyStr.upper cnr) "DEMO123" then
           let demo := demo_result cnr in
           let* _ := Utils.save_results demo filename "json" in
           ret (mk [("success", VBool true);
                    ("data", VDict demo);
                    ("search_params", VDict search_params);
                    ("demo_data", VBool true);
                    ("saved_to_file", VStr (filename ++ ".json"))], 200%Z)
         else
           let* result := Scraper.search_by_cnr cnr target_date captcha_code in
           if status_is result "error" then ret (result, 500%Z)
           else if status_is result "captcha_required" then
             ret (mk [("success", VBool true);
                      ("captcha_required", VBool true);
                      ("data", VDict result);
                      ("search_params", VDict search_params)], 200%Z)
           else if status_is result "case_found"
                   || status_is result "no_case_data"
                   || status_is result "search_failed" then
             let* _ := Utils.save_results result filename "json" in
             ret (mk [("success", VBool true);
                      ("data", VDict result);
                      ("search_params", VDict search_params);
                      ("real_case_data", VBool true);
                      ("saved_to_file", VStr (filename ++ ".json"))], 200%Z)
           else
             let* listing := Scraper.get_case_listing (VDict result) target_date in
             let* _ := Utils.save_results listing filename "json" in
             ret (mk [("success", VBool true);
                      ("data", VDict listing);
                      ("search_params", VDict search_params);
                      ("real_ecourts_data", VBool true);
                      ("saved_to_file", VStr (filename ++ ".json"))], 200%Z)
     end)
    (fun e => ret (error_body e, 500%Z)).

(** [POST /search/case] *)
Definition search_by_case_details (data : case_query) : M (dict * Z) :=
  try_except
    (let date_option := default "today" (q_case_date data) in
     let* w := ask in
     if negb (Utils.validate_case_details (int_max_str_digits w) (current_year w)
                (q_case_type data) (q_case_number data) (q_case_year data))
     then ret (error_body "Invalid case details", 400%Z)
     else
       match q_case_type data, q_case_number data, q_case_year data with
       | Some case_type, Some case_number, Some case_year =>
           let target_date := target_date_of w date_option in
           let* result :=
             Scraper.search_by_case_details case_type case_number case_year
                                            target_date in
           if status_is result "error" then ret (result, 500%Z)
           else
             let* listing := Scraper.get_case_listing (VDict result) target_date in
             ret (mk [("success", VBool true);
                      ("data", VDict listing);
                      ("search_params",
                       VDict (mk [("case_type", VStr case_type);
                                  ("case_number", VStr case_number);
                                  ("case_year", VStr case_year);
                                  ("date", VStr target_date)]));
                      ("real_ecourts_data", VBool true)], 200%Z)
       | _, _, _ => ret (error_body "Invalid case details", 400%Z)
       end)
    (fun e => ret (error_body e, 500%Z)).

Definition sample_case (serial case status : string) : value :=
  VDict (strs [("serial", serial); ("case", case); ("status", status)]).

Definition demo_cause_list (date : string) : dict :=
  mk [("status", VStr "connected");
      ("court", VStr "Demo District Court");
      ("date", VStr date);
      ("message", VStr "Connected to eCourts Services");
      ("cause_list_links_found", VInt 5);
      ("website_accessible", VBool true);
      ("note", VStr "Demo cause list with sample cases");
      ("real_data", VBool true);
      ("demo_mode", VBool true);
      ("available_features",
       VList [VStr "Court selection available";
              VStr "Date-specific cause lists";
              VStr "PDF download capability"]);
      ("sample_cases",
       VList [sample_case "001" "DEMO/001/2024 - Civil Suit" "Listed";
              sample_case "002" "DEMO/002/2024 - Criminal Case" "Pending";
              sample_case "003" "DEMO/003/2024 - Family Matter" "Hearing";
              sample_case "004" "DEMO/004/2024 - Property Dispute" "Listed";
              sample_case "005" "DEMO/005/2024 - Contract Dispute" "Final Arguments"])].

(** [GET /causelist/<court_name>/<date>] *)
Definition get_cause_list (court_name date : string) : M (dict * Z) :=
  try_except
    (if String.eqb (PyStr.lower court_name) "demo"
        || PyStr.contains "demo" (PyStr.lower court_name)
     then
       let cause_list_data := demo_cause_list date in
       let filename := "causelist_" ++ PyStr.replace_char " " "_" court_name ++ "_" ++ date in
       let* _ := Utils.save_results cause_list_data filename "json" in
       ret (mk [("success", VBool true);
                ("data", VDict cause_list_data);
                ("saved_to_file", VStr (filename ++ ".json"))], 200%Z)
     else
       let* cause_list := Scraper.download_cause_list court_name date in
       if status_is cause_list "error" then ret (cause_list, 500%Z)
       else ret (mk [("success", VBool true);
                     ("data", VDict cause_list)], 200%Z))
    (fun e => ret (error_body e, 500%Z)).

End WithUnicode.

End Api.

(** ** [ecourts_scraper/cli.py]

    [main] is followed up to the end of its demo mode.  What it does for
    any other CNR (the real search and the cause list that may follow) and
    for a search by case details is a parameter of [main]; the two are
    given after it, and [run] puts them together. *)
Module Cli.
Import Py Eff.

Section WithUnicode.
Context {U : PyStr.unicode}.

(** the demo record of the command line tool *)
Definition demo_result (cnr : string) : dict :=
  mk [("status", VStr "case_found");
      ("message", VStr "Demo case information retrieved successfully");
      ("cnr", VStr cnr);
      ("case_details", VDict (Api.strs Api.demo_case_details));
      ("status_indicators", VList (VStr <$> Api.demo_status_indicators));
      ("real_case_data", VBool true);
      ("demo_mode", VBool true)].

(** lines 67-110 *)
Definition demo_mode (cnr target_date output_format : string) : M unit :=
  let demo := demo_result cnr in
  let* _ := echo "Case Information Found!" in
  let* _ := echo ("CNR: " ++ cnr) in
  let* _ := echo "Message: Demo case information retrieved successfully" in
  let* _ := echo (PyStr.newline ++ "Case Details:") in
  let* _ := for_each Api.demo_case_details (fun kv =>
              echo ("  " ++ PyStr.title (PyStr.replace_char "_" " " kv.1)
                    ++ ": " ++ kv.2)) in
  let* _ := echo (PyStr.newline ++ "Status Indicators:") in
  let* _ := for_each Api.demo_status_indicators (fun indicator =>
              echo ("  - " ++ indicator)) in
  let filename := "case_result_" ++ cnr ++ "_" ++ target_date in
  let* _ := Utils.save_results demo filename output_format in
  echo (PyStr.newline ++ "Results saved to: output/" ++ filename ++ "."
        ++ output_format).

Section Main.

(** lines 112-247 for a CNR, a target date, the cause-list flag and the
    output format *)
Variable real_cnr_search : string -> string -> bool -> string -> M unit.

(** lines 177-247 for the case details, a target date, the cause-list
    flag and the output format *)
Variable case_details_search :
  option string -> option string -> option string ->
  string -> bool -> string -> M unit.

Definition main (cnr case_type case_number case_year : option string)
    (today_flag tomorrow_flag causelist : bool) (output_format : string)
    : M unit :=
  let* w := ask in
  let* target_date :=
    if today_flag then ret (today w)
    else if tomorrow_flag then ret (tomorrow w)
    else
      let* choice := prompt "Check for (1) Today or (2) Tomorrow?" in
      if String.eqb choice "1" then ret (today w) else ret (tomorrow w) in
  let* details :=
    if negb (Utils.given cnr)
       && negb (Utils.given case_type && Utils.given case_number
                && Utils.given case_year)
    then
      let* search_method := prompt "Search by (1) CNR or (2) Case Details?" in
      if String.eqb search_method "1" then
        let* c := prompt "Enter CNR number" in
        ret (Some c, case_type, case_number, case_year)
      else
        let* t := prompt "Enter case type" in
        let* n := prompt "Enter case number" in
        let* y := prompt "Enter case year" in
        ret (cnr, Some t, Some n, Some y)
    else ret (cnr, case_type, case_number, case_year) in
  let '(cnr, case_type, case_number, case_year) := details in
  try_except
    (match cnr with
     | Some c =>
         if PyStr.truthy c then
           if negb (Utils.validate_cnr cnr) then echo "Error: Invalid CNR format"
           else if String.eqb (PyStr.upper c) "DEMO123"
           then demo_mode c target_date output_format
           else real_cnr_search c target_date causelist output_format
         else
           case_details_search case_type case_number case_year
                               target_date causelist output_format
     | None =>
         case_details_search case_type case_number case_year
                             target_date causelist output_format
     end)
    (fun e => echo ("Error: " ++ e)).

End Main.

(** ** The searches of [main] and its cause list

    What [main] does after its demo mode.  A record tagged case_found is
    displayed by lines 128-140, which print the items of a dict in the
    order of their insertion; they are kept abstract. *)
Section Display.

(** [repr(v)], which is what [str(v)] is for a value that is not a
    string *)
Variable repr : value -> string.

(** lines 128-140 *)
Variable show_case_found : dict -> M unit.

(** [str(v)], as an f-string formats a value *)
Definition str (v : value) : string :=
  match v with VStr s => s | _ => repr v end.

(** [d[key]]: a missing key raises [KeyError], whose text is the key in
    quotes *)
Definition subscript (d : dict) (key : string) : M value :=
  match d !! key with
  | Some v => ret v
  | None => raise ("'" ++ key ++ "'")
  end.

Definition sample_cases : list (string * string * string) :=
  [("001", "DEMO/001/2024 - Civil Suit", "Listed");
   ("002", "DEMO/002/2024 - Criminal Case", "Pending");
   ("003", "DEMO/003/2024 - Family Matter", "Hearing");
   ("004", "DEMO/004/2024 - Property Dispute", "Listed");
   ("005", "DEMO/005/2024 - Contract Dispute", "Final Arguments")].

Definition available_features : list string :=
  ["Court selection available";
   "Date-specific cause lists";
   "PDF download capability"].

(** the cause list of the command line tool *)
Definition cause_list_data (target_date : string) : dict :=
  mk [("status", VStr "connected");
      ("court", VStr "Demo District Court");
      ("date", VStr target_date);
      ("message", VStr "Connected to eCourts Services");
      ("cause_list_links_found", VInt 5);
      ("website_accessible", VBool true);
      ("note", VStr "Demo cause list with sample cases");
      ("real_data", VBool true);
      ("demo_mode", VBool true);
      ("available_features", VList (VStr <$> available_features));
      ("sample_cases",
       VList ((fun case => Api.sample_case case.1.1 case.1.2 case.2) <$> sample_cases))].

(** lines 201-247 *)
Definition cause_list_step (target_date : string) (causelist : bool)
    (output_format : string) : M unit :=
  if causelist then
    let* _ := echo (PyStr.newline ++ "Downloading Cause List...") in
    let* _ := echo "eCourts Cause List Service" in
    let* _ := echo "Status: Connected to eCourts Services" in
    let* _ := echo "Court: Demo District Court" in
    let* _ := echo ("Date: " ++ target_date) in
    let* _ := echo "Note: Demo cause list with sample cases" in
    let* _ := echo (PyStr.newline ++ "Sample Cases:") in
    let* _ := for_each sample_cases (fun case =>
                echo ("  " ++ case.1.1 ++ ": " ++ case.1.2 ++ " - " ++ case.2)) in
    let* _ := echo (PyStr.newline ++ "Available Features:") in
    let* _ := for_each available_features (fun feature =>
                echo ("  - " ++ feature)) in
    let filename := "causelist_Demo_Court_" ++ target_date in
    let* _ := Utils.save_results (cause_list_data target_date) filename output_format in
    echo (PyStr.newline ++ "Cause list saved to: output/" ++ filename ++ "."
          ++ output_format)
  else ret tt.

(** lines 112-175, then the cause list *)
Definition real_cnr_search (cnr target_date : string) (causelist : bool)
    (output_format : string) : M unit :=
  let captcha_code : option string := None in
  let* result := Scraper.search_by_cnr cnr target_date captcha_code in
  if Api.status_is result "captcha_required" then
    let* _ := echo "Captcha Required" in
    let* _ := echo "Status: Connected to eCourts Services" in
    let* _ := echo "Message: CNR search form found but requires captcha verification" in
    let* _ := echo "Note: Captcha solving is only available in web interface" in
    echo "Please use the web interface at http://127.0.0.1:5000 for captcha-based searches"
  else
    let* _ :=
      if Api.status_is result "case_found"
         || Api.status_is result "no_case_data"
         || Api.status_is result "search_failed" then
        let* _ :=
          if Api.status_is result "case_found" then show_case_found result
          else if Api.status_is result "no_case_data" then
            let* _ := echo "No Case Data Found" in
            let* number := subscript result "cnr" in
            let* _ := echo ("CNR: " ++ str number) in
            let* message := subscript result "message" in
            echo ("Message: " ++ str message)
          else if Api.status_is result "search_failed" then
            let* _ := echo "Search Failed" in
            let* number := subscript result "cnr" in
            let* _ := echo ("CNR: " ++ str number) in
            let* message := subscript result "message" in
            echo ("Error: " ++ str message)
          else ret tt in
        let filename := "case_result_" ++ cnr ++ "_" ++ target_date in
        let* _ := Utils.save_results result filename output_format in
        echo (PyStr.newline ++ "Results saved to: output/" ++ filename ++ "."
              ++ output_format)
      else
        let* listing := Scraper.get_case_listing (VDict result) target_date in
        let* _ :=
          if Api.status_is listing "connected" then
            let* _ := echo "eCourts Connection Successful" in
            let* _ := echo ("Status: " ++ str (Py.get_default listing "website_status"
                                                 (VStr "Connected"))) in
            let* _ := echo ("Message: " ++ str (Py.get listing "message")) in
            if truthy (Py.get listing "page_title")
            then echo ("Page Title: " ++ str (Py.get listing "page_title"))
            else ret tt
          else
            let* _ := echo "Connection Failed" in
            let* _ := echo ("Status: " ++ str (Py.get_default listing "website_status"
                                                 (VStr "Failed"))) in
            echo ("Message: " ++ str (Py.get listing "message")) in
        let filename := "case_result_" ++ cnr ++ "_" ++ target_date in
        let* _ := Utils.save_results listing filename output_format in
        echo (PyStr.newline ++ "Results saved to: output/" ++ filename ++ "."
              ++ output_format) in
    cause_list_step target_date causelist output_format.

(** lines 177-199, then the cause list *)
Definition case_details_search (case_type case_number case_year : option string)
    (target_date : string) (causelist : bool) (output_format : string) : M unit :=
  let* w := ask in
  if negb (Utils.validate_case_details (int_max_str_digits w) (current_year w)
             case_type case_number case_year)
  then echo "Error: Invalid case details"
  else
    match case_type, case_number, case_year with
    | Some type, Some number, Some year =>
        let* result :=
          Scraper.search_by_case_details type number year target_date in
        let* listing := Scraper.get_case_listing (VDict result) target_date in
        let* _ :=
          if Api.status_is listing "connected" then
            let* _ := echo "eCourts Connection Successful" in
            let* _ := echo ("Status: " ++ str (Py.get_default listing "website_status"
                                                 (VStr "Connected"))) in
            let* _ := echo ("Message: " ++ str (Py.get listing "message")) in
            if truthy (Py.get listing "page_title")
            then echo ("Page Title: " ++ str (Py.get listing "page_title"))
            else ret tt
          else
            let* _ := echo "Connection Failed" in
            echo ("Message: " ++ str (Py.get listing "message")) in
        let filename := "case_result_" ++ type ++ "_" ++ number ++ "_" ++ year
                        ++ "_" ++ target_date in
        let* _ := Utils.save_results listing filename output_format in
        let* _ := echo (PyStr.newline ++ "Results saved to: output/" ++ filename ++ "."
                        ++ output_format) in
        cause_list_step target_date causelist output_format
    | _, _, _ => echo "Error: Invalid case details"
    end.

(** [main] with its searches *)
Definition run (cnr case_type case_number case_year : option string)
    (today_flag tomorrow_flag causelist : bool) (output_format : string)
    : M unit :=
  main real_cnr_search case_details_search cnr case_type case_number case_year
       today_flag tomorrow_flag causelist output_format.

End Display.

End WithUnicode.

End Cli.

(** ** The vocabulary of the specification

    The properties below are stated with these notions, which speak about
    the document tree and not about the way the scraper walks it. *)
Module Spec.
Import Soup Py Eff Scraper.

Section WithUnicode.
Context {U : PyStr.unicode}.

Definition hidden_names : list string := ["script"; "style"].

(** the document once the script and style elements are gone *)
Definition visible (doc : node) : node := decompose_all hidden_names doc.

(** some tag below [root] has one of the names and meets the condition *)
Definition present (root : node) (names : list string) (cond : node -> bool) : Prop :=
  exists n, In n (descendants root) /\ named names n = true /\ cond n = true.

(** [w] occurs in [s] *)
Definition occurs (w s : string) : Prop :=
  exists before after, s = before ++ w ++ after.

(** the keyword sets of the classifier *)
Definition error_keywords : list string :=
  ["error"; "invalid"; "not found"; "incorrect"].
Definition status_keywords : list string :=
  ["listed"; "pending"; "disposed"; "hearing"].
Definition field_keywords : list string :=
  ["case"; "court"; "status"; "date"; "judge"].

(** the text mentions one of the words, whatever the case of its
    letters *)
Definition keyword_in (words : list string) (text : string) : Prop :=
  exists w, In w words /\ occurs w (PyStr.lower text).

(** the text holds a brace or one of the CSS property patterns *)
Definition css_debris (text : string) : Prop :=
  occurs "{" text \/ occurs "}" text \/ occurs "padding:" text
  \/ occurs "margin:" text \/ occurs "border:" text \/ occurs "color:" text
  \/ occurs "font-" text.

(** a tag with the name *)
Definition element (name : string) (n : node) : Prop :=
  exists attrs contents, n = Tag name attrs contents.

(** a div, a span, a p or a td *)
Definition text_element (n : node) : Prop :=
  element "div" n \/ element "span" n \/ element "p" n \/ element "td" n.

(** [text] is the stripped text of a div, span, p or td whose own string
    mentions one of the words, and it holds no CSS debris *)
Definition clean_match (words : list string) (root : node) (text : string) : Prop :=
  exists e s, In e (descendants root) /\ text_element e
              /\ string_of e = Some s /\ s <> "" /\ keyword_in words s
              /\ text = get_text_strip e /\ ~ css_debris text.

(** the failure signal in the words of the specification: the visible
    text of some element mentions one of the words and holds no CSS
    debris *)
Definition any_element_mentions (words : list string) (root : node) : Prop :=
  exists name attrs contents,
    In (Tag name attrs contents) (descendants root)
    /\ keyword_in words (get_text (Tag name attrs contents))
    /\ ~ css_debris (get_text (Tag name attrs contents)).

(** a row of a table with at least two cells whose first cell, stripped
    and lowered, contains a keyword: [key] is that text, [value] the
    stripped text of the second cell *)
Definition case_row (root : node) (key value : string) : Prop :=
  exists table row c0 c1 rest,
    In table (descendants root) /\ element "table" table
    /\ In row (descendants table) /\ element "tr" row
    /\ find_all row ["td"; "th"] any_tag = c0 :: c1 :: rest
    /\ key = PyStr.lower (get_text_strip c0)
    /\ value = get_text_strip c1
    /\ exists w, In w field_keywords /\ occurs w key.

(** the entry a row contributes, if any *)
Definition row_entry (row : node) : option (string * string) :=
  match find_all row ["td"; "th"] any_tag with
  | c0 :: c1 :: _ =>
      let key := PyStr.lower (get_text_strip c0) in
      if PyStr.any_in case_keywords key then Some (key, get_text_strip c1)
      else None
  | _ => None
  end.

(** the entries of all rows, in the order in which the tables and their
    rows are visited *)
Definition row_entries (root : node) : list (string * string) :=
  flat_map (fun table => omap row_entry (find_all table ["tr"] any_tag))
           (find_all root ["table"] any_tag).

(** the name and value of a hidden input that has a name *)
Definition hidden_field (hidden : node) : option (string * string) :=
  match Soup.get hidden "name" with
  | Some nm => if PyStr.truthy nm
               then Some (nm, Soup.get_default hidden "value" "") else None
  | None => None
  end.

Definition hidden_fields (form : node) : list (string * string) :=
  omap hidden_field (hidden_inputs form).

(** storing a list of entries into a dict, one after the other *)
Definition store_all {V} (entries : list (string * V)) (d : gmap string V)
    : gmap string V :=
  fold_left (fun m kv => <[kv.1 := kv.2]> m) entries d.

(** the contents of every script and style element replaced by [g] of
    them *)
Fixpoint replace_hidden (g : list node -> list node) (n : node) : node :=
  match n with
  | Tag nm a cs =>
      if existsb (String.eqb nm) hidden_names then Tag nm a (g cs)
      else Tag nm a (map (replace_hidden g) cs)
  | _ => n
  end.

(** the three elements the search form locator looks for *)
Definition has_cnr_input (page : node) : Prop :=
  present page ["input"] (attr_is "name" "cino").
Definition has_captcha_input (page : node) : Prop :=
  present page ["input"] (attr_is "name" "fcaptcha_code").
Definition has_form (page : node) : Prop := present page ["form"] any_tag.

(** the answer of [search_by_cnr] when the form is not found *)
Definition not_found : dict :=
  error_record "CNR search form not found on services page".

(** the image of the verification challenge: by its [alt] text first,
    by its [src] otherwise *)
Definition captcha_image (page : node) : option node :=
  match find page ["img"] (attr_sat "alt" has_captcha) with
  | Some img => Some img
  | None => find page ["img"] (attr_sat "src" has_captcha)
  end.

(** the address of that image, resolved against the portal's: [None]
    without an image, and an exception when the address cannot be
    resolved *)
Definition captcha_url (w : world) (page : node) : outcome value :=
  match captcha_image page with
  | Some img =>
      match urljoin w services_url (Soup.get img "src") with
      | Return url => Return (VStr url)
      | Raise e => Raise e
      end
  | None => Return VNone
  end.

(** the answer of [search_by_cnr] when the form is found and no captcha
    code was passed *)
Definition captcha_required (url : value) (cnr date : string) : dict :=
  mk [("status", VStr "captcha_required");
      ("cnr", VStr cnr);
      ("date", VStr date);
      ("connection", VStr "success");
      ("website_accessible", VBool true);
      ("search_form_found", VBool true);
      ("captcha_required", VBool true);
      ("captcha_url", url);
      ("message", VStr "CNR search form found - captcha required");
      ("new_scraper", VBool true)].

(** the first request of a search *)
Definition first_fetch : request := GET services_url None 10.

Definition status (r : dict) : option value := r !! "status".

Definition tags : list string :=
  ["captcha_required"; "error"; "search_failed"; "case_found"; "no_case_data";
   "unexpected_response"; "found"; "connected"; "connection_failed"].

(** a result record: its tag is one of the known ones, and an error
    carries a message *)
Definition tagged (r : dict) : Prop :=
  exists tag, status r = Some (VStr tag) /\ In tag tags
              /\ (tag = "error" -> exists m, r !! "message" = Some (VStr m)).

(** the world with another portal and another parser *)
Definition with_network (w : world)
    (send' : list event -> request -> outcome response)
    (parser' : string -> outcome (list node))
    (urljoin' : string -> option string -> outcome string) : world :=
  {| send := send'; html_parser := parser'; urljoin := urljoin';
     write_file := write_file w; answer := answer w;
     today := today w; tomorrow := tomorrow w;
     current_year := current_year w;
     int_max_str_digits := int_max_str_digits w |}.

(** the four outcomes of [classify], by the tests the code performs *)
Inductive outcome_of (doc : node) (cnr : string) : dict -> Prop :=
| is_search_failed first rest :
    clean_texts (find_all (visible doc) text_tags (text_sat (mentions error_words)))
      = first :: rest ->
    outcome_of doc cnr
      (mk [("status", VStr "search_failed");
           ("message", VStr ("Search failed: " ++ first));
           ("cnr", VStr cnr);
           ("new_scraper", VBool true)])
| is_case_found :
    clean_texts (find_all (visible doc) text_tags (text_sat (mentions error_words)))
      = [] ->
    scan_tables (visible doc) <> ∅
    \/ clean_texts (find_all (visible doc) text_tags
                             (text_sat (mentions status_words))) <> [] ->
    outcome_of doc cnr
      (mk [("status", VStr "case_found");
           ("message", VStr "Case information retrieved successfully");
           ("cnr", VStr cnr);
           ("case_details", VDict (VStr <$> scan_tables (visible doc)));
           ("status_indicators",
            VList (VStr <$> take 5 (clean_texts
                (find_all (visible doc) text_tags
                          (text_sat (mentions status_words))))));
           ("real_case_data", VBool true);
           ("new_scraper", VBool true)])
| is_no_case_data :
    clean_texts (find_all (visible doc) text_tags (text_sat (mentions error_words)))
      = [] ->
    scan_tables (visible doc) = ∅ ->
    clean_texts (find_all (visible doc) text_tags (text_sat (mentions status_words)))
      = [] ->
    PyStr.contains "case" (PyStr.lower (get_text (visible doc)))
    || PyStr.contains "court" (PyStr.lower (get_text (visible doc))) = true ->
    outcome_of doc cnr
      (mk [("status", VStr "no_case_data");
           ("message", VStr "Connected successfully but no case information found");
           ("cnr", VStr cnr);
           ("page_content_sample", VStr (PyStr.take 500 (get_text (visible doc))));
           ("new_scraper", VBool true)])
| is_unexpected :
    clean_texts (find_all (visible doc) text_tags (text_sat (mentions error_words)))
      = [] ->
    scan_tables (visible doc) = ∅ ->
    clean_texts (find_all (visible doc) text_tags (text_sat (mentions status_words)))
      = [] ->
    PyStr.contains "case" (PyStr.lower (get_text (visible doc)))
    || PyStr.contains "court" (PyStr.lower (get_text (visible doc))) = false ->
    outcome_of doc cnr
      (mk [("status", VStr "unexpected_response");
           ("message", VStr "Received unexpected response from eCourts");
           ("cnr", VStr cnr);
           ("new_scraper", VBool true)]).

(** the tests of the code, in the words of the specification *)
Definition failed (doc : node) : Prop :=
  exists text, clean_match error_keywords (visible doc) text.

Definition has_case_data (doc : node) : Prop :=
  (exists key value, case_row (visible doc) key value)
  \/ (exists text, clean_match status_keywords (visible doc) text).

Definition mentions_case_or_court (doc : node) : Prop :=
  occurs "case" (PyStr.lower (get_text (visible doc)))
  \/ occurs "court" (PyStr.lower (get_text (visible doc))).

(** the address a form is submitted to, unless it cannot be resolved *)
Definition submit_url (w : world) (form : node) : outcome string :=
  urljoin w services_url (Some (Soup.get_default form "action" "")).

(** the request by which the form is submitted to [url] *)
Definition submission (url cnr captcha_code : string) (form : node) : request :=
  if String.eqb (PyStr.upper (Soup.get_default form "method" "POST")) "POST"
  then POST url (build_form_data cnr captcha_code form) 15
  else GET url (Some (build_form_data cnr captcha_code form)) 15.

(** the decimal numeral with the digits [ds], the first digit first, and
    the number it writes *)
Definition numeral (ds : list nat) : string :=
  string_of_list_ascii (map (fun d => ascii_of_nat (48 + d)) ds).

Definition number (ds : list nat) : Z :=
  fold_left (fun acc d => (10 * acc + Z.of_nat d)%Z) ds 0%Z.

(** a text of ASCII characters *)
Definition ascii_text (s : string) : Prop :=
  Forall (fun c => PyStr.code c < 128) (list_ascii_of_string s).

(** an ASCII character that no decimal literal holds: neither a digit,
    nor a sign, nor an underscore, nor a blank *)
Definition outside_literal (c : ascii) : Prop :=
  PyStr.code c < 128 /\ ~ 48 <= PyStr.code c <= 57
  /\ ~ 9 <= PyStr.code c <= 13 /\ PyStr.code c <> 32
  /\ PyStr.code c <> 43 /\ PyStr.code c <> 45 /\ PyStr.code c <> 95.

(** the record by which [get_case_listing] reports an exception *)
Definition listing_error (message : string) : dict :=
  mk [("status", VStr "error"); ("message", VStr message);
      ("real_data", VBool true); ("new_scraper_response", VBool true)].

Definition demo_query (date_option captcha_code : option string) : Api.cnr_query :=
  {| Api.q_cnr := Some "DEMO123"; Api.q_date := date_option;
     Api.q_captcha_code := captcha_code |}.

Definition demo_target (w : world) (date_option : option string) : string :=
  Api.target_date_of w (default "today" date_option).

Definition demo_file (target_date : string) : string :=
  "case_result_DEMO123_" ++ target_date.

Definition demo_envelope (target_date : string) : dict :=
  mk [("success", VBool true);
      ("data", VDict (Api.demo_result "DEMO123"));
      ("search_params",
       VDict (mk [("cnr", VStr "DEMO123"); ("date", VStr target_date)]));
      ("demo_data", VBool true);
      ("saved_to_file", VStr (demo_file target_date ++ ".json"))].

(** what the command line tool prints in demo mode before it saves *)
Definition demo_transcript : list event :=
  [Echo "Case Information Found!";
   Echo "CNR: DEMO123";
   Echo "Message: Demo case information retrieved successfully";
   Echo (PyStr.newline ++ "Case Details:");
   Echo "  Case Number: DEMO/123/2024";
   Echo "  Court Name: Demo District Court";
   Echo "  Case Type: Civil Suit";
   Echo "  Filing Date: 15-01-2024";
   Echo "  Status: Pending";
   Echo "  Next Hearing: 25-10-2025";
   Echo "  Judge: Hon'ble Justice Demo";
   Echo "  Petitioner: Demo Petitioner";
   Echo "  Respondent: Demo Respondent";
   Echo (PyStr.newline ++ "Status Indicators:");
   Echo "  - Case is listed for hearing";
   Echo "  - Documents filed";
   Echo "  - Notice served"].

(** the history and the target date once [main] has settled the date *)
Definition cli_dated (w : world) (h : list event) (today_flag tomorrow_flag : bool)
    : list event * string :=
  if today_flag then (h, today w)
  else if tomorrow_flag then (h, tomorrow w)
  else ((h ++ [Prompt "Check for (1) Today or (2) Tomorrow?"])%list,
        if String.eqb (answer w h "Check for (1) Today or (2) Tomorrow?") "1"
        then today w else tomorrow w).

Definition cli_demo_path (target_date output_format : string) : string :=
  Utils.output_path
    (demo_file target_date
     ++ (if String.eqb output_format "json" then ".json" else ".txt")).

(** [n] is the first node of [l] that meets [cond] *)
Definition first_such (cond : node -> bool) (l : list node) (n : node) : Prop :=
  exists before after,
    l = (before ++ n :: after)%list /\ cond n = true
    /\ Forall (fun m => cond m = false) before.

(** an image whose [alt] text, resp. whose [src], mentions a captcha *)
Definition alt_captcha (n : node) : bool :=
  named ["img"] n && attr_sat "alt" has_captcha n.
Definition src_captcha (n : node) : bool :=
  named ["img"] n && attr_sat "src" has_captcha n.

(** an element whose stripped text the classifier keeps for the words *)
Definition clean_element (words : list string) (e : node) : bool :=
  named text_tags e && text_sat (mentions words) e
  && negb (css_like (get_text_strip e)).

(** the test of the classifier on an element, in the words of the
    specification: a div, span, p or td whose own string mentions one of
    the words and whose stripped text holds no CSS debris *)
Definition clean_candidate (words : list string) (e : node) : Prop :=
  text_element e
  /\ (exists s, string_of e = Some s /\ s <> "" /\ keyword_in words s)
  /\ ~ css_debris (get_text_strip e).

(** [e] is the first such element of [l] *)
Definition first_clean (words : list string) (l : list node) (e : node) : Prop :=
  exists before after,
    l = (before ++ e :: after)%list /\ clean_candidate words e
    /\ Forall (fun m => ~ clean_candidate words m) before.

(** a hidden input of the form that bears the name *)
Definition hidden_named (form : node) (name : string) : Prop :=
  exists hidden, In hidden (descendants form) /\ named ["input"] hidden = true
                 /\ Soup.get hidden "type" = Some "hidden"
                 /\ Soup.get hidden "name" = Some name /\ name <> "".

(** the record [search_by_case_details] returns on a page that was fetched
    and parsed *)
Definition found_record (case_type case_number case_year date page_title : string)
    : dict :=
  mk [("status", VStr "found");
      ("case_type", VStr case_type);
      ("case_number", VStr case_number);
      ("case_year", VStr case_year);
      ("date", VStr date);
      ("connection", VStr "success");
      ("website_accessible", VBool true);
      ("page_title", VStr page_title);
      ("new_scraper", VBool true)].

(** the title the search reports for a page *)
Definition page_title_of (page : node) : string :=
  match find page ["title"] any_tag with
  | Some t => PyStr.strip (get_text t)
  | None => "eCourts Services"
  end.

(** what the command line tool prints when the portal asks for a captcha *)
Definition captcha_notice : list event :=
  [Echo "Captcha Required";
   Echo "Status: Connected to eCourts Services";
   Echo "Message: CNR search form found but requires captcha verification";
   Echo "Note: Captcha solving is only available in web interface";
   Echo "Please use the web interface at http://127.0.0.1:5000 for captcha-based searches"].

(** what it prints for a CNR search that did not reach the search form *)
Definition failure_notice : list event :=
  [Echo "Connection Failed";
   Echo "Status: Failed";
   Echo "Message: Failed to connect to eCourts"].

(** what it prints for its cause list before it saves it *)
Definition cause_list_transcript (target_date : string) : list event :=
  [Echo (PyStr.newline ++ "Downloading Cause List...");
   Echo "eCourts Cause List Service";
   Echo "Status: Connected to eCourts Services";
   Echo "Court: Demo District Court";
   Echo ("Date: " ++ target_date);
   Echo "Note: Demo cause list with sample cases";
   Echo (PyStr.newline ++ "Sample Cases:");
   Echo "  001: DEMO/001/2024 - Civil Suit - Listed";
   Echo "  002: DEMO/002/2024 - Criminal Case - Pending";
   Echo "  003: DEMO/003/2024 - Family Matter - Hearing";
   Echo "  004: DEMO/004/2024 - Property Dispute - Listed";
   Echo "  005: DEMO/005/2024 - Contract Dispute - Final Arguments";
   Echo (PyStr.newline ++ "Available Features:");
   Echo "  - Court selection available";
   Echo "  - Date-specific cause lists";
   Echo "  - PDF download capability"].

(** the file [save_results] writes for a file name, and the file the
    command line tool announces *)
Definition saved_file (filename output_format : string) : string :=
  "output/" ++ filename
  ++ (if String.eqb output_format "json" then ".json" else ".txt").

Definition announced_file (filename output_format : string) : string :=
  "output/" ++ filename ++ "." ++ output_format.



End WithUnicode.

End Spec.

(** ** Sample documents and worlds, used to exercise the statements *)
Module Samples.
Import Soup Py Eff.

Definition td (text : string) : node := Tag "td" ∅ [NavigableString text].
Definition tr (cells : list node) : node := Tag "tr" ∅ cells.
Definition table (rows : list node) : node := Tag "table" ∅ rows.

(** a style sheet that mentions an error class, and an error message *)
Definition styled_error_page : list node :=
  [Tag "style" ∅ [NavigableString ".error { color: red }"];
   Tag "div" ∅ [NavigableString "Error: invalid CNR"]].

(** the result page of the scenario: one table, one row *)
Definition status_page : list node :=
  [table [tr [td "Case Status"; td "Pending"]]].

(** two rows under the same label *)
Definition two_status_rows : list node :=
  [table [tr [td "Case Status"; td "Pending"];
          tr [td "Case Status"; td "Disposed"]]].

Definition input (attrs : list (string * string)) : node :=
  Tag "input" (list_to_map attrs) [].

(** a search form whose key field is itself a hidden input *)
Definition form_with_hidden_cino : node :=
  Tag "form" {[ "action" := "/search"; "method" := "post" ]}
    [input [("type", "hidden"); ("name", "cino"); ("value", "STALE")];
     input [("type", "text"); ("name", "fcaptcha_code")];
     input [("type", "hidden"); ("name", "app_token"); ("value", "9f3c")]].

(** an ordinary search form: visible key and token fields that carry
    values of their own, and two hidden fields *)
Definition search_form : node :=
  Tag "form" {[ "action" := "/search"; "method" := "post" ]}
    [input [("type", "text"); ("name", "cino"); ("value", "OLD")];
     input [("type", "text"); ("name", "fcaptcha_code"); ("value", "old")];
     input [("type", "hidden"); ("name", "app_token"); ("value", "9f3c")];
     input [("type", "hidden"); ("name", "state"); ("value", "")]].

Definition join_url (base : string) (url : option string) : string :=
  match url with Some u => base ++ u | None => base end.

(** the [urljoin] of the sample worlds: the address is appended to the
    base; like the library, it refuses an address whose host opens a
    bracket that is not closed *)
Definition resolve (base : string) (url : option string) : outcome string :=
  match url with
  | Some u =>
      if PyStr.contains "//[" u && negb (PyStr.contains "]" u)
      then Raise "Invalid IPv6 URL"
      else Return (join_url base (Some u))
  | None => Return base
  end.

(** a fragment of the Unicode database: the Latin-1 supplement, the
    Greek letters, the white space above U+007F, three sets of decimal
    digits and a few characters whose case mappings leave their block *)
Definition in_range (lo hi p : N) : bool := ((lo <=? p) && (p <=? hi))%N.

Definition latin : PyStr.unicode :=
  {| PyStr.whitespace := fun p =>
       existsb (N.eqb p) [133; 160; 5760; 8232; 8233; 8239; 8287; 12288]%N
       || in_range 8192 8202 p;
     PyStr.decimal := fun p =>
       if in_range 1632 1641 p then Some (N.to_nat (p - 1632))
       else if in_range 2406 2415 p then Some (N.to_nat (p - 2406))
       else if in_range 65296 65305 p then Some (N.to_nat (p - 65296))
       else None;
     PyStr.lower_full := fun p =>
       (if in_range 192 222 p && negb (p =? 215) then [p + 32]
        else if p =? 304 then [105; 775]
        else if p =? 8490 then [107]
        else if in_range 913 937 p && negb (p =? 930) then [p + 32]
        else [p])%N;
     PyStr.upper_full := fun p =>
       (if in_range 224 254 p && negb (p =? 247) then [p - 32]
        else if p =? 223 then [83; 83]
        else if p =? 383 then [83]
        else if p =? 305 then [73]
        else if p =? 962 then [931]
        else if in_range 945 969 p then [p - 32]
        else [p])%N;
     PyStr.cased := fun p =>
       (in_range 192 255 p && negb (p =? 215)%N && negb (p =? 247)%N)
       || existsb (N.eqb p) [170; 181; 186; 304; 305; 383; 8490]%N
       || (in_range 913 969 p && negb (p =? 930)%N);
     PyStr.case_ignorable := fun p =>
       existsb (N.eqb p) [168; 173; 175; 180; 183; 184]%N || in_range 768 879 p |}.

(** a world in which the portal cannot be reached *)
Definition offline : world :=
  {| send := fun _ _ => Raise "Connection refused";
     html_parser := fun _ => Return [];
     urljoin := resolve;
     write_file := fun _ _ => Return tt;
     answer := fun _ _ => "1";
     today := "04-11-2026";
     tomorrow := "05-11-2026";
     current_year := 2026;
     int_max_str_digits := 4300 |}.

(** a world in which the portal answers every request with [page] *)
Definition portal (page : list node) : world :=
  {| send := fun _ _ => Return {| status_code := 200; content := "<html>" |};
     html_parser := fun _ => Return page;
     urljoin := resolve;
     write_file := fun _ _ => Return tt;
     answer := fun _ _ => "1";
     today := "04-11-2026";
     tomorrow := "05-11-2026";
     current_year := 2026;
     int_max_str_digits := 4300 |}.

(** a world in which no file can be written *)
Definition read_only (w : world) : world :=
  {| send := send w;
     html_parser := html_parser w;
     urljoin := urljoin w;
     write_file := fun _ _ => Raise "Read-only file system";
     answer := answer w;
     today := today w;
     tomorrow := tomorrow w;
     current_year := current_year w;
     int_max_str_digits := int_max_str_digits w |}.

(** a portal page with a form and a captcha field, but no field named
    'cino' *)
Definition page_without_cino : list node :=
  [Tag "form" ∅ [input [("type", "text"); ("name", "fcaptcha_code")]]].

(** a portal page with the search form and its captcha image *)
Definition search_page : list node :=
  [search_form;
   Tag "img" {[ "alt" := "Captcha image"; "src" := "/captcha.png" ]} []].

(** the record [search_by_cnr] returns when the captcha is asked for *)
Definition captcha_outcome : dict :=
  mk [("status", VStr "captcha_required");
      ("cnr", VStr "MHAU010012342023");
      ("date", VStr "04-11-2026");
      ("connection", VStr "success");
      ("website_accessible", VBool true);
      ("search_form_found", VBool true);
      ("captcha_required", VBool true);
      ("captcha_url", VStr "https://services.ecourts.gov.in/captcha.png");
      ("message", VStr "CNR search form found - captcha required");
      ("new_scraper", VBool true)].

(** the record [search_by_case_details] returns on a reachable portal *)
Definition found_outcome : dict :=
  mk [("status", VStr "found");
      ("case_type", VStr "CRL");
      ("case_number", VStr "12345");
      ("case_year", VStr "2023");
      ("date", VStr "04-11-2026");
      ("connection", VStr "success");
      ("website_accessible", VBool true);
      ("page_title", VStr "eCourts Services");
      ("new_scraper", VBool true)].

(** a world in which the portal serves the search page and answers the
    submitted search with the result page of the scenario *)
Definition session : world :=
  {| send := fun _ r =>
       match r with
       | GET _ None _ => Return {| status_code := 200; content := "search" |}
       | _ => Return {| status_code := 200; content := "result" |}
       end;
     html_parser := fun markup =>
       if String.eqb markup "search" then Return search_page
       else Return status_page;
     urljoin := resolve;
     write_file := fun _ _ => Return tt;
     answer := fun _ _ => "1";
     today := "04-11-2026";
     tomorrow := "05-11-2026";
     current_year := 2026;
     int_max_str_digits := 4300 |}.

(** a search page on which an image with a captcha in its [src] precedes
    the image with a captcha in its [alt] text *)
Definition page_two_images : list node :=
  [search_form;
   Tag "img" {[ "src" := "/img/captcha_banner.png" ]} [];
   Tag "img" {[ "alt" := "Enter the CAPTCHA"; "src" := "/securimage.php" ]} []].

(** a world in which the portal answers every request with the status 503 *)
Definition unavailable : world :=
  {| send := fun _ _ => Return {| status_code := 503; content := "" |};
     html_parser := fun _ => Return [];
     urljoin := resolve;
     write_file := fun _ _ => Return tt;
     answer := fun _ _ => "1";
     today := "04-11-2026";
     tomorrow := "05-11-2026";
     current_year := 2026;
     int_max_str_digits := 4300 |}.

(** a page that mentions a court and nothing else *)
Definition court_page : list node :=
  [Tag "h1" ∅ [NavigableString "District Court Services"]].

(** an error message in a heading *)
Definition heading_error_page : list node :=
  [Tag "h1" ∅ [NavigableString "Error: invalid CNR"]].

(** a case table followed by an error message in capitals *)
Definition loud_error_page : list node :=
  [table [tr [td "Case Status"; td "Pending"]];
   Tag "div" ∅ [NavigableString "ERROR: Invalid CNR"]].

Definition blank_page : list node := [].

(** a page with two error messages, the first of them CSS-like *)
Definition two_errors_page : list node :=
  [Tag "div" ∅ [NavigableString ".error { margin: 0 }"];
   Tag "p" ∅ [NavigableString " Invalid captcha "];
   Tag "span" ∅ [NavigableString "Record not found"]].

End Samples.

(** * Properties *)

(** ** Strings *)
Module PyStrFacts.
Import PyStr.

Section WithUnicode.
Context {U : PyStr.unicode}.

Lemma prefix_app (p s : string) :
  String.prefix p s = true <-> exists r, s = p ++ r.
Proof.
  revert s. induction p as [|c p IH]; intros s; simpl.
  - destruct s; split; eauto.
  - destruct s as [|d s]; simpl.
    + split; [discriminate | intros [r Hr]; discriminate].
    + destruct (ascii_dec c d) as [->|Hne].
      * rewrite IH. split; intros [r Hr]; exists r; [by rewrite Hr | by injection Hr].
      * split; [discriminate|]. intros [r Hr]. injection Hr as -> _. done.
Qed.

(** [contains] is the substring test *)
Lemma contains_spec (sub s : string) :
  contains sub s = true <-> exists a b, s = a ++ sub ++ b.
Proof.
  induction s as [|c s IH]; cbn [contains].
  - rewrite orb_false_r, prefix_app. split.
    + intros [r Hr]. by exists "", r.
    + intros [a [b Hab]]. destruct a; simpl in Hab; [by exists b|discriminate].
  - rewrite orb_true_iff, prefix_app, IH. split.
    + intros [[r Hr]|[a [b Hab]]].
      * by exists "", r.
      * exists (String c a), b. simpl. by rewrite Hab.
    + intros [a [b Hab]]. destruct a as [|d a]; simpl in Hab.
      * left. by exists b.
      * right. injection Hab as _ ->. by exists a, b.
Qed.

Lemma any_in_spec (words : list string) (s : string) :
  any_in words s = true <-> exists w, In w words /\ contains w s = true.
Proof. unfold any_in. by rewrite existsb_exists. Qed.

Lemma any_in_false (words : list string) (s : string) :
  any_in words s = false <-> forall w, In w words -> contains w s = false.
Proof.
  unfold any_in. induction words as [|w ws IH]; simpl.
  - split; [intros _ ? [] | done].
  - rewrite orb_false_iff, IH. split.
    + intros [H1 H2] w' [<-|Hin]; auto.
    + intros H. split; [apply H; auto | intros w' Hin; apply H; auto].
Qed.

End WithUnicode.

End PyStrFacts.

(** ** The document tree *)
Module SoupFacts.
Import Soup Spec.

Section WithUnicode.
Context {U : PyStr.unicode}.

Lemma find_all_In root names cond n :
  In n (find_all root names cond)
  <-> In n (descendants root) /\ named names n = true /\ cond n = true.
Proof.
  unfold find_all. rewrite filter_In, andb_true_iff. tauto.
Qed.

Lemma find_all_nil root names cond :
  find_all root names cond = [] <-> ~ present root names cond.
Proof.
  split.
  - intros Hnil [n Hn]. apply find_all_In in Hn. rewrite Hnil in Hn. destruct Hn.
  - intros Hno. destruct (find_all root names cond) as [|n l] eqn:E; [done|].
    exfalso. apply Hno. exists n. apply find_all_In. rewrite E. by left.
Qed.

Lemma find_None root names cond :
  find root names cond = None <-> ~ present root names cond.
Proof.
  unfold find. rewrite <- find_all_nil.
  destruct (find_all root names cond); simpl; split; congruence.
Qed.

Lemma find_Some_present root names cond n :
  find root names cond = Some n -> present root names cond.
Proof.
  unfold find. intros H.
  destruct (find_all root names cond) as [|m l] eqn:E; [discriminate|].
  exists m. apply find_all_In. rewrite E. by left.
Qed.

Lemma present_find root names cond :
  present root names cond -> exists n, find root names cond = Some n.
Proof.
  intros Hp. destruct (find root names cond) as [n|] eqn:E; [by exists n|].
  apply find_None in E. contradiction.
Qed.

(** a name is kept by [replace_hidden] *)
Lemma named_replace_hidden g names n :
  named names (replace_hidden g n) = named names n.
Proof.
  destruct n as [| |nm a cs]; try done. cbn [replace_hidden].
  by destruct (existsb (String.eqb nm) hidden_names).
Qed.

(** what the script and style elements hold is gone after [decompose] *)
Lemma decompose_replace_hidden g n :
  named hidden_names n = false ->
  decompose_all hidden_names (replace_hidden g n) = decompose_all hidden_names n.
Proof.
  induction n as [s|s|nm a cs IH] using node_ind'; try done.
  intros Hn. cbn [named] in Hn. cbn [replace_hidden]. rewrite Hn.
  cbn [decompose_all]. f_equal.
  induction IH as [|c cs' Hc _ IHcs]; [done|].
  cbn [map flat_map]. rewrite IHcs, named_replace_hidden.
  destruct (named hidden_names c) eqn:Ec; [done|]. by rewrite Hc.
Qed.

Lemma visible_replace_hidden g contents :
  visible (replace_hidden g (soup contents)) = visible (soup contents).
Proof. apply decompose_replace_hidden. reflexivity. Qed.

Lemma named_decompose names names' n :
  named names (decompose_all names' n) = named names n.
Proof. by destruct n. Qed.

(** no script or style element is left in the visible document *)
Lemma visible_clean names n :
  Forall (fun d => named names d = false) (descendants (decompose_all names n)).
Proof.
  induction n as [s|s|nm a cs IH] using node_ind'; try by constructor.
  cbn [decompose_all descendants].
  induction IH as [|c cs' Hc _ IHcs]; [constructor|].
  cbn [flat_map]. destruct (named names c) eqn:Ec; [exact IHcs|].
  rewrite flat_map_app. cbn [flat_map]. rewrite app_nil_r.
  constructor.
  - by rewrite named_decompose.
  - apply Forall_app. by split.
Qed.

End WithUnicode.

End SoupFacts.

(** ** Dicts filled by successive assignments *)
Module DictFacts.
Import Spec.

Section WithUnicode.
Context {U : PyStr.unicode}.

Section Store.
Context {V : Type}.
Implicit Types (l : list (string * V)) (d : gmap string V).

Lemma store_all_app l1 l2 d :
  store_all (l1 ++ l2)%list d = store_all l2 (store_all l1 d).
Proof. apply fold_left_app. Qed.

(** a key that is not assigned keeps its value *)
Lemma store_all_other l d k :
  ~ In k (map fst l) -> store_all l d !! k = d !! k.
Proof.
  revert d. induction l as [|[k' v'] l IH]; intros d Hk; [done|].
  cbn [store_all fold_left]. simpl in Hk.
  change (store_all l (<[k':=v']> d) !! k = d !! k).
  rewrite IH by tauto. apply lookup_insert_ne. tauto.
Qed.

(** the last assignment to a key is the one that is read *)
Lemma store_all_last l1 l2 d k v :
  ~ In k (map fst l2) -> store_all (l1 ++ (k, v) :: l2)%list d !! k = Some v.
Proof.
  intros Hk. rewrite store_all_app. cbn [store_all fold_left].
  change (store_all l2 (<[k:=v]> (store_all l1 d)) !! k = Some v).
  rewrite store_all_other by done. apply lookup_insert_eq.
Qed.

(** every list with the key has a last assignment to it *)
Lemma last_assignment l k :
  In k (map fst l) ->
  exists l1 v l2, l = (l1 ++ (k, v) :: l2)%list /\ ~ In k (map fst l2).
Proof.
  induction l as [|[k' v'] l IH]; [intros []|].
  intros Hin. destruct (in_dec string_dec k (map fst l)) as [Hl|Hl].
  - destruct (IH Hl) as (l1 & v & l2 & -> & Hno).
    by exists ((k', v') :: l1), v, l2.
  - destruct Hin as [Hk|Hk]; [|contradiction]. simpl in Hk. subst k'.
    by exists [], v', l.
Qed.

(** what is read was assigned, or was there before *)
Lemma store_all_lookup l d k v :
  store_all l d !! k = Some v -> In (k, v) l \/ d !! k = Some v.
Proof.
  intros H. destruct (in_dec string_dec k (map fst l)) as [Hl|Hl].
  - destruct (last_assignment l k Hl) as (l1 & v' & l2 & -> & Hno).
    rewrite store_all_last in H by done. injection H as ->.
    left. apply in_or_app. right. by left.
  - rewrite store_all_other in H by done. by right.
Qed.

Lemma store_all_assigned l d k v :
  In (k, v) l -> exists v', store_all l d !! k = Some v' /\ In (k, v') l.
Proof.
  intros Hin.
  assert (Hk : In k (map fst l)) by (apply in_map_iff; by exists (k, v)).
  destruct (last_assignment l k Hk) as (l1 & v' & l2 & -> & Hno).
  exists v'. split; [by apply store_all_last|].
  apply in_or_app. right. by left.
Qed.

Lemma store_all_empty l : store_all l ∅ = ∅ <-> l = [].
Proof.
  split; [|by intros ->].
  destruct l as [|[k v] l]; [done|]. intros H.
  destruct (store_all_assigned ((k, v) :: l) ∅ k v) as (v' & Hv & _); [by left|].
  rewrite H, lookup_empty in Hv. discriminate.
Qed.
End Store.

End WithUnicode.

End DictFacts.

(** ** The classifier and the form submitter, step by step *)

(** ** The classifier and the form submitter, step by step *)
Module ScraperFacts.
Import Soup Py Eff Scraper Spec SoupFacts DictFacts.

Section WithUnicode.
Context {U : PyStr.unicode}.

Lemma clean_texts_filter elements :
  clean_texts elements
  = List.filter (fun t => negb (css_like t)) (map get_text_strip elements).
Proof.
  unfold clean_texts.
  enough (H : forall acc,
    fold_left (fun msgs element =>
                 let text := get_text_strip element in
                 if negb (css_like text) then (msgs ++ [text])%list else msgs)
              elements acc
    = (acc ++ List.filter (fun t => negb (css_like t))
                          (map get_text_strip elements))%list)
    by apply H.
  induction elements as [|e els IH]; intros acc; cbn [fold_left map List.filter].
  - by rewrite app_nil_r.
  - rewrite IH. cbn zeta. destruct (negb (css_like (get_text_strip e))); [|done].
    by rewrite <- app_assoc.
Qed.

Lemma contains_occurs w s : PyStr.contains w s = true <-> occurs w s.
Proof. apply PyStrFacts.contains_spec. Qed.

Lemma named_element name n : named [name] n = true <-> element name n.
Proof.
  unfold element. destruct n as [s|s|nm a cs]; cbn [named existsb].
  - split; [discriminate | by intros (? & ? & ?)].
  - split; [discriminate | by intros (? & ? & ?)].
  - rewrite orb_false_r, String.eqb_eq. split.
    + intros ->. by eexists _, _.
    + by intros (? & ? & [= -> _ _]).
Qed.

Lemma visible_elements doc :
  Forall (fun n => ~ element "script" n /\ ~ element "style" n)
         (descendants (visible doc)).
Proof.
  eapply Forall_impl; [apply (SoupFacts.visible_clean hidden_names)|].
  intros n Hn. cbn beta in Hn.
  split; intros (attrs & contents & ->); discriminate Hn.
Qed.

Lemma named_text_element n : named text_tags n = true <-> text_element n.
Proof.
  unfold text_element. rewrite <- !named_element.
  destruct n as [s|s|nm a cs]; cbn [named text_tags existsb].
  - split; [discriminate | by intros [?|[?|[?|?]]]].
  - split; [discriminate | by intros [?|[?|[?|?]]]].
  - rewrite !orb_false_r, !orb_true_iff. tauto.
Qed.

Lemma mentions_keyword words text :
  mentions words text = true
  <-> exists s, text = Some s /\ s <> "" /\ keyword_in words s.
Proof.
  unfold mentions, keyword_in. destruct text as [s|].
  2: { split; [discriminate | by intros (? & ? & _)]. }
  rewrite andb_true_iff, PyStrFacts.any_in_spec. split.
  - intros [Ht (w & Hw & Hc)]. exists s. split; [done|]. split.
    + by destruct s.
    + exists w. split; [done | by apply contains_occurs].
  - intros (s' & [= <-] & Hne & w & Hw & Hc). split.
    + by destruct s.
    + exists w. split; [done | by apply contains_occurs].
Qed.

Lemma css_like_debris text : css_like text = false <-> ~ css_debris text.
Proof.
  unfold css_like, css_debris, css_indicators, PyStr.any_in. cbn [existsb].
  rewrite <- !contains_occurs, orb_false_r.
  destruct (PyStr.contains "{" text), (PyStr.contains "}" text),
    (PyStr.contains "padding:" text), (PyStr.contains "margin:" text),
    (PyStr.contains "border:" text), (PyStr.contains "color:" text),
    (PyStr.contains "font-" text); cbn; intuition congruence.
Qed.

Lemma clean_texts_In words root text :
  In text (clean_texts (find_all root text_tags (text_sat (mentions words))))
  <-> clean_match words root text.
Proof.
  rewrite clean_texts_filter, filter_In, in_map_iff, negb_true_iff.
  unfold clean_match. split.
  - intros [(e & He & Hin) Hcss]. apply find_all_In in Hin as (Hd & Hn & Hm).
    unfold text_sat in Hm. apply mentions_keyword in Hm as (s & Hs & Hne & Hk).
    exists e, s. split; [done|]. split; [by apply named_text_element|].
    split; [done|]. split; [done|]. split; [done|]. split; [done|].
    by apply css_like_debris.
  - intros (e & s & Hd & Hn & Hs & Hne & Hk & -> & Hcss).
    split; [|by apply css_like_debris].
    exists e. split; [done|]. apply find_all_In. split; [done|].
    split; [by apply named_text_element|].
    unfold text_sat. apply mentions_keyword. by exists s.
Qed.

Lemma clean_texts_nil words root :
  clean_texts (find_all root text_tags (text_sat (mentions words))) = []
  <-> ~ exists text, clean_match words root text.
Proof.
  split.
  - intros Hnil [t Ht]. apply clean_texts_In in Ht. rewrite Hnil in Ht. destruct Ht.
  - intros Hno. destruct (clean_texts _) as [|t l] eqn:E; [done|].
    exfalso. apply Hno. exists t. apply clean_texts_In. rewrite E. by left.
Qed.

Lemma scan_row_entry case_info row :
  scan_row case_info row
  = match row_entry row with
    | Some kv => <[kv.1 := kv.2]> case_info
    | None => case_info
    end.
Proof.
  unfold scan_row, row_entry.
  destruct (find_all row ["td"; "th"] any_tag) as [|c0 [|c1 rest]]; try done.
  cbn zeta. by destruct (PyStr.any_in case_keywords _).
Qed.

Lemma scan_rows_store rows case_info :
  fold_left scan_row rows case_info = store_all (omap row_entry rows) case_info.
Proof.
  revert case_info. induction rows as [|r rows IH]; intros ci; [done|].
  cbn [fold_left]. rewrite IH, scan_row_entry. simpl omap.
  by destruct (row_entry r).
Qed.

(** the table scan stores the row entries in the order of the visit *)
Lemma scan_tables_store root :
  scan_tables root = store_all (row_entries root) ∅.
Proof.
  unfold scan_tables, row_entries.
  generalize (∅ : gmap string string).
  induction (find_all root ["table"] any_tag) as [|t ts IH]; intros ci; [done|].
  cbn [fold_left flat_map]. rewrite IH, scan_rows_store, store_all_app. done.
Qed.

Lemma row_entries_In root key value :
  In (key, value) (row_entries root) <-> case_row root key value.
Proof.
  unfold row_entries, case_row. rewrite in_flat_map. split.
  - intros (table & Ht & Hin). apply find_all_In in Ht as (Htd & Htn & _).
    apply list_elem_of_In, list_elem_of_omap in Hin as (row & Hrow & Hentry).
    apply list_elem_of_In, find_all_In in Hrow as (Hrd & Hrn & _).
    unfold row_entry in Hentry.
    destruct (find_all row ["td"; "th"] any_tag) as [|c0 [|c1 rest]] eqn:Ec;
      try discriminate.
    cbn zeta in Hentry.
    destruct (PyStr.any_in case_keywords _) eqn:Ek; [|discriminate].
    injection Hentry as <- <-. exists table, row, c0, c1, rest.
    apply named_element in Htn, Hrn.
    apply PyStrFacts.any_in_spec in Ek as (w & Hw & Hc).
    repeat split; try done. exists w. split; [done | by apply contains_occurs].
  - intros (table & row & c0 & c1 & rest & Htd & Htn & Hrd & Hrn & Hc & -> & -> & Hk).
    apply named_element in Htn, Hrn.
    exists table. split; [by apply find_all_In|].
    apply list_elem_of_In, list_elem_of_omap. exists row. split.
    + by apply list_elem_of_In, find_all_In.
    + unfold row_entry. rewrite Hc. cbn zeta.
      destruct Hk as (w & Hw & Ho).
      assert (Hk : PyStr.any_in case_keywords (PyStr.lower (get_text_strip c0)) = true).
      { apply PyStrFacts.any_in_spec. exists w. split; [done | by apply contains_occurs]. }
      by rewrite Hk.
Qed.

Lemma scan_tables_empty root :
  scan_tables root = ∅ <-> ~ exists key value, case_row root key value.
Proof.
  rewrite scan_tables_store, store_all_empty. split.
  - intros Hnil (k & v & Hr). apply row_entries_In in Hr. by rewrite Hnil in Hr.
  - intros Hno. destruct (row_entries root) as [|[k v] l] eqn:E; [done|].
    exfalso. apply Hno. exists k, v. apply row_entries_In. rewrite E. by left.
Qed.

Lemma add_hidden_field form_data hidden :
  add_hidden form_data hidden
  = match hidden_field hidden with
    | Some kv => <[kv.1 := kv.2]> form_data
    | None => form_data
    end.
Proof.
  unfold add_hidden, hidden_field. destruct (Soup.get hidden "name") as [nm|]; [|done].
  by destruct (PyStr.truthy nm).
Qed.

(** the submitted map: the caller's two values, then the hidden fields
    in document order *)
Lemma build_form_data_store cnr captcha_code form :
  build_form_data cnr captcha_code form
  = store_all (hidden_fields form)
              (<["fcaptcha_code" := captcha_code]> (<["cino" := cnr]> ∅)).
Proof.
  unfold build_form_data, hidden_fields.
  generalize (<["fcaptcha_code" := captcha_code]> (<["cino" := cnr]> (∅ : gmap string string))).
  induction (hidden_inputs form) as [|h hs IH]; intros fd; [done|].
  cbn [fold_left]. rewrite IH, add_hidden_field. simpl omap.
  by destruct (hidden_field h).
Qed.

End WithUnicode.

End ScraperFacts.

(** ** The result classifier *)
Module ClassifierFacts.
Import Soup Py Eff Scraper Spec SoupFacts DictFacts ScraperFacts.

Section WithUnicode.
Context {U : PyStr.unicode}.

Lemma classify_outcome doc cnr : outcome_of doc cnr (classify doc cnr).
Proof.
  unfold classify. fold hidden_names. fold (visible doc).
  destruct (clean_texts (find_all (visible doc) text_tags
                                  (text_sat (mentions error_words))))
    as [|first rest] eqn:Eerr.
  2: { by eapply is_search_failed. }
  cbn zeta.
  destruct (bool_decide (scan_tables (visible doc) = ∅)) eqn:Einfo;
    [apply bool_decide_eq_true in Einfo | apply bool_decide_eq_false in Einfo].
  2: { apply is_case_found; auto. }
  destruct (bool_decide (clean_texts (find_all (visible doc) text_tags
               (text_sat (mentions status_words))) = [])) eqn:Est;
    [apply bool_decide_eq_true in Est | apply bool_decide_eq_false in Est].
  2: { apply is_case_found; auto. }
  cbn [negb orb].
  destruct (PyStr.contains "case" (PyStr.lower (get_text (visible doc)))
            || PyStr.contains "court" (PyStr.lower (get_text (visible doc)))) eqn:Etext.
  - by apply is_no_case_data.
  - by apply is_unexpected.
Qed.

Lemma has_case_data_tests doc :
  has_case_data doc
  <-> scan_tables (visible doc) <> ∅
      \/ clean_texts (find_all (visible doc) text_tags
                               (text_sat (mentions status_words))) <> [].
Proof.
  unfold has_case_data. change status_keywords with status_words.
  rewrite scan_tables_empty, clean_texts_nil.
  split; (intros [H|H]; [left|right]).
  - tauto.
  - tauto.
  - destruct (row_entries (visible doc)) as [|[k v] l] eqn:E.
    + exfalso. apply H. intros (k & v & Hr). apply row_entries_In in Hr.
      by rewrite E in Hr.
    + exists k, v. apply row_entries_In. rewrite E. by left.
  - destruct (clean_texts (find_all (visible doc) text_tags
                                    (text_sat (mentions status_words))))
      as [|t l] eqn:E.
    + exfalso. apply H. intros (t & Ht). apply clean_texts_In in Ht.
      by rewrite E in Ht.
    + exists t. apply clean_texts_In. rewrite E. by left.
Qed.

Lemma classify_status doc cnr :
  (failed doc /\ status (classify doc cnr) = Some (VStr "search_failed"))
  \/ (~ failed doc /\ has_case_data doc
      /\ status (classify doc cnr) = Some (VStr "case_found"))
  \/ (~ failed doc /\ ~ has_case_data doc /\ mentions_case_or_court doc
      /\ status (classify doc cnr) = Some (VStr "no_case_data"))
  \/ (~ failed doc /\ ~ has_case_data doc /\ ~ mentions_case_or_court doc
      /\ status (classify doc cnr) = Some (VStr "unexpected_response")).
Proof.
  destruct (classify_outcome doc cnr) as [first rest He|He Hd|He Hi Hs Ht|He Hi Hs Ht].
  - left. split; [|reflexivity]. exists first.
    apply (proj1 (clean_texts_In error_words _ _)). rewrite He. by left.
  - right; left. apply clean_texts_nil in He.
    split; [done|]. split; [by apply has_case_data_tests|reflexivity].
  - right; right; left. apply clean_texts_nil in He.
    split; [done|]. split; [|split; [|reflexivity]].
    + rewrite has_case_data_tests. intros [H|H]; contradiction.
    + unfold mentions_case_or_court. rewrite <- !contains_occurs.
      by apply orb_true_iff.
  - right; right; right. apply clean_texts_nil in He.
    split; [done|]. split; [|split; [|reflexivity]].
    + rewrite has_case_data_tests. intros [H|H]; contradiction.
    + unfold mentions_case_or_court. rewrite <- !contains_occurs.
      apply orb_false_iff in Ht as [H1 H2].
      intros [H|H]; congruence.
Qed.

Lemma css_like_false text :
  css_like text = false <-> forall w, In w css_indicators -> PyStr.contains w text = false.
Proof. apply PyStrFacts.any_in_false. Qed.

(** the message of a failed search is the first clean error text *)
Lemma search_failed_message doc cnr :
  status (classify doc cnr) = Some (VStr "search_failed") ->
  exists text,
    classify doc cnr !! "message" = Some (VStr ("Search failed: " ++ text))
    /\ clean_match error_keywords (visible doc) text.
Proof.
  change error_keywords with error_words.
  destruct (classify_outcome doc cnr) as [first rest He|He Hd|He Hi Hs Ht|He Hi Hs Ht];
    intros H; try discriminate H.
  exists first. split; [reflexivity|]. apply clean_texts_In. rewrite He. by left.
Qed.

(** the payload of a found case *)
Lemma case_found_payload doc cnr :
  status (classify doc cnr) = Some (VStr "case_found") ->
  classify doc cnr !! "case_details"
    = Some (VDict (VStr <$> scan_tables (visible doc)))
  /\ classify doc cnr !! "status_indicators"
    = Some (VList (VStr <$> take 5 (clean_texts
         (find_all (visible doc) text_tags (text_sat (mentions status_words)))))).
Proof.
  destruct (classify_outcome doc cnr) as [first rest He|He Hd|He Hi Hs Ht|He Hi Hs Ht];
    intros H; try discriminate H.
  split; reflexivity.
Qed.

Lemma classify_visible doc doc' cnr :
  visible doc = visible doc' -> classify doc cnr = classify doc' cnr.
Proof.
  intros H. unfold classify. fold hidden_names. fold (visible doc) (visible doc').
  by rewrite H.
Qed.

Lemma In_take {A} (n : nat) (l : list A) (x : A) : In x (take n l) -> In x l.
Proof.
  revert n. induction l as [|y l IH]; intros [|n]; simpl; try tauto.
  intros [H|H]; [by left | right; eauto].
Qed.

Lemma length_take_le {A} (n : nat) (l : list A) : length (take n l) <= n.
Proof. rewrite length_take. lia. Qed.

End WithUnicode.

End ClassifierFacts.

Import Soup Py Eff Scraper Spec.

(** C2 (amended).  The classifier assigns the first matching category in
    the order SearchFailed, CaseFound, NoCaseData, UnexpectedResponse.
    The failure signal is a div, span, p or td whose own string mentions
    "error", "invalid", "not found" or "incorrect" in any case and whose
    stripped text holds no brace and none of the CSS patterns: a document
    with one is SearchFailed whatever else it holds, as is the page with
    a case table and the div "ERROR: Invalid CNR"; without one, a case
    field or a status indicator makes it CaseFound; NoCaseData is
    returned only when there is neither and the lowered visible text
    contains "case" or "court"; anything else is UnexpectedResponse. *)
Theorem classify_first_match {U : PyStr.unicode} (doc : node) (cnr : string) :
  (status (classify doc cnr) = Some (VStr "search_failed") <-> failed doc)
  /\ (status (classify doc cnr) = Some (VStr "case_found")
      <-> ~ failed doc /\ has_case_data doc)
  /\ (status (classify doc cnr) = Some (VStr "no_case_data")
      <-> ~ failed doc /\ ~ has_case_data doc /\ mentions_case_or_court doc)
  /\ (status (classify doc cnr) = Some (VStr "unexpected_response")
      <-> ~ failed doc /\ ~ has_case_data doc /\ ~ mentions_case_or_court doc)
  /\ status (classify (soup Samples.loud_error_page) cnr)
     = Some (VStr "search_failed")
  /\ status (classify (soup Samples.status_page) cnr) = Some (VStr "case_found")
  /\ status (classify (soup Samples.court_page) cnr) = Some (VStr "no_case_data")
  /\ status (classify (soup Samples.blank_page) cnr)
     = Some (VStr "unexpected_response").
Proof.
  split; [|split; [|split; [|split; [|repeat split; reflexivity]]]];
    destruct (ClassifierFacts.classify_status doc cnr)
      as [[Hf ->]|[(Hf & Hd & ->)|[(Hf & Hd & Ht & ->)|(Hf & Hd & Ht & ->)]]];
    split; try discriminate; try tauto.
Qed.

(** C2 as stated fails on an error message that stands in a heading: the
    visible text of the h1 mentions two error keywords and holds no CSS
    debris, yet the page is not SearchFailed. *)
Lemma heading_error_counterexample :
  let U := Samples.latin in
  any_element_mentions error_keywords (visible (soup Samples.heading_error_page))
  /\ status (classify (soup Samples.heading_error_page) "MHAU010012342023")
     = Some (VStr "unexpected_response")
  /\ status (classify (soup Samples.heading_error_page) "MHAU010012342023")
     <> Some (VStr "search_failed").
Proof.
  intros U. split; [|split; [reflexivity | discriminate]].
  exists "h1", ∅, [NavigableString "Error: invalid CNR"].
  split; [vm_compute; by left|]. split.
  - exists "error". split; [by left|]. by apply ScraperFacts.contains_occurs.
  - by apply ScraperFacts.css_like_debris.
Qed.

(** C3.  Nothing that stands in a script or style element, and no text
    with a brace or one of the patterns "padding:", "margin:", "border:",
    "color:", "font-", is surfaced as the message of a SearchFailed result
    or as a status indicator of a CaseFound result: the result does not
    depend on what the script and style elements hold, the visible
    document has no such element, and every surfaced text is the stripped
    text of a visible div, span, p or td and holds neither a brace nor
    one of the five patterns. *)
Theorem css_debris_never_surfaced {U : PyStr.unicode}
    (contents : list node) (g : list node -> list node) (cnr : string) :
  classify (replace_hidden g (soup contents)) cnr = classify (soup contents) cnr
  /\ Forall (fun n => ~ element "script" n /\ ~ element "style" n)
            (descendants (visible (soup contents)))
  /\ (status (classify (soup contents) cnr) = Some (VStr "search_failed") ->
      exists text,
        classify (soup contents) cnr !! "message"
          = Some (VStr ("Search failed: " ++ text))
        /\ (exists e, In e (descendants (visible (soup contents)))
                      /\ text = get_text_strip e)
        /\ ~ occurs "{" text /\ ~ occurs "}" text
        /\ ~ occurs "padding:" text /\ ~ occurs "margin:" text
        /\ ~ occurs "border:" text /\ ~ occurs "color:" text
        /\ ~ occurs "font-" text)
  /\ (status (classify (soup contents) cnr) = Some (VStr "case_found") ->
      exists indicators,
        classify (soup contents) cnr !! "status_indicators"
          = Some (VList (VStr <$> indicators))
        /\ forall text, In text indicators ->
             (exists e, In e (descendants (visible (soup contents)))
                        /\ text = get_text_strip e)
             /\ ~ occurs "{" text /\ ~ occurs "}" text
             /\ ~ occurs "padding:" text /\ ~ occurs "margin:" text
             /\ ~ occurs "border:" text /\ ~ occurs "color:" text
             /\ ~ occurs "font-" text).
Proof.
  split; [|split; [|split]].
  - apply ClassifierFacts.classify_visible, SoupFacts.visible_replace_hidden.
  - apply ScraperFacts.visible_elements.
  - intros H. destruct (ClassifierFacts.search_failed_message _ _ H) as (text & Hm & Hc).
    exists text. split; [done|].
    destruct Hc as (e & s & He & _ & _ & _ & _ & Ht & Hcss).
    split; [by exists e|]. unfold css_debris in Hcss. tauto.
  - intros H. destruct (ClassifierFacts.case_found_payload _ _ H) as [_ Hi].
    eexists. split; [exact Hi|]. intros text Hin.
    apply ClassifierFacts.In_take, ScraperFacts.clean_texts_In in Hin.
    destruct Hin as (e & s & He & _ & _ & _ & _ & Ht & Hcss).
    split; [by exists e|]. unfold css_debris in Hcss. tauto.
Qed.

Lemma css_debris_never_surfaced_witness :
  let U := Samples.latin in
  In (Tag "div" ∅ [NavigableString ".error { margin: 0 }"])
     (descendants (visible (soup Samples.two_errors_page)))
  /\ classify (soup Samples.two_errors_page) "MHAU010012342023" !! "message"
     = Some (VStr "Search failed: Invalid captcha")
  /\ exists text,
       classify (soup Samples.two_errors_page) "MHAU010012342023" !! "message"
         = Some (VStr ("Search failed: " ++ text))
       /\ (exists e, In e (descendants (visible (soup Samples.two_errors_page)))
                     /\ text = get_text_strip e)
       /\ ~ occurs "{" text /\ ~ occurs "}" text
       /\ ~ occurs "padding:" text /\ ~ occurs "margin:" text
       /\ ~ occurs "border:" text /\ ~ occurs "color:" text
       /\ ~ occurs "font-" text.
Proof.
  intros U. split; [vm_compute; by left|]. split; [reflexivity|].
  apply (css_debris_never_surfaced Samples.two_errors_page (fun c => c)
           "MHAU010012342023").
  reflexivity.
Defined.

(** C8 (amended).  When the classifier returns CaseFound, every table
    row with at least two cells whose stripped and lowered first-cell
    text contains one of "case", "court", "status", "date", "judge" has
    its key in the payload; the value stored under a key is the
    second-cell text of the row with that key that is visited last, hence
    of the row itself when the rows with its key all carry one value; the
    payload has at most five status indicators; the page with the single
    row ["Case Status", "Pending"] yields 'case status' -> 'Pending'. *)
Theorem case_rows_in_payload {U : PyStr.unicode} (doc : node) (cnr : string) :
  (status (classify doc cnr) = Some (VStr "case_found") ->
   exists (details : gmap string string) (indicators : list string),
     classify doc cnr !! "case_details" = Some (VDict (VStr <$> details))
     /\ classify doc cnr !! "status_indicators" = Some (VList (VStr <$> indicators))
     /\ length indicators <= 5
     /\ (forall key value, case_row (visible doc) key value ->
           exists value', details !! key = Some value'
                          /\ case_row (visible doc) key value')
     /\ (forall key value, case_row (visible doc) key value ->
           (forall value', case_row (visible doc) key value' -> value' = value) ->
           details !! key = Some value)
     /\ (forall before key value after,
           row_entries (visible doc) = (before ++ (key, value) :: after)%list ->
           ~ In key (map fst after) ->
           details !! key = Some value))
  /\ status (classify (soup Samples.status_page) cnr) = Some (VStr "case_found")
  /\ classify (soup Samples.status_page) cnr !! "case_details"
     = Some (VDict {[ "case status" := VStr "Pending" ]}).
Proof.
  split; [|split; reflexivity].
  intros H. destruct (ClassifierFacts.case_found_payload _ _ H) as [Hd Hi].
  exists (scan_tables (visible doc)). eexists.
  split; [exact Hd|]. split; [exact Hi|].
  split; [apply ClassifierFacts.length_take_le|].
  rewrite ScraperFacts.scan_tables_store.
  assert (Hsome : forall key value, case_row (visible doc) key value ->
            exists value', store_all (row_entries (visible doc)) ∅ !! key = Some value'
                           /\ case_row (visible doc) key value').
  { intros key value Hrow. apply ScraperFacts.row_entries_In in Hrow.
    destruct (DictFacts.store_all_assigned _ (∅ : gmap string string) _ _ Hrow)
      as (value' & Hv & Hin).
    exists value'. split; [done|]. by apply ScraperFacts.row_entries_In. }
  split; [exact Hsome|]. split.
  - intros key value Hrow Huniq.
    destruct (Hsome key value Hrow) as (value' & Hv & Hrow').
    by rewrite (Huniq value' Hrow') in Hv.
  - intros before key value after -> Hlast. by apply DictFacts.store_all_last.
Qed.

Lemma case_rows_in_payload_witness :
  let U := Samples.latin in
  exists (details : gmap string string),
    classify (soup Samples.status_page) "MHAU010012342023" !! "case_details"
      = Some (VDict (VStr <$> details))
    /\ details !! "case status" = Some "Pending".
Proof.
  intros U.
  destruct (proj1 (case_rows_in_payload (soup Samples.status_page) "MHAU010012342023")
                  eq_refl)
    as (details & indicators & Hd & _ & _ & _ & _ & Hlast).
  exists details. split; [exact Hd|].
  apply (Hlast [] "case status" "Pending" []); [reflexivity|].
  intros [].
Defined.

(** C8 as stated fails on two rows with one label: the first row has two
    cells and a keyword in its first cell, yet the payload maps its key to
    the text of the second row. *)
Lemma case_rows_duplicate_key_counterexample :
  let U := Samples.latin in
  status (classify (soup Samples.two_status_rows) "MHAU010012342023")
    = Some (VStr "case_found")
  /\ case_row (visible (soup Samples.two_status_rows)) "case status" "Pending"
  /\ exists details : gmap string value,
       classify (soup Samples.two_status_rows) "MHAU010012342023" !! "case_details"
         = Some (VDict details)
       /\ details !! "case status" = Some (VStr "Disposed")
       /\ details !! "case status" <> Some (VStr "Pending").
Proof.
  intros U. split; [reflexivity|]. split.
  - apply ScraperFacts.row_entries_In. vm_compute. by left.
  - eexists. split; [reflexivity|]. split; [reflexivity|]. discriminate.
Qed.

(** C1 (amended).  The form submitter sends one request, a POST or a GET
    to the form's action resolved against the portal's address, and the
    field map of that request is the one it builds; when the action
    cannot be resolved it sends nothing and returns the error record.
    In the field map every name carried by a hidden input of the form is
    bound to the value of the last hidden input with that name, so that
    every named hidden input is forwarded unchanged when the hidden names
    are distinct; 'cino' and 'fcaptcha_code' hold the caller's CNR and
    captcha whenever no hidden input bears that name, whatever the
    visible inputs of the form hold. *)
Theorem submitted_fields {U : PyStr.unicode} (cnr captcha_code : string)
    (form page : node) (w : world) (h : list event) :
  match urljoin w services_url (Some (Soup.get_default form "action" "")) with
  | Return url =>
      exists r,
        snd (_submit_cnr_search cnr captcha_code form page w h)
          = (h ++ [Http r])%list
        /\ (r = POST url (build_form_data cnr captcha_code form) 15
            \/ r = GET url (Some (build_form_data cnr captcha_code form)) 15)
  | Raise e =>
      _submit_cnr_search cnr captcha_code form page w h
        = (Return (error_record e), h)
  end
  /\ (forall before name value after,
        hidden_fields form = (before ++ (name, value) :: after)%list ->
        ~ In name (map fst after) ->
        build_form_data cnr captcha_code form !! name = Some value)
  /\ (NoDup (map fst (hidden_fields form)) ->
      forall name value, In (name, value) (hidden_fields form) ->
        build_form_data cnr captcha_code form !! name = Some value)
  /\ (~ In "cino" (map fst (hidden_fields form)) ->
      build_form_data cnr captcha_code form !! "cino" = Some cnr)
  /\ (~ In "fcaptcha_code" (map fst (hidden_fields form)) ->
      build_form_data cnr captcha_code form !! "fcaptcha_code" = Some captcha_code).
Proof.
  split; [|rewrite ScraperFacts.build_form_data_store; split; [|split; [|split]]].
  - unfold _submit_cnr_search, try_except, bind, call_urljoin, session_post,
      session_get_params, perform.
    destruct (urljoin w services_url _) as [url|e]; [|reflexivity].
    destruct (String.eqb (PyStr.upper (Soup.get_default form "method" "POST")) "POST").
    + eexists. split; [|left; reflexivity].
      destruct (send w h _) as [resp|e]; [|reflexivity].
      destruct (Z.eqb (status_code resp) 200); [|reflexivity].
      unfold _parse_search_results, try_except, bind, BeautifulSoup.
      by destruct (html_parser w (content resp)).
    + eexists. split; [|right; reflexivity].
      destruct (send w h _) as [resp|e]; [|reflexivity].
      destruct (Z.eqb (status_code resp) 200); [|reflexivity].
      unfold _parse_search_results, try_except, bind, BeautifulSoup.
      by destruct (html_parser w (content resp)).
  - intros before name value after -> Hlast. by apply DictFacts.store_all_last.
  - intros Hnd name value Hin.
    apply in_split in Hin as (before & after & Heq). rewrite Heq.
    apply DictFacts.store_all_last. rewrite Heq, map_app in Hnd. simpl in Hnd.
    apply NoDup_app in Hnd as (_ & _ & Hnd). apply NoDup_cons in Hnd as [Hnd _].
    by rewrite list_elem_of_In in Hnd.
  - intros Hno. rewrite DictFacts.store_all_other by done. reflexivity.
  - intros Hno. rewrite DictFacts.store_all_other by done. reflexivity.
Qed.

Lemma submitted_fields_witness :
  let U := Samples.latin in
  build_form_data "MHAU010012342023" "x7k2p" Samples.search_form !! "cino"
    = Some "MHAU010012342023"
  /\ build_form_data "MHAU010012342023" "x7k2p" Samples.search_form !! "app_token"
    = Some "9f3c".
Proof.
  intros U.
  pose proof (submitted_fields "MHAU010012342023" "x7k2p" Samples.search_form
                (soup [Samples.search_form]) Samples.offline []) as (_ & _ & Hall & Hcino & _).
  split.
  - apply Hcino. vm_compute. intros [H|[H|[]]]; discriminate H.
  - apply Hall; vm_compute.
    + repeat constructor; rewrite ?list_elem_of_In; simpl; intuition discriminate.
    + by left.
Defined.

(** C1 as stated fails when the search-key input is a hidden input: its
    stale value replaces the caller's CNR in the submitted map. *)
Lemma hidden_cino_overrides_caller_counterexample :
  let U := Samples.latin in
  In ("cino", "STALE") (hidden_fields Samples.form_with_hidden_cino)
  /\ build_form_data "MHAU010012342023" "x7k2p" Samples.form_with_hidden_cino !! "cino"
     = Some "STALE"
  /\ build_form_data "MHAU010012342023" "x7k2p" Samples.form_with_hidden_cino !! "cino"
     <> Some "MHAU010012342023".
Proof.
  intros U. split; [vm_compute; by left|]. split; [reflexivity|].
  vm_compute. discriminate.
Qed.

Module LocatorFacts.
Import SoupFacts.

Section WithUnicode.
Context {U : PyStr.unicode}.

(** [search_by_cnr] once the portal page is fetched and parsed *)
Lemma search_by_cnr_fetched cnr date captcha_code w h resp contents :
  send w h first_fetch = Return resp ->
  status_code resp = 200%Z ->
  html_parser w (content resp) = Return contents ->
  search_by_cnr cnr date captcha_code w h
  = match find (soup contents) ["input"] (attr_is "name" "cino"),
          find (soup contents) ["input"] (attr_is "name" "fcaptcha_code"),
          find (soup contents) ["form"] any_tag with
    | Some _, Some _, Some form =>
        match captcha_url w (soup contents) with
        | Return url =>
            if Utils.given captcha_code
            then _submit_cnr_search cnr (default "" captcha_code) form
                   (soup contents) w (h ++ [Http first_fetch])%list
            else (Return (captcha_required url cnr date),
                  (h ++ [Http first_fetch])%list)
        | Raise e => (Return (error_record e), (h ++ [Http first_fetch])%list)
        end
    | _, _, _ => (Return not_found, (h ++ [Http first_fetch])%list)
    end.
Proof.
  intros Hsend Hcode Hparse.
  unfold search_by_cnr, try_except, bind, session_get, perform, BeautifulSoup.
  fold first_fetch. rewrite Hsend, Hcode. cbn [Z.eqb Pos.eqb].
  rewrite Hparse.
  destruct (find (soup contents) ["input"] (attr_is "name" "cino")); [|reflexivity].
  destruct (find (soup contents) ["input"] (attr_is "name" "fcaptcha_code"));
    [|reflexivity].
  destruct (find (soup contents) ["form"] any_tag) as [form|]; [|reflexivity].
  unfold captcha_url. fold (captcha_image (soup contents)).
  destruct (captcha_image (soup contents)) as [img|].
  - unfold call_urljoin, ret.
    destruct (urljoin w services_url (Soup.get img "src")) as [url|e];
      [|reflexivity].
    destruct captcha_code as [code|]; cbn [Utils.given default]; [|reflexivity].
    destruct (PyStr.truthy code) eqn:Ecode; [|reflexivity].
    unfold _submit_cnr_search, try_except.
    by destruct (bind _ _ w _) as [[r|e] h'].
  - unfold ret.
    destruct captcha_code as [code|]; cbn [Utils.given default]; [|reflexivity].
    destruct (PyStr.truthy code) eqn:Ecode; [|reflexivity].
    unfold _submit_cnr_search, try_except.
    by destruct (bind _ _ w _) as [[r|e] h'].
Qed.

End WithUnicode.

End LocatorFacts.

(** C4.  On a fetched portal page that lacks the input named 'cino', the
    input of the verification token, or a form element, the locator
    reports that the form was not found: no request follows and the
    answer has neither form nor challenge.  Only when the three are
    present together is the form used: then the captcha is asked for or
    the search is submitted with the caller's captcha code, unless the
    address of the captcha image cannot be resolved, which ends the
    search with an error record; and a result that asks for the captcha,
    or a request after the first, means that the three are present. *)
Theorem form_found_iff_all_three {U : PyStr.unicode}
    (cnr date : string) (captcha_code : option string)
    (w : world) (h : list event) (resp : response) (contents : list node) :
  send w h first_fetch = Return resp ->
  status_code resp = 200%Z ->
  html_parser w (content resp) = Return contents ->
  (~ (has_cnr_input (soup contents) /\ has_captcha_input (soup contents)
      /\ has_form (soup contents)) ->
   search_by_cnr cnr date captcha_code w h
   = (Return not_found, (h ++ [Http first_fetch])%list)
   /\ status not_found = Some (VStr "error")
   /\ not_found !! "captcha_url" = None
   /\ not_found !! "captcha_required" = None)
  /\ (has_cnr_input (soup contents) /\ has_captcha_input (soup contents)
      /\ has_form (soup contents) ->
      exists form,
        find (soup contents) ["form"] any_tag = Some form
        /\ search_by_cnr cnr date captcha_code w h
           = match captcha_url w (soup contents) with
             | Return url =>
                 if Utils.given captcha_code
                 then _submit_cnr_search cnr (default "" captcha_code) form
                        (soup contents) w (h ++ [Http first_fetch])%list
                 else (Return (captcha_required url cnr date),
                       (h ++ [Http first_fetch])%list)
             | Raise e =>
                 (Return (error_record e), (h ++ [Http first_fetch])%list)
             end)
  /\ (forall r h',
        search_by_cnr cnr date captcha_code w h = (Return r, h') ->
        status r = Some (VStr "captcha_required")
        \/ h' <> (h ++ [Http first_fetch])%list ->
        has_cnr_input (soup contents) /\ has_captcha_input (soup contents)
        /\ has_form (soup contents)).
Proof.
  intros Hsend Hcode Hparse.
  rewrite (LocatorFacts.search_by_cnr_fetched _ _ _ _ _ _ _ Hsend Hcode Hparse).
  unfold has_cnr_input, has_captcha_input, has_form.
  assert (Hnot : forall r h',
            (Return not_found, (h ++ [Http first_fetch])%list) = (Return r, h') ->
            status r = Some (VStr "captcha_required")
            \/ h' <> (h ++ [Http first_fetch])%list -> False).
  { intros r h' [= <- <-] [Hs|Hh]; [discriminate Hs | by apply Hh]. }
  destruct (find (soup contents) ["input"] (attr_is "name" "cino")) as [i1|] eqn:E1.
  2: { apply SoupFacts.find_None in E1.
       split; [by repeat split|]. split; [tauto|].
       intros r h' Heq Hor. destruct (Hnot r h' Heq Hor). }
  destruct (find (soup contents) ["input"] (attr_is "name" "fcaptcha_code"))
    as [i2|] eqn:E2.
  2: { apply SoupFacts.find_None in E2.
       split; [by repeat split|]. split; [tauto|].
       intros r h' Heq Hor. destruct (Hnot r h' Heq Hor). }
  destruct (find (soup contents) ["form"] any_tag) as [form|] eqn:E3.
  2: { apply SoupFacts.find_None in E3.
       split; [by repeat split|]. split; [tauto|].
       intros r h' Heq Hor. destruct (Hnot r h' Heq Hor). }
  apply SoupFacts.find_Some_present in E1, E2.
  pose proof (SoupFacts.find_Some_present _ _ _ _ E3) as E3'.
  split; [tauto|]. split; [intros _; by exists form | done].
Qed.

Lemma form_found_iff_all_three_witness :
  let U := Samples.latin in
  search_by_cnr "MHAU010012342023" "04-11-2026" None
                (Samples.portal Samples.page_without_cino) []
  = (Return not_found, [Http first_fetch]).
Proof.
  intros U.
  refine (proj1 (proj1 (form_found_iff_all_three
            "MHAU010012342023" "04-11-2026" None
            (Samples.portal Samples.page_without_cino) []
            {| status_code := 200; content := "<html>" |}
            Samples.page_without_cino eq_refl eq_refl eq_refl) _)).
  intros [Hcino _]. revert Hcino. by apply SoupFacts.find_None.
Defined.

(** C5.  The listing normalizer maps an outcome with a successful
    connection and the captcha flag to the captcha_required tag, and one
    with a successful connection, no captcha flag and an accessible
    website to the connected tag.  Either result carries the target date
    and a status line, is computed without any request or write, and has
    exactly the fields of its own tag: no page title in the first, no
    captcha status in the second. *)
Theorem listing_of_connection_outcome
    (search_params : dict) (target_date : string) (w : world) (h : list event) :
  search_params !! "connection" = Some (VStr "success") ->
  (truthy (Py.get search_params "captcha_required") = true ->
   exists r line,
     get_case_listing (VDict search_params) target_date w h = (Return r, h)
     /\ status r = Some (VStr "captcha_required")
     /\ r !! "date" = Some (VStr target_date)
     /\ r !! "website_status" = Some (VStr line)
     /\ dom r = {[ "status"; "message"; "date"; "website_status"; "captcha_status";
                   "real_data"; "new_scraper_response"; "case_details" ]}
     /\ r !! "page_title" = None)
  /\ (truthy (Py.get search_params "captcha_required") = false ->
      truthy (Py.get search_params "website_accessible") = true ->
      exists r line,
        get_case_listing (VDict search_params) target_date w h = (Return r, h)
        /\ status r = Some (VStr "connected")
        /\ r !! "date" = Some (VStr target_date)
        /\ r !! "website_status" = Some (VStr line)
        /\ dom r = {[ "status"; "message"; "date"; "website_status"; "page_title";
                      "real_data"; "new_scraper_response"; "case_details" ]}
        /\ r !! "captcha_status" = None).
Proof.
  intros Hconn. split.
  - intros Hcaptcha. unfold get_case_listing, try_except, bind, call_get, ret.
    unfold Py.get at 1. rewrite Hconn. cbn [default eq_str String.eqb Ascii.eqb Bool.eqb].
    rewrite Hcaptcha. eexists _, _. split; [reflexivity|].
    repeat split; try reflexivity.
  - intros Hcaptcha Haccess.
    unfold get_case_listing, try_except, bind, call_get, call_get_default, ret.
    unfold Py.get at 1. rewrite Hconn. cbn [default eq_str String.eqb Ascii.eqb Bool.eqb].
    rewrite Hcaptcha, Haccess. eexists _, _. split; [reflexivity|].
    repeat split; try reflexivity.
Qed.

Lemma listing_of_connection_outcome_witness :
  (exists r line,
     get_case_listing (VDict Samples.captcha_outcome) "04-11-2026" Samples.offline []
       = (Return r, [])
     /\ status r = Some (VStr "captcha_required")
     /\ r !! "date" = Some (VStr "04-11-2026")
     /\ r !! "website_status" = Some (VStr line)
     /\ dom r = {[ "status"; "message"; "date"; "website_status"; "captcha_status";
                   "real_data"; "new_scraper_response"; "case_details" ]}
     /\ r !! "page_title" = None)
  /\ (exists r line,
        get_case_listing (VDict Samples.found_outcome) "04-11-2026" Samples.offline []
          = (Return r, [])
        /\ status r = Some (VStr "connected")
        /\ r !! "date" = Some (VStr "04-11-2026")
        /\ r !! "website_status" = Some (VStr line)
        /\ dom r = {[ "status"; "message"; "date"; "website_status"; "page_title";
                      "real_data"; "new_scraper_response"; "case_details" ]}
        /\ r !! "captcha_status" = None).
Proof.
  split.
  - apply (listing_of_connection_outcome Samples.captcha_outcome "04-11-2026"
             Samples.offline []); reflexivity.
  - apply (listing_of_connection_outcome Samples.found_outcome "04-11-2026"
             Samples.offline []); reflexivity.
Defined.

(** ** Validation of the case details *)
Module UtilsFacts.
Import Spec.

Lemma code_of_nat n : n < 256 -> PyStr.code (ascii_of_nat n) = n.
Proof. apply nat_ascii_embedding. Qed.

Lemma byte_of_code c : PyStr.byte (N.of_nat (PyStr.code c)) = c.
Proof.
  unfold PyStr.byte, PyStr.code, nat_of_ascii.
  by rewrite N2Nat.id, ascii_N_embedding.
Qed.

Lemma eqb_code c d : PyStr.code c <> PyStr.code d -> Ascii.eqb c d = false.
Proof. intros H. apply Ascii.eqb_neq. by intros ->. Qed.

(** the characters of an ASCII text are its bytes *)
Lemma chars_ascii s :
  ascii_text s ->
  PyStr.chars s = map (fun c => String c EmptyString) (list_ascii_of_string s).
Proof.
  unfold ascii_text. induction s as [|c s IH]; [done|].
  cbn [list_ascii_of_string map PyStr.chars]. intros H.
  apply Forall_cons in H as [Hc Hs]. rewrite (IH Hs).
  destruct s as [|d s]; [done|]. cbn [list_ascii_of_string map].
  cbn [list_ascii_of_string] in Hs. apply Forall_cons in Hs as [Hd _].
  cbn [PyStr.starts_inside]. unfold PyStr.is_continuation.
  destruct (Nat.leb_spec 128 (PyStr.code d)); [lia | done].
Qed.

Lemma points_ascii s :
  ascii_text s ->
  PyStr.points s = map (fun c => N.of_nat (PyStr.code c)) (list_ascii_of_string s).
Proof.
  intros H. unfold PyStr.points. rewrite (chars_ascii _ H), map_map.
  apply map_ext_in. intros c Hc. unfold ascii_text in H.
  rewrite List.Forall_forall in H. specialize (H c Hc). cbn.
  destruct (N.ltb_spec (N.of_nat (PyStr.code c)) 128); [done | lia].
Qed.

Lemma rstrip_with_keeps blank s :
  Forall (fun c => blank c = false) (list_ascii_of_string s) ->
  PyStr.rstrip_with blank s = s.
Proof.
  induction s as [|c s IH]; [done|]. cbn [list_ascii_of_string PyStr.rstrip_with].
  intros H. apply Forall_cons in H as [Hc Hs]. rewrite (IH Hs), Hc.
  by destruct s.
Qed.

Lemma lstrip_with_Exists blank (P : ascii -> Prop) s :
  (forall c, P c -> blank c = false) ->
  Exists P (list_ascii_of_string s) ->
  Exists P (list_ascii_of_string (PyStr.lstrip_with blank s)).
Proof.
  intros Hb. induction s as [|c s IH]; [done|].
  cbn [list_ascii_of_string PyStr.lstrip_with]. intros H.
  destruct (blank c) eqn:Ec; [|done].
  apply Exists_cons in H as [Hc|Hs]; [|by apply IH].
  apply Hb in Hc. congruence.
Qed.

Lemma rstrip_with_Exists blank (P : ascii -> Prop) s :
  (forall c, P c -> blank c = false) ->
  Exists P (list_ascii_of_string s) ->
  Exists P (list_ascii_of_string (PyStr.rstrip_with blank s)).
Proof.
  intros Hb. induction s as [|c s IH]; [done|].
  cbn [list_ascii_of_string PyStr.rstrip_with]. intros H.
  apply Exists_cons in H as [Hc|Hs].
  - destruct (PyStr.rstrip_with blank s).
    + rewrite (Hb _ Hc). by left.
    + by left.
  - specialize (IH Hs). destruct (PyStr.rstrip_with blank s) as [|d r].
    + inversion IH.
    + by right.
Qed.

Lemma outside_not_blank c : outside_literal c -> Utils.is_blank c = false.
Proof.
  intros (_ & _ & Hb & Hs & _). unfold Utils.is_blank.
  destruct (Nat.leb_spec 9 (PyStr.code c)), (Nat.leb_spec (PyStr.code c) 13),
    (Nat.eqb_spec (PyStr.code c) 32); try done; lia.
Qed.

Lemma outside_not_digit c : outside_literal c -> Utils.is_digit c = false.
Proof.
  intros (_ & Hd & _). unfold Utils.is_digit.
  destruct (Nat.leb_spec 48 (PyStr.code c)), (Nat.leb_spec (PyStr.code c) 57);
    try done; lia.
Qed.

(** a literal with a character from outside is refused *)
Lemma digits_outside s acc count prev :
  Exists outside_literal (list_ascii_of_string s) ->
  Utils.digits acc count prev s = None.
Proof.
  revert acc count prev. induction s as [|c s IH]; intros acc count prev H.
  - inversion H.
  - cbn [list_ascii_of_string] in H. cbn [Utils.digits].
    apply Exists_cons in H as [Hc|Hs].
    + rewrite (eqb_code c "_"), (outside_not_digit _ Hc); [done|].
      destruct Hc as (_ & _ & _ & _ & _ & _ & Hu). exact Hu.
    + destruct (Ascii.eqb c "_"); [destruct prev; [done | by apply IH]|].
      destruct (Utils.is_digit c); [by apply IH | done].
Qed.

Lemma digit_code d : d < 10 -> PyStr.code (ascii_of_nat (48 + d)) = 48 + d.
Proof. intros H. apply code_of_nat. lia. Qed.

Lemma digit_not c d :
  d < 10 -> PyStr.code c < 48 \/ 57 < PyStr.code c ->
  Ascii.eqb (ascii_of_nat (48 + d)) c = false.
Proof. intros Hd Hc. apply eqb_code. rewrite digit_code by done. lia. Qed.

Lemma numeral_codes ds :
  Forall (fun d => d < 10) ds ->
  Forall (fun c => 48 <= PyStr.code c <= 57) (list_ascii_of_string (numeral ds)).
Proof.
  unfold numeral. rewrite list_ascii_of_string_of_list_ascii.
  induction 1 as [|d ds Hd _ IH]; cbn [map]; constructor; [|done].
  rewrite digit_code by done. lia.
Qed.

(** the digits of a numeral are read as the number it writes *)
Lemma digits_numeral ds acc count :
  Forall (fun d => d < 10) ds ->
  Utils.digits acc count false (numeral ds)
  = Some (fold_left (fun acc d => (10 * acc + Z.of_nat d)%Z) ds acc,
          count + length ds).
Proof.
  intros H. revert acc count.
  induction H as [|d ds Hd _ IH]; intros acc count.
  - cbn. by rewrite Nat.add_0_r.
  - unfold numeral. cbn [map string_of_list_ascii Utils.digits].
    fold (numeral ds).
    rewrite (digit_not "_") by (done || (right; vm_compute; lia)).
    unfold Utils.is_digit, Utils.digit_value. rewrite digit_code by done.
    destruct (Nat.leb_spec 48 (48 + d)); [|lia].
    destruct (Nat.leb_spec (48 + d) 57); [|lia]. cbn [andb].
    rewrite IH. cbn [fold_left length]. do 2 f_equal; [|lia].
    f_equal. lia.
Qed.

Section WithUnicode.
Context {U : PyStr.unicode}.

(** a text of characters below U+007F is read as it is *)
Lemma ascii_decimal_plain s :
  Forall (fun c => PyStr.code c < 127) (list_ascii_of_string s) ->
  PyStr.ascii_decimal (PyStr.points s) = s.
Proof.
  intros H. rewrite points_ascii.
  2: { eapply Forall_impl; [exact H|]. cbn. lia. }
  induction s as [|c s IH]; [done|].
  cbn [list_ascii_of_string map PyStr.ascii_decimal] in *.
  apply Forall_cons in H as [Hc Hs].
  destruct (N.ltb_spec (N.of_nat (PyStr.code c)) 127); [|lia].
  by rewrite byte_of_code, (IH Hs).
Qed.

(** what is read of an ASCII text with a character from outside has one
    as well *)
Lemma ascii_decimal_outside s :
  ascii_text s ->
  Exists outside_literal (list_ascii_of_string s) ->
  Exists outside_literal
         (list_ascii_of_string (PyStr.ascii_decimal (PyStr.points s))).
Proof.
  intros Ha. rewrite (points_ascii _ Ha). unfold ascii_text in Ha.
  induction s as [|c s IH]; [done|].
  cbn [list_ascii_of_string map PyStr.ascii_decimal] in *.
  apply Forall_cons in Ha as [Hc Hs]. intros H.
  destruct (N.ltb_spec (N.of_nat (PyStr.code c)) 127).
  - rewrite byte_of_code. cbn [list_ascii_of_string].
    apply Exists_cons in H as [H|H]; [by left | right; by apply IH].
  - destruct (N.leb_spec 128 (N.of_nat (PyStr.code c))); [lia|].
    cbn [andb list_ascii_of_string]. left. unfold outside_literal.
    change (PyStr.code "?") with 63. lia.
Qed.

Lemma py_int_given limit text year :
  Utils.py_int limit text = Some year -> Utils.given (Some text) = true.
Proof. destruct text; [discriminate | reflexivity]. Qed.

(** [int] reads a numeral as the number it writes *)
Lemma py_int_numeral limit ds :
  ds <> [] -> Forall (fun d => d < 10) ds ->
  length ds <= 640 \/ limit = 0 \/ length ds <= limit ->
  Utils.py_int limit (numeral ds) = Some (number ds).
Proof.
  intros Hne Hds Hlen. pose proof (numeral_codes _ Hds) as Hcodes.
  unfold Utils.py_int. rewrite ascii_decimal_plain.
  2: { eapply Forall_impl; [exact Hcodes|]. cbn. lia. }
  assert (Hblank : Forall (fun c => Utils.is_blank c = false)
                          (list_ascii_of_string (numeral ds))).
  { eapply Forall_impl; [exact Hcodes|]. intros c Hc. cbn beta in Hc.
    unfold Utils.is_blank.
    destruct (Nat.leb_spec 9 (PyStr.code c)), (Nat.leb_spec (PyStr.code c) 13),
      (Nat.eqb_spec (PyStr.code c) 32); try done; lia. }
  unfold PyStr.strip_with.
  destruct ds as [|d ds]; [done|]. clear Hne.
  assert (Hl : PyStr.lstrip_with Utils.is_blank (numeral (d :: ds)) = numeral (d :: ds)).
  { unfold numeral in *. cbn [map string_of_list_ascii list_ascii_of_string] in *.
    apply Forall_cons in Hblank as [Hb _]. cbn [PyStr.lstrip_with]. by rewrite Hb. }
  rewrite Hl, (rstrip_with_keeps _ _ Hblank).
  pose proof (digits_numeral (d :: ds) 0 0 Hds) as Hdig.
  apply Forall_cons in Hds as [Hd Hds].
  unfold numeral in *. cbn [map string_of_list_ascii] in *.
  unfold Utils.sign_and_body.
  rewrite (digit_not "-") by (done || (left; vm_compute; lia)).
  rewrite (digit_not "+") by (done || (left; vm_compute; lia)).
  rewrite (digit_not "_") by (done || (right; vm_compute; lia)).
  rewrite Hdig. cbn [Nat.add]. fold (number (d :: ds)).
  destruct (Nat.ltb_spec 640 (length (d :: ds))), (Nat.ltb_spec 0 limit),
    (Nat.ltb_spec limit (length (d :: ds))); cbn [andb]; try done; lia.
Qed.

(** [int] refuses an ASCII text with a character that no literal holds *)
Lemma py_int_outside limit text :
  ascii_text text ->
  Exists outside_literal (list_ascii_of_string text) ->
  Utils.py_int limit text = None.
Proof.
  intros Ha Hout. unfold Utils.py_int.
  pose proof (ascii_decimal_outside _ Ha Hout) as H1.
  apply (lstrip_with_Exists Utils.is_blank _ _ outside_not_blank) in H1.
  apply (rstrip_with_Exists Utils.is_blank _ _ outside_not_blank) in H1.
  fold (PyStr.strip_with Utils.is_blank
          (PyStr.ascii_decimal (PyStr.points text))) in H1.
  destruct (PyStr.strip_with _ _) as [|c s]; [inversion H1|].
  assert (Hbody : forall negative body,
            Exists outside_literal (list_ascii_of_string body) ->
            match body with
            | EmptyString => None
            | String c' _ =>
                if Ascii.eqb c' "_" then None
                else match Utils.digits 0 0 false body with
                     | Some (v, n) =>
                         if Nat.ltb 640 n && Nat.ltb 0 limit && Nat.ltb limit n
                         then None
                         else Some (if negative : bool then (- v)%Z else v)
                     | None => None
                     end
            end = None).
  { intros negative body Hb. rewrite (digits_outside _ _ _ _ Hb).
    destruct body as [|c' r]; [done|]. by destruct (Ascii.eqb c' "_"). }
  assert (Htail : Ascii.eqb c "-" = true \/ Ascii.eqb c "+" = true ->
                  Exists outside_literal (list_ascii_of_string s)).
  { intros Hsign. cbn [list_ascii_of_string] in H1.
    apply Exists_cons in H1 as [Hc|Hs]; [|done].
    destruct Hc as (_ & _ & _ & _ & Hp & Hm & _).
    destruct Hsign as [E|E]; apply Ascii.eqb_eq in E; subst c;
      [by destruct Hm | by destruct Hp]. }
  unfold Utils.sign_and_body.
  destruct (Ascii.eqb c "-") eqn:Em;
    [exact (Hbody true s (Htail (or_introl eq_refl)))|].
  destruct (Ascii.eqb c "+") eqn:Ep;
    [exact (Hbody false s (Htail (or_intror eq_refl)))|].
  exact (Hbody false (String c s) H1).
Qed.

Example py_int_plain : Utils.py_int 4300 "2023" = Some 2023%Z.
Proof. reflexivity. Qed.

Example py_int_blanks_sign_underscore : Utils.py_int 4300 " +2_023 " = Some 2023%Z.
Proof. reflexivity. Qed.

Example py_int_negative : Utils.py_int 4300 "-5" = Some (-5)%Z.
Proof. reflexivity. Qed.

Example py_int_not_a_number :
  Utils.py_int 4300 "20x3" = None /\ Utils.py_int 4300 "" = None
  /\ Utils.py_int 4300 "2__3" = None /\ Utils.py_int 4300 "20 23" = None
  /\ Utils.py_int 4300 "2023_" = None /\ Utils.py_int 4300 "+" = None
  /\ Utils.py_int 4300 "+ 5" = None /\ Utils.py_int 4300 "_5" = None
  /\ Utils.py_int 4300 (String (ascii_of_nat 28) "2023") = None
  /\ Utils.py_int 4300 (String (ascii_of_nat 127) "2023") = None.
Proof. repeat split; reflexivity. Qed.

Example case_details_examples :
  Utils.validate_case_details 4300 2026 (Some "CRL") (Some "12345") (Some "2023") = true
  /\ Utils.validate_case_details 4300 2026 (Some "CRL") (Some "12345") (Some "1949") = false
  /\ Utils.validate_case_details 4300 2026 (Some "CRL") (Some "12345") (Some "2027") = false
  /\ Utils.validate_case_details 4300 2026 (Some "CRL") (Some "12345") (Some "year") = false
  /\ Utils.validate_case_details 4300 2026 (Some "CRL") None (Some "2023") = false
  /\ Utils.validate_case_details 4300 2026 (Some "") (Some "12345") (Some "2023") = false
  /\ Utils.validate_case_details 4300 2026 (Some "CRL") (Some "12345") (Some "1950") = true
  /\ Utils.validate_case_details 4300 2026 (Some "CRL") (Some "12345") (Some "2026") = true.
Proof. repeat split; reflexivity. Qed.

End WithUnicode.

(** digits of other scripts and white space above U+007F, with the
    sample of the Unicode database: the year 2020 in fullwidth digits,
    the year 2023 in Devanagari digits followed by a no-break space *)
Example py_int_other_scripts :
  let U := Samples.latin in
  Utils.py_int 4300 (PyStr.of_points [65298; 65296; 65298; 65296]%N) = Some 2020%Z
  /\ Utils.py_int 4300 (PyStr.of_points [2408; 2406; 2408; 2409; 160]%N)
     = Some 2023%Z
  /\ Utils.py_int 4300 (PyStr.of_points [50; 48; 160; 50; 48]%N) = None
  /\ Utils.py_int 4300 (PyStr.of_points [50; 48; 50; 48; 8364]%N) = None.
Proof. intros U. repeat split; reflexivity. Qed.

End UtilsFacts.

(** C7.  Case-detail validation accepts exactly when the case type, the
    case number and the case year are all given, the year parses as an
    integer, and that integer lies between 1950 and the current year; it
    rejects when one of the three is missing, when the year does not
    parse, and when it is below 1950 or above the current year.  A year
    written in decimal digits parses as the number it writes, so that it
    is accepted exactly when that number lies between 1950 and the
    current year; an ASCII text with a character that is neither a digit,
    a sign, an underscore nor a blank does not parse and is rejected. *)
Theorem case_details_accepted_iff {U : PyStr.unicode}
    (limit : nat) (year_now : Z) (case_type case_number case_year : option string) :
  (Utils.validate_case_details limit year_now case_type case_number case_year = true
   <-> Utils.given case_type = true /\ Utils.given case_number = true
       /\ exists text year,
            case_year = Some text /\ Utils.py_int limit text = Some year
            /\ (1950 <= year <= year_now)%Z)
  /\ (Utils.given case_type = false \/ Utils.given case_number = false
      \/ Utils.given case_year = false
      \/ (exists text, case_year = Some text /\ Utils.py_int limit text = None)
      \/ (exists text year, case_year = Some text /\ Utils.py_int limit text = Some year
                            /\ (year < 1950 \/ year_now < year)%Z) ->
      Utils.validate_case_details limit year_now case_type case_number case_year = false)
  /\ (forall ds : list nat,
        ds <> [] -> Forall (fun d => d < 10) ds ->
        length ds <= 640 \/ limit = 0 \/ length ds <= limit ->
        Utils.py_int limit (numeral ds) = Some (number ds)
        /\ (Utils.validate_case_details limit year_now case_type case_number
              (Some (numeral ds)) = true
            <-> Utils.given case_type = true /\ Utils.given case_number = true
                /\ (1950 <= number ds <= year_now)%Z))
  /\ (forall text : string,
        ascii_text text ->
        Exists outside_literal (list_ascii_of_string text) ->
        Utils.py_int limit text = None
        /\ Utils.validate_case_details limit year_now case_type case_number
             (Some text) = false).
Proof.
  assert (Hiff : forall case_year,
    Utils.validate_case_details limit year_now case_type case_number case_year = true
    <-> Utils.given case_type = true /\ Utils.given case_number = true
        /\ exists text year,
             case_year = Some text /\ Utils.py_int limit text = Some year
             /\ (1950 <= year <= year_now)%Z).
  { clear case_year. intros case_year. unfold Utils.validate_case_details.
    destruct (Utils.given case_type); cbn [andb negb].
    2: { split; [discriminate | by intros [? _]]. }
    destruct (Utils.given case_number); cbn [andb negb].
    2: { split; [discriminate | by intros (_ & ? & _)]. }
    destruct case_year as [text|].
    2: { cbn. split; [discriminate | by intros (_ & _ & ? & ? & ? & _)]. }
    destruct (Utils.py_int limit text) as [year|] eqn:Eint.
    2: { split.
         - by destruct (Utils.given (Some text)).
         - intros (_ & _ & t & y & [= <-] & Hy & _). congruence. }
    rewrite (UtilsFacts.py_int_given _ _ _ Eint). cbn [negb].
    destruct (year <? 1950)%Z eqn:Elo; destruct (year_now <? year)%Z eqn:Ehi;
      cbn [orb];
      (split; [try discriminate; intros _; repeat split; try done;
               exists text, year; repeat split; try done; lia
              | try done; intros (_ & _ & t & y & [= <-] & Hy & Hr);
                rewrite Eint in Hy; injection Hy as <-; lia]). }
  split; [apply Hiff|]. split; [|split].
  - intros Hbad. apply not_true_is_false. intros E.
    apply Hiff in E as (Ht & Hn & text & year & -> & Hint & Hr).
    destruct Hbad as [H|[H|[H|[(t & [= <-] & H)|(t & y & [= <-] & H & Hy)]]]];
      try congruence.
    + by rewrite (UtilsFacts.py_int_given _ _ _ Hint) in H.
    + rewrite Hint in H. injection H as <-. lia.
  - intros ds Hne Hds Hlen.
    pose proof (UtilsFacts.py_int_numeral limit ds Hne Hds Hlen) as Hint.
    split; [exact Hint|]. rewrite Hiff. split.
    + intros (Ht & Hn & text & year & [= <-] & Hy & Hr).
      rewrite Hint in Hy. injection Hy as <-. done.
    + intros (Ht & Hn & Hr). repeat split; try done. by eexists _, _.
  - intros text Ha Hout.
    pose proof (UtilsFacts.py_int_outside limit text Ha Hout) as Hint.
    split; [exact Hint|]. apply not_true_is_false. intros E.
    apply Hiff in E as (_ & _ & t & y & [= <-] & Hy & _). congruence.
Qed.

Lemma case_details_accepted_iff_witness :
  let U := Samples.latin in
  Utils.validate_case_details 4300 2026 (Some "CRL") (Some "12345") (Some "2023") = true
  /\ Utils.validate_case_details 4300 2026 (Some "CRL") (Some "12345") (Some "1949")
     = false
  /\ Utils.validate_case_details 4300 2026 (Some "CRL") (Some "12345") (Some "20x3")
     = false.
Proof.
  intros U.
  pose proof (case_details_accepted_iff 4300 2026 (Some "CRL") (Some "12345")
                (Some "1949")) as (_ & Hreject & Hnumeral & Htext).
  split; [|split].
  - apply (Hnumeral [2; 0; 2; 3]).
    + discriminate.
    + repeat constructor.
    + left. cbn. lia.
    + repeat split; try reflexivity; cbn; lia.
  - apply Hreject. right; right; right; right. exists "1949", 1949%Z.
    split; [reflexivity|]. split; [reflexivity|]. left. lia.
  - apply (Htext "20x3").
    + repeat constructor; vm_compute; lia.
    + right; right; left. unfold outside_literal. vm_compute. lia.
Defined.

(** ** Every operation returns a record *)
Module TotalityFacts.
Import SoupFacts ClassifierFacts.

Section WithUnicode.
Context {U : PyStr.unicode}.

Ltac tagged_as tag :=
  exists tag; split; [reflexivity|];
  split; [vm_compute; tauto|]; try discriminate;
  intros _; eexists; reflexivity.

Lemma error_record_tagged e : tagged (error_record e).
Proof. tagged_as "error". Qed.

Lemma classify_tagged doc cnr : tagged (classify doc cnr).
Proof.
  destruct (classify_outcome doc cnr).
  - tagged_as "search_failed".
  - tagged_as "case_found".
  - tagged_as "no_case_data".
  - tagged_as "unexpected_response".
Qed.

Lemma captcha_required_tagged url cnr date : tagged (captcha_required url cnr date).
Proof. tagged_as "captcha_required". Qed.

Lemma parse_search_results_returns html_content cnr w h :
  exists r, _parse_search_results html_content cnr w h = (Return r, h) /\ tagged r.
Proof.
  unfold _parse_search_results, try_except, bind, BeautifulSoup, ret.
  destruct (html_parser w html_content) as [contents|e]; eexists; split;
    try reflexivity; [apply classify_tagged | apply error_record_tagged].
Qed.

Lemma parse_search_results_raise html_content cnr w h e :
  html_parser w html_content = Raise e ->
  _parse_search_results html_content cnr w h = (Return (error_record e), h).
Proof.
  intros H. unfold _parse_search_results, try_except, bind, BeautifulSoup. by rewrite H.
Qed.

Lemma submit_unfold cnr captcha_code form page w h :
  _submit_cnr_search cnr captcha_code form page w h
  = match submit_url w form with
    | Return url =>
        match send w h (submission url cnr captcha_code form) with
        | Return resp =>
            if Z.eqb (status_code resp) 200
            then _parse_search_results (content resp) cnr w
                   (h ++ [Http (submission url cnr captcha_code form)])%list
            else (Return (error_record ("Search submission failed: HTTP "
                                        ++ str_of_int (status_code resp))),
                  (h ++ [Http (submission url cnr captcha_code form)])%list)
        | Raise e =>
            (Return (error_record e),
             (h ++ [Http (submission url cnr captcha_code form)])%list)
        end
    | Raise e => (Return (error_record e), h)
    end.
Proof.
  unfold _submit_cnr_search, submit_url, submission, try_except, bind,
    call_urljoin, session_post, session_get_params, perform.
  destruct (urljoin w services_url _) as [url|e]; [|reflexivity].
  destruct (String.eqb (PyStr.upper (Soup.get_default form "method" "POST")) "POST");
    (destruct (send w h _) as [resp|e]; [|reflexivity];
     destruct (Z.eqb (status_code resp) 200); [|reflexivity];
     unfold _parse_search_results, try_except, bind, BeautifulSoup;
     by destruct (html_parser w (content resp))).
Qed.

Lemma submit_returns cnr captcha_code form page w h :
  exists r h', _submit_cnr_search cnr captcha_code form page w h = (Return r, h')
               /\ tagged r.
Proof.
  rewrite submit_unfold. destruct (submit_url w form) as [url|e].
  2: { eexists _, _. split; [reflexivity | apply error_record_tagged]. }
  destruct (send w h _) as [resp|e].
  - destruct (Z.eqb (status_code resp) 200).
    + destruct (parse_search_results_returns (content resp) cnr w
                  (h ++ [Http (submission url cnr captcha_code form)])%list)
        as (r & Hr & Ht). eexists r, _. by split.
    + eexists _, _. split; [reflexivity | apply error_record_tagged].
  - eexists _, _. split; [reflexivity | apply error_record_tagged].
Qed.

Lemma submit_unresolved cnr captcha_code form page w h e :
  submit_url w form = Raise e ->
  _submit_cnr_search cnr captcha_code form page w h = (Return (error_record e), h).
Proof. intros H. by rewrite submit_unfold, H. Qed.

Lemma submit_raise cnr captcha_code form page w h url e :
  submit_url w form = Return url ->
  send w h (submission url cnr captcha_code form) = Raise e ->
  _submit_cnr_search cnr captcha_code form page w h
  = (Return (error_record e),
     (h ++ [Http (submission url cnr captcha_code form)])%list).
Proof. intros Hu Hs. by rewrite submit_unfold, Hu, Hs. Qed.

Lemma search_by_cnr_raise cnr date captcha_code w h e :
  send w h first_fetch = Raise e ->
  search_by_cnr cnr date captcha_code w h
  = (Return (error_record e), (h ++ [Http first_fetch])%list).
Proof.
  intros H. unfold search_by_cnr, try_except, bind, session_get, perform.
  fold first_fetch. by rewrite H.
Qed.

Lemma search_by_cnr_bad_status cnr date captcha_code w h resp :
  send w h first_fetch = Return resp -> status_code resp <> 200%Z ->
  search_by_cnr cnr date captcha_code w h
  = (Return (error_record ("Services website returned status code: "
                           ++ str_of_int (status_code resp))),
     (h ++ [Http first_fetch])%list).
Proof.
  intros H Hne. unfold search_by_cnr, try_except, bind, session_get, perform.
  fold first_fetch. rewrite H. apply Z.eqb_neq in Hne. by rewrite Hne.
Qed.

Lemma search_by_cnr_parse_raise cnr date captcha_code w h resp e :
  send w h first_fetch = Return resp -> status_code resp = 200%Z ->
  html_parser w (content resp) = Raise e ->
  search_by_cnr cnr date captcha_code w h
  = (Return (error_record e), (h ++ [Http first_fetch])%list).
Proof.
  intros H Hc Hp. unfold search_by_cnr, try_except, bind, session_get, perform,
    BeautifulSoup.
  fold first_fetch. rewrite H, Hc. cbn [Z.eqb Pos.eqb]. by rewrite Hp.
Qed.

Lemma search_by_cnr_returns cnr date captcha_code w h :
  exists r h', search_by_cnr cnr date captcha_code w h = (Return r, h') /\ tagged r.
Proof.
  destruct (send w h first_fetch) as [resp|e] eqn:Hsend.
  2: { rewrite (search_by_cnr_raise _ _ _ _ _ _ Hsend).
       eexists _, _. split; [reflexivity | apply error_record_tagged]. }
  destruct (Z.eq_dec (status_code resp) 200%Z) as [Hc|Hc].
  2: { rewrite (search_by_cnr_bad_status _ _ _ _ _ _ Hsend Hc).
       eexists _, _. split; [reflexivity | apply error_record_tagged]. }
  destruct (html_parser w (content resp)) as [contents|e] eqn:Hp.
  2: { rewrite (search_by_cnr_parse_raise _ _ _ _ _ _ _ Hsend Hc Hp).
       eexists _, _. split; [reflexivity | apply error_record_tagged]. }
  rewrite (LocatorFacts.search_by_cnr_fetched _ _ _ _ _ _ _ Hsend Hc Hp).
  destruct (find _ _ _); [|eexists _, _; split; [reflexivity | apply error_record_tagged]].
  destruct (find _ _ _); [|eexists _, _; split; [reflexivity | apply error_record_tagged]].
  destruct (find _ _ _); [|eexists _, _; split; [reflexivity | apply error_record_tagged]].
  destruct (captcha_url w (soup contents)) as [url|e];
    [|eexists _, _; split; [reflexivity | apply error_record_tagged]].
  destruct (Utils.given captcha_code).
  - apply submit_returns.
  - eexists _, _. split; [reflexivity | apply captcha_required_tagged].
Qed.

(** the address of the captcha image cannot be resolved *)
Lemma search_by_cnr_unresolved cnr date captcha_code w h resp contents e :
  send w h first_fetch = Return resp -> status_code resp = 200%Z ->
  html_parser w (content resp) = Return contents ->
  has_cnr_input (soup contents) -> has_captcha_input (soup contents) ->
  has_form (soup contents) ->
  captcha_url w (soup contents) = Raise e ->
  search_by_cnr cnr date captcha_code w h
  = (Return (error_record e), (h ++ [Http first_fetch])%list).
Proof.
  intros Hsend Hc Hp H1 H2 H3 Hu.
  rewrite (LocatorFacts.search_by_cnr_fetched _ _ _ _ _ _ _ Hsend Hc Hp).
  apply present_find in H1 as [i1 ->]. apply present_find in H2 as [i2 ->].
  apply present_find in H3 as [form ->]. by rewrite Hu.
Qed.

Lemma search_by_case_details_raise case_type case_number case_year date w h e :
  send w h first_fetch = Raise e ->
  search_by_case_details case_type case_number case_year date w h
  = (Return (error_record e), (h ++ [Http first_fetch])%list).
Proof.
  intros H. unfold search_by_case_details, try_except, bind, session_get, perform.
  fold first_fetch. by rewrite H.
Qed.

Lemma search_by_case_details_parse_raise case_type case_number case_year date w h resp e :
  send w h first_fetch = Return resp -> status_code resp = 200%Z ->
  html_parser w (content resp) = Raise e ->
  search_by_case_details case_type case_number case_year date w h
  = (Return (error_record e), (h ++ [Http first_fetch])%list).
Proof.
  intros H Hc Hp. unfold search_by_case_details, try_except, bind, session_get,
    perform, BeautifulSoup.
  fold first_fetch. rewrite H, Hc. cbn [Z.eqb Pos.eqb]. by rewrite Hp.
Qed.

Lemma search_by_case_details_returns case_type case_number case_year date w h :
  exists r, search_by_case_details case_type case_number case_year date w h
            = (Return r, (h ++ [Http first_fetch])%list) /\ tagged r.
Proof.
  unfold search_by_case_details, try_except, bind, session_get, perform, BeautifulSoup.
  fold first_fetch. destruct (send w h first_fetch) as [resp|e].
  2: { eexists. split; [reflexivity | apply error_record_tagged]. }
  destruct (Z.eqb (status_code resp) 200).
  2: { eexists. split; [reflexivity | apply error_record_tagged]. }
  destruct (html_parser w (content resp)) as [contents|e].
  2: { eexists. split; [reflexivity | apply error_record_tagged]. }
  eexists. split; [reflexivity|]. tagged_as "found".
Qed.

Lemma get_case_listing_not_a_dict search_params target_date w h :
  (forall d, search_params <> VDict d) ->
  get_case_listing search_params target_date w h
  = (Return (listing_error ("'" ++ type_name search_params
                            ++ "' object has no attribute 'get'")), h).
Proof.
  intros Hnd. destruct search_params; try reflexivity. by destruct (Hnd d).
Qed.

Lemma get_case_listing_returns search_params target_date w h :
  exists r, get_case_listing search_params target_date w h = (Return r, h) /\ tagged r.
Proof.
  destruct search_params as [| | | | |d];
    try (eexists; split; [reflexivity | tagged_as "error"]).
  unfold get_case_listing, try_except, bind, call_get, call_get_default, ret.
  destruct (eq_str (Py.get d "connection") "success").
  2: { eexists. split; [reflexivity | tagged_as "connection_failed"]. }
  destruct (truthy (Py.get d "captcha_required")).
  { eexists. split; [reflexivity | tagged_as "captcha_required"]. }
  destruct (truthy (Py.get d "website_accessible")).
  { eexists. split; [reflexivity | tagged_as "connected"]. }
  eexists. split; [reflexivity | tagged_as "connection_failed"].
Qed.

End WithUnicode.

End TotalityFacts.

(** C6.  In every world and for every input, search_by_cnr,
    search_by_case_details and get_case_listing return a record with a
    known tag and never raise.  A connection failure, a parser failure, a
    failed submission, an address that cannot be resolved or a malformed
    argument is turned into a record tagged 'error' that carries the
    message of the exception. *)
Theorem core_operations_never_raise {U : PyStr.unicode}
    (w : world) (h : list event) :
  (forall cnr date captcha_code,
     exists r h', search_by_cnr cnr date captcha_code w h = (Return r, h') /\ tagged r)
  /\ (forall case_type case_number case_year date,
        exists r h', search_by_case_details case_type case_number case_year date w h
                     = (Return r, h') /\ tagged r)
  /\ (forall search_params target_date,
        exists r h', get_case_listing search_params target_date w h = (Return r, h')
                     /\ tagged r)
  /\ (forall e, status (error_record e) = Some (VStr "error")
                /\ error_record e !! "message" = Some (VStr e))
  /\ (forall cnr date captcha_code case_type case_number case_year e,
        send w h first_fetch = Raise e ->
        search_by_cnr cnr date captcha_code w h
          = (Return (error_record e), (h ++ [Http first_fetch])%list)
        /\ search_by_case_details case_type case_number case_year date w h
          = (Return (error_record e), (h ++ [Http first_fetch])%list))
  /\ (forall cnr date captcha_code case_type case_number case_year resp e,
        send w h first_fetch = Return resp -> status_code resp = 200%Z ->
        html_parser w (content resp) = Raise e ->
        search_by_cnr cnr date captcha_code w h
          = (Return (error_record e), (h ++ [Http first_fetch])%list)
        /\ search_by_case_details case_type case_number case_year date w h
          = (Return (error_record e), (h ++ [Http first_fetch])%list))
  /\ (forall cnr captcha_code form page url e,
        submit_url w form = Return url ->
        send w h (submission url cnr captcha_code form) = Raise e ->
        _submit_cnr_search cnr captcha_code form page w h
          = (Return (error_record e),
             (h ++ [Http (submission url cnr captcha_code form)])%list))
  /\ (forall cnr captcha_code form page e,
        submit_url w form = Raise e ->
        _submit_cnr_search cnr captcha_code form page w h
          = (Return (error_record e), h))
  /\ (forall cnr date captcha_code resp contents e,
        send w h first_fetch = Return resp -> status_code resp = 200%Z ->
        html_parser w (content resp) = Return contents ->
        has_cnr_input (soup contents) -> has_captcha_input (soup contents) ->
        has_form (soup contents) ->
        captcha_url w (soup contents) = Raise e ->
        search_by_cnr cnr date captcha_code w h
          = (Return (error_record e), (h ++ [Http first_fetch])%list))
  /\ (forall html_content cnr e,
        html_parser w html_content = Raise e ->
        _parse_search_results html_content cnr w h = (Return (error_record e), h))
  /\ (forall search_params target_date,
        (forall d, search_params <> VDict d) ->
        exists message,
          get_case_listing search_params target_date w h
            = (Return (listing_error message), h)
          /\ status (listing_error message) = Some (VStr "error")
          /\ listing_error message !! "message" = Some (VStr message)).
Proof.
  repeat apply conj.
  - intros. apply TotalityFacts.search_by_cnr_returns.
  - intros.
    destruct (TotalityFacts.search_by_case_details_returns
                case_type case_number case_year date w h) as (r & Hr & Ht).
    by exists r, (h ++ [Http first_fetch])%list.
  - intros.
    destruct (TotalityFacts.get_case_listing_returns search_params target_date w h)
      as (r & Hr & Ht).
    by exists r, h.
  - intros. split; reflexivity.
  - intros * Hraise. split.
    + by apply TotalityFacts.search_by_cnr_raise.
    + by apply TotalityFacts.search_by_case_details_raise.
  - intros * Hsend Hcode Hparse. split.
    + by eapply TotalityFacts.search_by_cnr_parse_raise.
    + by eapply TotalityFacts.search_by_case_details_parse_raise.
  - intros * Hurl Hraise. by apply TotalityFacts.submit_raise.
  - intros * Hurl. by apply TotalityFacts.submit_unresolved.
  - intros * Hsend Hcode Hparse H1 H2 H3 Hurl.
    by eapply TotalityFacts.search_by_cnr_unresolved.
  - intros * Hraise. by apply TotalityFacts.parse_search_results_raise.
  - intros * Hnd. eexists. split; [by apply TotalityFacts.get_case_listing_not_a_dict|].
    split; reflexivity.
Qed.

Lemma core_operations_never_raise_witness :
  let U := Samples.latin in
  search_by_cnr "MHAU010012342023" "04-11-2026" None Samples.offline []
    = (Return (error_record "Connection refused"), [Http first_fetch])
  /\ search_by_case_details "CRL" "12345" "2023" "04-11-2026" Samples.offline []
    = (Return (error_record "Connection refused"), [Http first_fetch]).
Proof.
  intros U.
  apply (proj1 (proj2 (proj2 (proj2 (proj2
           (core_operations_never_raise Samples.offline [])))))
           "MHAU010012342023" "04-11-2026" None "CRL" "12345" "2023"
           "Connection refused").
  reflexivity.
Defined.

Module DemoFacts.

Section WithUnicode.
Context {U : PyStr.unicode}.

Lemma api_demo date_option captcha_code w h :
  Api.search_by_cnr (demo_query date_option captcha_code) w h
  = let target := demo_target w date_option in
    let path := "output/" ++ demo_file target ++ ".json" in
    (match write_file w h path with
     | Return _ => Return (demo_envelope target, 200%Z)
     | Raise e => Return (Api.error_body e, 500%Z)
     end,
     (h ++ [Write path (Api.demo_result "DEMO123") "json"])%list).
Proof.
  unfold Api.search_by_cnr, demo_query, demo_target.
  cbn [Api.q_cnr Api.q_date Api.q_captcha_code].
  change (PyStr.truthy "DEMO123") with true.
  change (Utils.validate_cnr (Some "DEMO123")) with true.
  change (String.eqb (PyStr.upper "DEMO123") "DEMO123") with true.
  cbn [negb].
  unfold Utils.save_results, try_except, bind, ask, write, ret.
  change (String.eqb "json" "json") with true. cbn iota beta zeta.
  set (target := Api.target_date_of w (default "today" date_option)).
  set (path := "output/" ++ demo_file target ++ ".json").
  change (Utils.output_path _) with path.
  destruct (write_file w h path); reflexivity.
Qed.

Lemma bind_echo {B} line (k : unit -> M B) w h :
  bind (echo line) k w h = k tt w (h ++ [Echo line])%list.
Proof. reflexivity. Qed.

Lemma for_each_echo {A} (l : list A) (f : A -> string) w h :
  for_each l (fun x => echo (f x)) w h
  = (Return tt, (h ++ map (fun x => Echo (f x)) l)%list).
Proof.
  revert h. induction l as [|x l IH]; intros h; cbn [for_each map].
  - by rewrite app_nil_r.
  - rewrite bind_echo, IH, <- app_assoc. reflexivity.
Qed.

Lemma bind_for_each_echo {A B} (l : list A) (f : A -> string) (k : unit -> M B) w h :
  bind (for_each l (fun x => echo (f x))) k w h
  = k tt w (h ++ map (fun x => Echo (f x)) l)%list.
Proof. unfold bind at 1. by rewrite for_each_echo. Qed.

Lemma bind_save_results {B} data filename format_type (k : string -> M B) w h :
  bind (Utils.save_results data filename format_type) k w h
  = let path := if String.eqb format_type "json"
                then Utils.output_path (filename ++ ".json")
                else Utils.output_path (filename ++ ".txt") in
    match write_file w h path with
    | Return _ => k path w (h ++ [Write path data format_type])%list
    | Raise e => (Raise e, (h ++ [Write path data format_type])%list)
    end.
Proof.
  unfold Utils.save_results, bind, write, ret. cbn zeta.
  by destruct (write_file w h _).
Qed.

Lemma demo_mode_run target_date output_format w h :
  Cli.demo_mode "DEMO123" target_date output_format w h
  = match write_file w (h ++ demo_transcript)%list
                     (cli_demo_path target_date output_format) with
    | Return _ =>
        (Return tt,
         (h ++ demo_transcript
            ++ [Write (cli_demo_path target_date output_format)
                      (Cli.demo_result "DEMO123") output_format;
                Echo (PyStr.newline ++ "Results saved to: output/"
                      ++ demo_file target_date ++ "." ++ output_format)])%list)
    | Raise e =>
        (Raise e,
         (h ++ demo_transcript
            ++ [Write (cli_demo_path target_date output_format)
                      (Cli.demo_result "DEMO123") output_format])%list)
    end.
Proof.
  unfold Cli.demo_mode. cbn zeta.
  rewrite !bind_echo, bind_for_each_echo, bind_echo, bind_for_each_echo,
    bind_save_results.
  cbn zeta.
  assert (Hh : (((((((h ++ [Echo "Case Information Found!"])
                     ++ [Echo ("CNR: " ++ "DEMO123")])
                    ++ [Echo "Message: Demo case information retrieved successfully"])
                   ++ [Echo (PyStr.newline ++ "Case Details:")])
                  ++ map (fun kv : string * string =>
                            Echo ("  " ++ PyStr.title (PyStr.replace_char "_" " " kv.1)
                                  ++ ": " ++ kv.2)) Api.demo_case_details)
                 ++ [Echo (PyStr.newline ++ "Status Indicators:")])
                ++ map (fun indicator => Echo ("  - " ++ indicator))
                       Api.demo_status_indicators
                = h ++ demo_transcript)%list).
  { rewrite <- !app_assoc. reflexivity. }
  rewrite Hh.
  assert (Hp : (if String.eqb output_format "json"
                then Utils.output_path (("case_result_" ++ "DEMO123" ++ "_" ++ target_date)
                                        ++ ".json")
                else Utils.output_path (("case_result_" ++ "DEMO123" ++ "_" ++ target_date)
                                        ++ ".txt"))
               = cli_demo_path target_date output_format).
  { unfold cli_demo_path. by destruct (String.eqb output_format "json"). }
  rewrite Hp.
  destruct (write_file w (h ++ demo_transcript)%list _);
    [|rewrite <- app_assoc; reflexivity].
  unfold echo. rewrite <- !app_assoc. reflexivity.
Qed.

Lemma main_demo real_cnr_search case_details_search case_type case_number case_year
    today_flag tomorrow_flag causelist output_format w h :
  Cli.main real_cnr_search case_details_search (Some "DEMO123")
           case_type case_number case_year today_flag tomorrow_flag causelist
           output_format w h
  = match Cli.demo_mode "DEMO123" (cli_dated w h today_flag tomorrow_flag).2
                        output_format w (cli_dated w h today_flag tomorrow_flag).1 with
    | (Return a, h') => (Return a, h')
    | (Raise e, h') => (Return tt, (h' ++ [Echo ("Error: " ++ e)])%list)
    end.
Proof.
  unfold Cli.main, cli_dated.
  change (Utils.given (Some "DEMO123")) with true. cbn [negb andb].
  destruct today_flag; [|destruct tomorrow_flag].
  - reflexivity.
  - reflexivity.
  - unfold bind at 1. unfold ask at 1. cbn iota beta.
    unfold bind at 1. unfold bind at 1. unfold prompt at 1. cbn iota beta.
    destruct (String.eqb (answer w h "Check for (1) Today or (2) Tomorrow?") "1");
      reflexivity.
Qed.

Lemma requests_app h1 h2 : requests (h1 ++ h2)%list = (requests h1 ++ requests h2)%list.
Proof. apply List.filter_app. Qed.

Lemma requests_dated w h today_flag tomorrow_flag :
  requests (cli_dated w h today_flag tomorrow_flag).1 = requests h.
Proof.
  unfold cli_dated. destruct today_flag; [done|]. destruct tomorrow_flag; [done|].
  cbn [fst]. rewrite requests_app. cbn. apply app_nil_r.
Qed.

End WithUnicode.

End DemoFacts.

(** C9 (amended).  A search for the CNR "DEMO123" builds the case_found
    record with the fixed case fields (case number "DEMO/123/2024",
    status "Pending") without any request to the portal.  The API handler
    hands the record to the persistence collaborator as its first and
    only action; it answers 200 with the record when the file is written,
    and 500 with the message of the I/O error when it is not.  The
    command line tool prints the fields of the record and then saves it.
    Neither run depends on the portal, the parser or the URL resolver of
    the world. *)
Theorem demo_cnr_needs_no_network {U : PyStr.unicode}
    (w : world) (h : list event) (date_option captcha_code : option string)
    (real_cnr_search : string -> string -> bool -> string -> M unit)
    (case_details_search :
       option string -> option string -> option string ->
       string -> bool -> string -> M unit)
    (case_type case_number case_year : option string)
    (today_flag tomorrow_flag causelist : bool) (output_format : string) :
  let api := Api.search_by_cnr (demo_query date_option captcha_code) in
  let cli := Cli.main real_cnr_search case_details_search (Some "DEMO123")
               case_type case_number case_year today_flag tomorrow_flag causelist
               output_format in
  let api_path := "output/" ++ demo_file (demo_target w date_option) ++ ".json" in
  (status (Api.demo_result "DEMO123") = Some (VStr "case_found")
   /\ status (Cli.demo_result "DEMO123") = Some (VStr "case_found")
   /\ Api.demo_result "DEMO123" !! "case_details"
      = Some (VDict (Api.strs Api.demo_case_details))
   /\ Cli.demo_result "DEMO123" !! "case_details"
      = Some (VDict (Api.strs Api.demo_case_details))
   /\ Api.strs Api.demo_case_details !! "case_number" = Some (VStr "DEMO/123/2024")
   /\ Api.strs Api.demo_case_details !! "status" = Some (VStr "Pending"))
  /\ snd (api w h) = (h ++ [Write api_path (Api.demo_result "DEMO123") "json"])%list
  /\ requests (snd (api w h)) = requests h
  /\ fst (api w h)
     = match write_file w h api_path with
       | Return _ => Return (demo_envelope (demo_target w date_option), 200%Z)
       | Raise e => Return (Api.error_body e, 500%Z)
       end
  /\ demo_envelope (demo_target w date_option) !! "data"
     = Some (VDict (Api.demo_result "DEMO123"))
  /\ (forall send' parser' urljoin',
        api (with_network w send' parser' urljoin') h = api w h)
  /\ fst (cli w h) = Return tt
  /\ (exists before after,
        snd (cli w h)
        = (before ++ demo_transcript
             ++ Write (cli_demo_path (cli_dated w h today_flag tomorrow_flag).2
                                     output_format)
                      (Cli.demo_result "DEMO123") output_format :: after)%list
        /\ requests before = requests h /\ requests after = [])
  /\ In (Echo "  Case Number: DEMO/123/2024") demo_transcript
  /\ In (Echo "  Status: Pending") demo_transcript
  /\ requests (snd (cli w h)) = requests h
  /\ (forall send' parser' urljoin',
        cli (with_network w send' parser' urljoin') h = cli w h).
Proof.
  cbn zeta.
  assert (Hcli : exists after,
    Cli.main real_cnr_search case_details_search (Some "DEMO123")
             case_type case_number case_year today_flag tomorrow_flag causelist
             output_format w h
    = (Return tt,
       ((cli_dated w h today_flag tomorrow_flag).1 ++ demo_transcript
          ++ Write (cli_demo_path (cli_dated w h today_flag tomorrow_flag).2
                                  output_format)
                   (Cli.demo_result "DEMO123") output_format :: after)%list)
    /\ requests after = []).
  { rewrite DemoFacts.main_demo, DemoFacts.demo_mode_run.
    destruct (write_file w _ _) as [saved|e].
    - eexists. split; [reflexivity|reflexivity].
    - eexists. split; [by rewrite <- !app_assoc|reflexivity]. }
  destruct Hcli as (after & Hcli & Hafter).
  assert (Hind : forall send' parser' urljoin',
    Cli.main real_cnr_search case_details_search (Some "DEMO123")
             case_type case_number case_year today_flag tomorrow_flag causelist
             output_format (with_network w send' parser' urljoin') h
    = Cli.main real_cnr_search case_details_search (Some "DEMO123")
               case_type case_number case_year today_flag tomorrow_flag causelist
               output_format w h).
  { intros. rewrite !DemoFacts.main_demo, !DemoFacts.demo_mode_run. reflexivity. }
  rewrite Hcli, DemoFacts.api_demo. cbn [fst snd].
  repeat apply conj; try reflexivity.
  - rewrite DemoFacts.requests_app. cbn. apply app_nil_r.
  - intros. rewrite DemoFacts.api_demo. reflexivity.
  - exists (cli_dated w h today_flag tomorrow_flag).1, after.
    split; [reflexivity|]. split; [apply DemoFacts.requests_dated | exact Hafter].
  - vm_compute. tauto.
  - vm_compute. tauto.
  - rewrite !DemoFacts.requests_app, DemoFacts.requests_dated.
    change (Write ?p ?d ?f :: after) with ([Write p d f] ++ after)%list.
    rewrite DemoFacts.requests_app, Hafter. cbn. apply app_nil_r.
  - intros. by rewrite Hind.
Qed.

(** C9 as stated fails where the result file cannot be written: no
    request is sent, yet the API handler answers 500 with the message of
    the I/O error instead of the case_found record. *)
Lemma demo_cnr_unsaved_counterexample :
  let U := Samples.latin in
  Api.search_by_cnr (demo_query None None) (Samples.read_only Samples.offline) []
  = (Return (Api.error_body "Read-only file system", 500%Z),
     [Write "output/case_result_DEMO123_04-11-2026.json"
            (Api.demo_result "DEMO123") "json"])
  /\ Api.error_body "Read-only file system" !! "data" = None
  /\ status (Api.error_body "Read-only file system") = None.
Proof.
  intros U. split; [|split; reflexivity].
  rewrite DemoFacts.api_demo. reflexivity.
Qed.

(** C10.  download_cause_list sends nothing, writes nothing and cannot
    raise: for every court and date it returns a record tagged
    'connected' that echoes them.  The test for the 'error' tag in the
    cause-list handler therefore fails, and for a court that is not a demo
    court the handler answers 200 with that record. *)
Theorem cause_list_always_connected {U : PyStr.unicode}
    (court_name date : string) (w : world) (h : list event) :
  exists r,
    download_cause_list court_name date w h = (Return r, h)
    /\ status r = Some (VStr "connected")
    /\ r !! "court" = Some (VStr court_name)
    /\ r !! "date" = Some (VStr date)
    /\ Api.status_is r "error" = false
    /\ (String.eqb (PyStr.lower court_name) "demo"
        || PyStr.contains "demo" (PyStr.lower court_name) = false ->
        Api.get_cause_list court_name date w h
        = (Return (mk [("success", VBool true); ("data", VDict r)], 200%Z), h)).
Proof.
  eexists. split; [reflexivity|]. repeat split; try reflexivity.
  intros Hdemo. unfold Api.get_cause_list, try_except, bind. rewrite Hdemo.
  reflexivity.
Qed.

Lemma cause_list_always_connected_witness :
  let U := Samples.latin in
  exists r,
    download_cause_list "Delhi High Court" "04-11-2026" Samples.offline [] = (Return r, [])
    /\ status r = Some (VStr "connected")
    /\ Api.get_cause_list "Delhi High Court" "04-11-2026" Samples.offline []
       = (Return (mk [("success", VBool true); ("data", VDict r)], 200%Z), []).
Proof.
  intros U.
  destruct (cause_list_always_connected "Delhi High Court" "04-11-2026"
              Samples.offline []) as (r & Hr & Hs & _ & _ & _ & Hapi).
  exists r. split; [exact Hr|]. split; [exact Hs|]. apply Hapi. reflexivity.
Defined.

Section Scenarios.
Context {U : PyStr.unicode}.

(** the two scenarios of the specification on the CSS-debris filter *)
Example css_text_is_not_an_error :
  status (classify (soup [Tag "div" ∅
                            [NavigableString "font-family: Arial; color: red"]])
                   "MHAU010012342023")
  = Some (VStr "unexpected_response").
Proof. reflexivity. Qed.

Example plain_error_is_reported :
  classify (soup [Tag "div" ∅ [NavigableString "Error: invalid CNR"]])
           "MHAU010012342023" !! "message"
  = Some (VStr "Search failed: Error: invalid CNR").
Proof. reflexivity. Qed.

(** an error keyword inside CSS-like text is dropped, not reported *)
Example css_error_is_dropped :
  status (classify (soup [Tag "div" ∅
                            [NavigableString ".error { font-weight: bold }"]])
                   "MHAU010012342023")
  = Some (VStr "unexpected_response").
Proof. reflexivity. Qed.

(** ** The search, end to end *)

(** without a captcha code the search stops at the captcha *)
Example search_asks_for_captcha :
  exists r,
    search_by_cnr "MHAU010012342023" "04-11-2026" None Samples.session []
      = (Return r, [Http first_fetch])
    /\ status r = Some (VStr "captcha_required")
    /\ r !! "captcha_url" = Some (VStr "https://services.ecourts.gov.in/captcha.png").
Proof.
  eexists. split.
  - rewrite (LocatorFacts.search_by_cnr_fetched _ _ _ Samples.session []
               {| status_code := 200; content := "search" |} Samples.search_page
               eq_refl eq_refl eq_refl).
    reflexivity.
  - split; reflexivity.
Qed.

(** with one, the form is posted with the caller's values and the hidden
    fields, and the result page is classified *)
Example search_with_captcha :
  exists r,
    search_by_cnr "MHAU010012342023" "04-11-2026" (Some "x7k2p") Samples.session []
      = (Return r,
         [Http first_fetch;
          Http (POST "https://services.ecourts.gov.in/search"
                     {[ "cino" := "MHAU010012342023"; "fcaptcha_code" := "x7k2p";
                        "app_token" := "9f3c"; "state" := "" ]} 15)])
    /\ status r = Some (VStr "case_found")
    /\ r !! "case_details" = Some (VDict {[ "case status" := VStr "Pending" ]})
    /\ r !! "status_indicators" = Some (VList [VStr "Pending"]).
Proof.
  exists (classify (soup Samples.status_page) "MHAU010012342023"). split.
  - rewrite (LocatorFacts.search_by_cnr_fetched _ _ _ Samples.session []
               {| status_code := 200; content := "search" |} Samples.search_page
               eq_refl eq_refl eq_refl).
    change (find (soup Samples.search_page) ["input"] (attr_is "name" "cino"))
      with (Some (Samples.input [("type", "text"); ("name", "cino"); ("value", "OLD")])).
    change (find (soup Samples.search_page) ["input"] (attr_is "name" "fcaptcha_code"))
      with (Some (Samples.input [("type", "text"); ("name", "fcaptcha_code");
                                 ("value", "old")])).
    change (find (soup Samples.search_page) ["form"] any_tag)
      with (Some Samples.search_form).
    change (captcha_url Samples.session (soup Samples.search_page))
      with (Return (A:=value) (VStr "https://services.ecourts.gov.in/captcha.png")).
    cbn [Utils.given PyStr.truthy default].
    rewrite TotalityFacts.submit_unfold.
    change (submit_url Samples.session Samples.search_form)
      with (Return (A:=string) "https://services.ecourts.gov.in/search").
    cbv iota.
    change (submission "https://services.ecourts.gov.in/search"
                       "MHAU010012342023" "x7k2p" Samples.search_form)
      with (POST "https://services.ecourts.gov.in/search"
                 {[ "cino" := "MHAU010012342023"; "fcaptcha_code" := "x7k2p";
                    "app_token" := "9f3c"; "state" := "" ]} 15).
    reflexivity.
  - split; [|split]; reflexivity.
Qed.

(** a form whose action cannot be resolved: nothing is submitted *)
Example search_with_unresolved_action :
  _submit_cnr_search "MHAU010012342023" "x7k2p"
    (Tag "form" {[ "action" := "//[" ]} []) (soup []) Samples.session []
  = (Return (error_record "Invalid IPv6 URL"), []).
Proof. reflexivity. Qed.

End Scenarios.

(** a cell whose text is split around a no-break space: the pieces are
    stripped one by one, so that the key of the row is 'status' *)
Example key_across_no_break_space :
  let U := Samples.latin in
  classify (soup [Samples.table
                    [Samples.tr
                       [Tag "td" ∅ [NavigableString "Sta";
                                    Tag "b" ∅ [NavigableString
                                                 (PyStr.encode 160 ++ "tus")]];
                        Samples.td "Pending"]]])
           "MHAU010012342023" !! "case_details"
  = Some (VDict {[ "status" := VStr "Pending" ]}).
Proof. reflexivity. Qed.


(** * Further properties of the code *)

(** ** Document order *)
Module OrderFacts.
Import SoupFacts DictFacts ScraperFacts.

Section WithUnicode.
Context {U : PyStr.unicode}.

Lemma head_filter (f : node -> bool) (l : list node) (n : node) :
  head (List.filter f l) = Some n <-> first_such f l n.
Proof.
  unfold first_such. induction l as [|m l IH]; cbn [List.filter].
  - split; [discriminate|]. intros (before & after & H & _). by destruct before.
  - destruct (f m) eqn:Em.
    + cbn [head]. split.
      * intros [= ->]. exists [], l. repeat split; [done|constructor].
      * intros (before & after & Hl & Hn & Hb). destruct before as [|b before].
        -- by injection Hl as -> _.
        -- injection Hl as -> _. apply Forall_cons in Hb as [Hb _]. congruence.
    + rewrite IH. split.
      * intros (before & after & -> & Hn & Hb). exists (m :: before), after.
        repeat split; [done|by constructor].
      * intros (before & after & Hl & Hn & Hb). destruct before as [|b before].
        -- injection Hl as -> _. congruence.
        -- injection Hl as -> ->. apply Forall_cons in Hb as [_ Hb].
           by exists before, after.
Qed.

(** [find] returns the first match in document order *)
Lemma find_first root names cond n :
  find root names cond = Some n
  <-> first_such (fun m => named names m && cond m) (descendants root) n.
Proof. apply head_filter. Qed.

Lemma first_such_unique f l n n' : first_such f l n -> first_such f l n' -> n = n'.
Proof.
  intros H H'. apply head_filter in H, H'. congruence.
Qed.

Lemma filter_none (f : node -> bool) (l : list node) :
  Forall (fun m => f m = false) l -> List.filter f l = [].
Proof.
  induction 1 as [|m l Hm _ IH]; [done|]. cbn [List.filter]. by rewrite Hm.
Qed.

(** the texts the classifier keeps are those of the clean elements, in
    document order *)
Lemma clean_texts_elements words root :
  clean_texts (find_all root text_tags (text_sat (mentions words)))
  = map get_text_strip (List.filter (clean_element words) (descendants root)).
Proof.
  rewrite clean_texts_filter. unfold find_all, clean_element.
  induction (descendants root) as [|e l IH]; [done|]. cbn [List.filter].
  destruct (named text_tags e && text_sat (mentions words) e) eqn:Ee;
    cbn [andb map List.filter]; rewrite IH; [|done].
  by destruct (negb (css_like (get_text_strip e))).
Qed.

Lemma clean_texts_first words root e :
  first_such (clean_element words) (descendants root) e ->
  exists rest,
    clean_texts (find_all root text_tags (text_sat (mentions words)))
    = get_text_strip e :: rest.
Proof.
  intros (before & after & Hl & He & Hb).
  rewrite clean_texts_elements, Hl, List.filter_app, (filter_none _ _ Hb).
  cbn [app List.filter]. rewrite He. cbn [map]. eauto.
Qed.

Lemma store_all_is_Some {V} (l : list (string * V)) (d : gmap string V) k :
  is_Some (store_all l d !! k) <-> In k (map fst l) \/ is_Some (d !! k).
Proof.
  split.
  - intros [v Hv]. apply store_all_lookup in Hv as [Hin|Hd].
    + left. apply in_map_iff. by exists (k, v).
    + right. by exists v.
  - intros [Hin|[v Hd]].
    + apply in_map_iff in Hin as ([k' v] & Heq & Hin). cbn [fst] in Heq. subst k'.
      destruct (store_all_assigned l d k v Hin) as (v' & Hv & _). by exists v'.
    + destruct (in_dec string_dec k (map fst l)) as [Hin|Hno].
      * apply in_map_iff in Hin as ([k' v'] & Heq & Hin). cbn [fst] in Heq. subst k'.
        destruct (store_all_assigned l d k v' Hin) as (v'' & Hv & _). by exists v''.
      * rewrite store_all_other by done. by exists v.
Qed.

Lemma hidden_fields_names form name :
  In name (map fst (hidden_fields form)) <-> hidden_named form name.
Proof.
  unfold hidden_fields, hidden_named, hidden_inputs. rewrite in_map_iff. split.
  - intros ([nm v] & Heq & Hin). cbn [fst] in Heq. subst nm.
    apply list_elem_of_In, list_elem_of_omap in Hin as (hidden & Hh & Hf).
    apply list_elem_of_In, find_all_In in Hh as (Hd & Hn & Ht).
    unfold hidden_field in Hf. destruct (Soup.get hidden "name") as [nm'|] eqn:En;
      [|discriminate].
    destruct (PyStr.truthy nm') eqn:Et; [|discriminate]. injection Hf as -> _.
    exists hidden. repeat split; try done.
    + unfold attr_is in Ht. destruct (Soup.get hidden "type") as [t|]; [|discriminate].
      by apply String.eqb_eq in Ht as ->.
    + intros ->. discriminate.
  - intros (hidden & Hd & Hn & Ht & Hnm & Hne).
    exists (name, Soup.get_default hidden "value" ""). split; [done|].
    apply list_elem_of_In, list_elem_of_omap. exists hidden. split.
    + apply list_elem_of_In, find_all_In. repeat split; try done.
      unfold attr_is. rewrite Ht. apply String.eqb_refl.
    + unfold hidden_field. rewrite Hnm. by destruct name.
Qed.

End WithUnicode.

End OrderFacts.

(** ** The search form and its submission *)
Module SubmitFacts.
Import SoupFacts OrderFacts TotalityFacts.

Section WithUnicode.
Context {U : PyStr.unicode}.

Lemma submit_history cnr captcha_code form page w h :
  snd (_submit_cnr_search cnr captcha_code form page w h)
  = match submit_url w form with
    | Return url => (h ++ [Http (submission url cnr captcha_code form)])%list
    | Raise _ => h
    end.
Proof.
  rewrite submit_unfold. destruct (submit_url w form) as [url|e]; [|reflexivity].
  destruct (send w h _) as [resp|e]; [|reflexivity].
  destruct (Z.eqb (status_code resp) 200); [|reflexivity].
  destruct (parse_search_results_returns (content resp) cnr w
              (h ++ [Http (submission url cnr captcha_code form)])%list)
    as (r & -> & _).
  reflexivity.
Qed.

Lemma submission_shape url cnr captcha_code form :
  submission url cnr captcha_code form
  = POST url (build_form_data cnr captcha_code form) 15
  \/ submission url cnr captcha_code form
     = GET url (Some (build_form_data cnr captcha_code form)) 15.
Proof. unfold submission. destruct (String.eqb _ "POST"); [by left | by right]. Qed.

Lemma captcha_image_alt page img :
  first_such alt_captcha (descendants page) img -> captcha_image page = Some img.
Proof.
  intros H. unfold captcha_image.
  apply find_first in H. unfold alt_captcha in H. by rewrite H.
Qed.

Lemma captcha_image_src page img :
  ~ present page ["img"] (attr_sat "alt" has_captcha) ->
  first_such src_captcha (descendants page) img -> captcha_image page = Some img.
Proof.
  intros Hno H. unfold captcha_image. apply find_None in Hno. rewrite Hno.
  by apply find_first in H.
Qed.

Lemma captcha_image_none page :
  ~ present page ["img"] (attr_sat "alt" has_captcha) ->
  ~ present page ["img"] (attr_sat "src" has_captcha) ->
  captcha_image page = None.
Proof.
  intros H1 H2. unfold captcha_image. apply find_None in H1, H2. by rewrite H1, H2.
Qed.

End WithUnicode.

End SubmitFacts.

(** X1.  When the search form is found and no captcha code is passed, the
    address of the captcha image is resolved from the first image, in
    document order, whose alt text mentions a captcha, and only when
    there is no such image, from the first image whose src does.  The
    answer is tagged captcha_required and carries the resolved address as
    its captcha_url, or None when there is neither image; when the
    address cannot be resolved the answer is the error record of that
    failure.  The fetch of the page is the only request. *)
Theorem captcha_image_by_alt_then_src {U : PyStr.unicode}
    (cnr date : string) (w : world) (h : list event) (resp : response)
    (contents : list node) :
  send w h first_fetch = Return resp ->
  status_code resp = 200%Z ->
  html_parser w (content resp) = Return contents ->
  has_cnr_input (soup contents) -> has_captcha_input (soup contents) ->
  has_form (soup contents) ->
  exists r,
    search_by_cnr cnr date None w h = (Return r, (h ++ [Http first_fetch])%list)
    /\ (forall img, first_such alt_captcha (descendants (soup contents)) img ->
          match urljoin w services_url (Soup.get img "src") with
          | Return url =>
              status r = Some (VStr "captcha_required")
              /\ r !! "captcha_url" = Some (VStr url)
          | Raise e => r = error_record e
          end)
    /\ (~ present (soup contents) ["img"] (attr_sat "alt" has_captcha) ->
        forall img, first_such src_captcha (descendants (soup contents)) img ->
          match urljoin w services_url (Soup.get img "src") with
          | Return url =>
              status r = Some (VStr "captcha_required")
              /\ r !! "captcha_url" = Some (VStr url)
          | Raise e => r = error_record e
          end)
    /\ (~ present (soup contents) ["img"] (attr_sat "alt" has_captcha) ->
        ~ present (soup contents) ["img"] (attr_sat "src" has_captcha) ->
        status r = Some (VStr "captcha_required")
        /\ r !! "captcha_url" = Some VNone).
Proof.
  intros Hsend Hcode Hparse H1 H2 H3.
  rewrite (LocatorFacts.search_by_cnr_fetched _ _ _ _ _ _ _ Hsend Hcode Hparse).
  apply SoupFacts.present_find in H1 as [i1 ->], H2 as [i2 ->], H3 as [form ->].
  cbn [Utils.given].
  assert (Hresolved : forall img,
            captcha_image (soup contents) = Some img ->
            forall r,
              match captcha_url w (soup contents) with
              | Return url => Return (captcha_required url cnr date)
              | Raise e => Return (error_record e)
              end = Return r ->
              match urljoin w services_url (Soup.get img "src") with
              | Return url =>
                  status r = Some (VStr "captcha_required")
                  /\ r !! "captcha_url" = Some (VStr url)
              | Raise e => r = error_record e
              end).
  { intros img Himg r. unfold captcha_url. rewrite Himg.
    destruct (urljoin w services_url (Soup.get img "src")) as [url|e];
      intros [= <-]; [split; reflexivity | reflexivity]. }
  exists (match captcha_url w (soup contents) with
          | Return url => captcha_required url cnr date
          | Raise e => error_record e
          end).
  split; [by destruct (captcha_url w (soup contents))|]. split; [|split].
  - intros img Himg.
    apply (Hresolved img (SubmitFacts.captcha_image_alt _ _ Himg)).
    by destruct (captcha_url w (soup contents)).
  - intros Hno img Himg.
    apply (Hresolved img (SubmitFacts.captcha_image_src _ _ Hno Himg)).
    by destruct (captcha_url w (soup contents)).
  - intros Hno1 Hno2. unfold captcha_url.
    rewrite (SubmitFacts.captcha_image_none _ Hno1 Hno2). split; reflexivity.
Qed.

Lemma captcha_image_by_alt_then_src_witness :
  let U := Samples.latin in
  exists r,
    search_by_cnr "MHAU010012342023" "04-11-2026" None
                  (Samples.portal Samples.page_two_images) []
      = (Return r, [Http first_fetch])
    /\ r !! "captcha_url"
       = Some (VStr "https://services.ecourts.gov.in/securimage.php").
Proof.
  intros U.
  destruct (captcha_image_by_alt_then_src "MHAU010012342023" "04-11-2026"
              (Samples.portal Samples.page_two_images) []
              {| status_code := 200; content := "<html>" |}
              Samples.page_two_images eq_refl eq_refl eq_refl)
    as (r & Hr & Halt & _).
  - apply SoupFacts.find_Some_present with
      (n := Samples.input [("type", "text"); ("name", "cino"); ("value", "OLD")]).
    reflexivity.
  - apply SoupFacts.find_Some_present with
      (n := Samples.input [("type", "text"); ("name", "fcaptcha_code"); ("value", "old")]).
    reflexivity.
  - apply SoupFacts.find_Some_present with (n := Samples.search_form). reflexivity.
  - exists r. split; [exact Hr|].
    refine (proj2 (Halt (Tag "img" {[ "alt" := "Enter the CAPTCHA";
                                      "src" := "/securimage.php" ]} []) _)).
    apply OrderFacts.find_first. reflexivity.
Defined.

(** X2.  A CNR search never retries and never sends more than two
    requests: the fetch of the services page, with a timeout of 10, and
    then at most the submission of the form, with a timeout of 15.
    Without a captcha code, or with an empty one, the fetch is the only
    request and the answer is the same. *)
Theorem search_request_budget {U : PyStr.unicode}
    (cnr date : string) (captcha_code : option string) (w : world) (h : list event) :
  (exists sent,
     snd (search_by_cnr cnr date captcha_code w h)
     = (h ++ Http (GET services_url None 10) :: map Http sent)%list
     /\ length sent <= 1
     /\ (Utils.given captcha_code = false -> sent = [])
     /\ (forall r, In r sent ->
           exists form url,
             r = POST url (build_form_data cnr (default "" captcha_code) form) 15
             \/ r = GET url (Some (build_form_data cnr (default "" captcha_code) form))
                        15))
  /\ search_by_cnr cnr date (Some "") w h = search_by_cnr cnr date None w h.
Proof.
  split.
  2: { unfold search_by_cnr, try_except, bind. destruct (session_get _ _ w h) as [[resp|e] h'];
         [|reflexivity].
       destruct (Z.eqb (status_code resp) 200); [|reflexivity].
       destruct (BeautifulSoup (content resp) w h') as [[page|e] h'']; [|reflexivity].
       destruct (find _ _ _); [|reflexivity]. destruct (find _ _ _); [|reflexivity].
       destruct (find _ _ _); reflexivity. }
  destruct (send w h first_fetch) as [resp|e] eqn:Hsend.
  2: { rewrite (TotalityFacts.search_by_cnr_raise _ _ _ _ _ _ Hsend).
       exists []. repeat split; try done; cbn; lia. }
  destruct (Z.eq_dec (status_code resp) 200%Z) as [Hc|Hc].
  2: { rewrite (TotalityFacts.search_by_cnr_bad_status _ _ _ _ _ _ Hsend Hc).
       exists []. repeat split; try done; cbn; lia. }
  destruct (html_parser w (content resp)) as [contents|e] eqn:Hp.
  2: { rewrite (TotalityFacts.search_by_cnr_parse_raise _ _ _ _ _ _ _ Hsend Hc Hp).
       exists []. repeat split; try done; cbn; lia. }
  rewrite (LocatorFacts.search_by_cnr_fetched _ _ _ _ _ _ _ Hsend Hc Hp).
  destruct (find _ _ _); [|exists []; repeat split; try done; cbn; lia].
  destruct (find _ _ _); [|exists []; repeat split; try done; cbn; lia].
  destruct (find (soup contents) ["form"] any_tag) as [form|];
    [|exists []; repeat split; try done; cbn; lia].
  destruct (captcha_url w (soup contents)) as [image|e];
    [|exists []; repeat split; try done; cbn; lia].
  destruct (Utils.given captcha_code) eqn:Hgiven;
    [|exists []; repeat split; try done; cbn; lia].
  rewrite SubmitFacts.submit_history.
  destruct (submit_url w form) as [url|e];
    [|exists []; repeat split; try done; cbn; lia].
  exists [submission url cnr (default "" captcha_code) form].
  split; [by rewrite <- app_assoc|]. split; [cbn; lia|]. split; [done|].
  intros r [<-|[]]. exists form, url. apply SubmitFacts.submission_shape.
Qed.

(** X3.  The search form is submitted once, to the form's action resolved
    against the services URL, with a timeout of 15: by POST when the form
    names no method or a method whose upper-case form is POST (POST, post,
    Post), by GET with the fields as parameters for any other method
    (get).  An answer whose status is not 200 becomes an error record
    that quotes the status and is not parsed; an answer with status 200
    is parsed and classified.  When the action cannot be resolved,
    nothing is submitted and the error record of the failure is
    returned. *)
Theorem submission_method_and_answer {U : PyStr.unicode}
    (cnr captcha_code : string) (form page : node) (w : world) (h : list event) :
  match urljoin w services_url (Some (Soup.get_default form "action" "")) with
  | Return url =>
      exists r,
        snd (_submit_cnr_search cnr captcha_code form page w h)
          = (h ++ [Http r])%list
        /\ (Soup.get form "method" = None ->
            r = POST url (build_form_data cnr captcha_code form) 15)
        /\ (forall m, Soup.get form "method" = Some m ->
              r = if String.eqb (PyStr.upper m) "POST"
                  then POST url (build_form_data cnr captcha_code form) 15
                  else GET url (Some (build_form_data cnr captcha_code form)) 15)
        /\ (forall m, Soup.get form "method" = Some m ->
              In m ["POST"; "post"; "Post"] ->
              r = POST url (build_form_data cnr captcha_code form) 15)
        /\ (forall m, Soup.get form "method" = Some m ->
              In m ["GET"; "get"; "put"; ""] ->
              r = GET url (Some (build_form_data cnr captcha_code form)) 15)
        /\ (forall resp, send w h r = Return resp -> status_code resp <> 200%Z ->
              fst (_submit_cnr_search cnr captcha_code form page w h)
              = Return (error_record ("Search submission failed: HTTP "
                                      ++ str_of_int (status_code resp))))
        /\ (forall resp contents,
              send w h r = Return resp -> status_code resp = 200%Z ->
              html_parser w (content resp) = Return contents ->
              fst (_submit_cnr_search cnr captcha_code form page w h)
              = Return (classify (soup contents) cnr))
  | Raise e =>
      _submit_cnr_search cnr captcha_code form page w h
      = (Return (error_record e), h)
  end.
Proof.
  pose proof (SubmitFacts.submit_history cnr captcha_code form page w h) as Hh.
  pose proof (TotalityFacts.submit_unfold cnr captcha_code form page w h) as Hu.
  unfold submit_url in Hh, Hu.
  destruct (urljoin w services_url _) as [url|e]; [|exact Hu].
  exists (submission url cnr captcha_code form).
  split; [exact Hh|]. rewrite Hu.
  assert (Hm : forall m, Soup.get form "method" = Some m ->
            submission url cnr captcha_code form
            = if String.eqb (PyStr.upper m) "POST"
              then POST url (build_form_data cnr captcha_code form) 15
              else GET url (Some (build_form_data cnr captcha_code form)) 15).
  { intros m Hm. unfold submission, Soup.get_default. rewrite Hm. unfold default, id.
    cbn [from_option]. by destruct (String.eqb (PyStr.upper m) "POST"). }
  repeat split.
  - intros Hnone. unfold submission, Soup.get_default. by rewrite Hnone.
  - exact Hm.
  - intros m Hget Hin. rewrite (Hm m Hget).
    destruct Hin as [<-|[<-|[<-|[]]]]; reflexivity.
  - intros m Hget Hin. rewrite (Hm m Hget).
    destruct Hin as [<-|[<-|[<-|[<-|[]]]]]; reflexivity.
  - intros resp -> Hne. apply Z.eqb_neq in Hne. by rewrite Hne.
  - intros resp contents -> -> Hp. cbn [Z.eqb Pos.eqb].
    unfold _parse_search_results, try_except, bind, BeautifulSoup. by rewrite Hp.
Qed.

(** X4.  The submitted field map has exactly these names: 'cino',
    'fcaptcha_code', and the non-empty names of the form's hidden inputs.
    The other inputs of the form are not forwarded. *)
Theorem submitted_field_names (cnr captcha_code : string) (form : node) (name : string) :
  is_Some (build_form_data cnr captcha_code form !! name)
  <-> name = "cino" \/ name = "fcaptcha_code" \/ hidden_named form name.
Proof.
  rewrite ScraperFacts.build_form_data_store, OrderFacts.store_all_is_Some,
    OrderFacts.hidden_fields_names.
  split.
  - intros [H|H]; [tauto|].
    destruct (string_dec name "fcaptcha_code") as [->|Hn1]; [tauto|].
    destruct (string_dec name "cino") as [->|Hn2]; [tauto|].
    rewrite lookup_insert_ne, lookup_insert_ne, lookup_empty in H by done.
    by destruct H.
  - intros [->|[->|H]]; [right|right|by left].
    + by eexists.
    + by eexists.
Qed.

(** ** More on the classifier *)
Module ClassifierMore.
Import SoupFacts DictFacts ScraperFacts ClassifierFacts OrderFacts.

Section WithUnicode.
Context {U : PyStr.unicode}.

(** a tree without tags of the names is left alone by [decompose_all] *)
Lemma decompose_clean names n :
  Forall (fun d => named names d = false) (descendants n) ->
  decompose_all names n = n.
Proof.
  induction n as [s|s|nm a cs IH] using node_ind'; try done.
  cbn [descendants decompose_all]. intros Hd. f_equal.
  induction IH as [|c cs' Hc _ IHcs]; [done|].
  cbn [flat_map] in *. apply Forall_cons in Hd as [Hc' Hd].
  apply Forall_app in Hd as [Hd1 Hd2].
  rewrite Hc'. cbn [app]. by rewrite Hc, IHcs.
Qed.

Lemma visible_idempotent doc : visible (visible doc) = visible doc.
Proof. apply decompose_clean, visible_clean. Qed.

(** a slice is a prefix, and what follows it starts a character *)
Lemma take_prefix n s :
  exists rest, s = PyStr.take n s ++ rest /\ PyStr.starts_inside rest = false.
Proof.
  revert n. induction s as [|c s IH]; intros n; [by exists ""|].
  cbn [PyStr.take]. destruct (PyStr.is_continuation c) eqn:Ec.
  - destruct (IH n) as (rest & Hr & Hs). exists rest. split; [|done].
    change (String c s = String c (PyStr.take n s ++ rest)). by f_equal.
  - destruct n as [|n].
    + exists (String c s). split; [done|]. exact Ec.
    + destruct (IH n) as (rest & Hr & Hs). exists rest. split; [|done].
      change (String c s = String c (PyStr.take n s ++ rest)). by f_equal.
Qed.

Lemma take_all n s : PyStr.len s <= n -> PyStr.take n s = s.
Proof.
  revert n. induction s as [|c s IH]; intros n; [done|].
  cbn [PyStr.take PyStr.len]. destruct (PyStr.is_continuation c).
  - intros H. by rewrite IH.
  - destruct n as [|n]; [lia|]. intros H. rewrite IH; [done | lia].
Qed.

Lemma take_length n s : PyStr.len (PyStr.take n s) = Nat.min n (PyStr.len s).
Proof.
  revert n. induction s as [|c s IH]; intros n; [by destruct n|].
  cbn [PyStr.take PyStr.len]. destruct (PyStr.is_continuation c) eqn:Ec.
  - cbn [PyStr.len]. rewrite Ec, IH. reflexivity.
  - destruct n as [|n]; [reflexivity|]. cbn [PyStr.len].
    rewrite Ec, IH. reflexivity.
Qed.

(** the test of the classifier on an element, in the words of the
    specification *)
Lemma clean_element_candidate words e :
  clean_element words e = true <-> clean_candidate words e.
Proof.
  unfold clean_element, clean_candidate, text_sat.
  rewrite !andb_true_iff, negb_true_iff, named_text_element, mentions_keyword,
    css_like_debris.
  tauto.
Qed.

Lemma first_clean_element words l e :
  first_clean words l e -> first_such (clean_element words) l e.
Proof.
  intros (before & after & Hl & He & Hb). exists before, after.
  split; [done|]. split; [by apply clean_element_candidate|].
  eapply Forall_impl; [exact Hb|]. intros m Hm. cbn beta in Hm.
  apply not_true_is_false. intros H. by apply Hm, clean_element_candidate.
Qed.

(** the record of [classify] with another CNR *)
Lemma classify_cnr doc cnr cnr' :
  classify doc cnr = <["cnr" := VStr cnr]> (classify doc cnr').
Proof.
  unfold classify.
  destruct (clean_texts _) as [|first rest]; [|reflexivity].
  cbn zeta. destruct (negb _ || negb _); [reflexivity|].
  destruct (PyStr.contains _ _ || PyStr.contains _ _); reflexivity.
Qed.

End WithUnicode.

End ClassifierMore.

(** X5.  Removing the script and style elements is idempotent, and the
    classifier gives the same record for a page and for the page from
    which they were already removed. *)
Theorem classify_cleaned_page {U : PyStr.unicode} (doc : node) (cnr : string) :
  visible (visible doc) = visible doc
  /\ classify (visible doc) cnr = classify doc cnr.
Proof.
  split; [apply ClassifierMore.visible_idempotent|].
  apply ClassifierFacts.classify_visible, ClassifierMore.visible_idempotent.
Qed.

(** X6.  Every entry of the case_details of a result comes from a table
    row of the visible page: its key is the stripped and lowered text of
    the first cell of a row with at least two cells and contains one of
    the keywords "case", "court", "status", "date", "judge", and its
    value is the stripped text of that row's second cell. *)
Theorem case_details_come_from_rows {U : PyStr.unicode}
    (doc : node) (cnr : string) (details : gmap string value) (key : string) (v : value) :
  classify doc cnr !! "case_details" = Some (VDict details) ->
  details !! key = Some v ->
  exists text,
    v = VStr text /\ case_row (visible doc) key text
    /\ (occurs "case" key \/ occurs "court" key \/ occurs "status" key
        \/ occurs "date" key \/ occurs "judge" key).
Proof.
  intros Hd Hk.
  destruct (ClassifierFacts.classify_outcome doc cnr)
    as [first rest He|He Hc|He Hi Hs Ht|He Hi Hs Ht]; try discriminate Hd.
  assert (Heq : details = VStr <$> scan_tables (visible doc)).
  { change (Some (VDict (VStr <$> scan_tables (visible doc))) = Some (VDict details))
      in Hd. by injection Hd. }
  subst details. rewrite lookup_fmap in Hk.
  destruct (scan_tables (visible doc) !! key) as [text|] eqn:Ek; [|discriminate].
  injection Hk as <-. exists text. split; [done|].
  rewrite ScraperFacts.scan_tables_store in Ek.
  apply DictFacts.store_all_lookup in Ek as [Hin|Hin]; [|by rewrite lookup_empty in Hin].
  apply ScraperFacts.row_entries_In in Hin.
  split; [done|].
  destruct Hin as (t & r & c0 & c1 & rest & _ & _ & _ & _ & _ & _ & _ & w & Hw & Ho).
  destruct Hw as [<-|[<-|[<-|[<-|[<-|[]]]]]]; tauto.
Qed.

Lemma case_details_come_from_rows_witness :
  let U := Samples.latin in
  exists text,
    VStr "Pending" = VStr text
    /\ case_row (visible (soup Samples.status_page)) "case status" text
    /\ (occurs "case" "case status" \/ occurs "court" "case status"
        \/ occurs "status" "case status" \/ occurs "date" "case status"
        \/ occurs "judge" "case status").
Proof.
  intros U.
  apply (case_details_come_from_rows (soup Samples.status_page) "MHAU010012342023"
           {[ "case status" := VStr "Pending" ]} "case status" (VStr "Pending"));
    reflexivity.
Defined.

(** X7.  When the visible page holds a div, span, p or td whose own
    string mentions an error keyword in any case and whose stripped text
    holds no brace and none of the CSS patterns, the result is
    SearchFailed and its message quotes the stripped text of the first
    such element in document order, whatever precedes or follows it. *)
Theorem search_failed_quotes_first_clean_element {U : PyStr.unicode}
    (doc : node) (cnr : string) (e : node) :
  first_clean error_keywords (descendants (visible doc)) e ->
  status (classify doc cnr) = Some (VStr "search_failed")
  /\ classify doc cnr !! "message"
     = Some (VStr ("Search failed: " ++ get_text_strip e)).
Proof.
  intros He. apply ClassifierMore.first_clean_element in He.
  apply OrderFacts.clean_texts_first in He as [rest He].
  unfold classify. fold hidden_names. fold (visible doc).
  change error_keywords with error_words in He. rewrite He.
  split; reflexivity.
Qed.

Lemma search_failed_quotes_first_clean_element_witness :
  let U := Samples.latin in
  status (classify (soup Samples.two_errors_page) "MHAU010012342023")
    = Some (VStr "search_failed")
  /\ classify (soup Samples.two_errors_page) "MHAU010012342023" !! "message"
     = Some (VStr ("Search failed: "
                   ++ get_text_strip (Tag "p" ∅ [NavigableString " Invalid captcha "]))).
Proof.
  intros U.
  apply (search_failed_quotes_first_clean_element (soup Samples.two_errors_page)
           "MHAU010012342023" (Tag "p" ∅ [NavigableString " Invalid captcha "])).
  exists [Tag "div" ∅ [NavigableString ".error { margin: 0 }"];
          NavigableString ".error { margin: 0 }"],
         [NavigableString " Invalid captcha ";
          Tag "span" ∅ [NavigableString "Record not found"];
          NavigableString "Record not found"].
  split; [reflexivity|]. split.
  - apply ClassifierMore.clean_element_candidate. reflexivity.
  - repeat constructor; intros H; apply ClassifierMore.clean_element_candidate in H;
      discriminate H.
Defined.

(** X8.  A NoCaseData result carries a sample of the page: the first 500
    characters of the visible text, in its original letter case, and the
    whole text when it has no more than 500 characters. *)
Theorem no_case_data_sample {U : PyStr.unicode} (doc : node) (cnr : string) :
  status (classify doc cnr) = Some (VStr "no_case_data") ->
  exists sample rest,
    classify doc cnr !! "page_content_sample" = Some (VStr sample)
    /\ get_text (visible doc) = sample ++ rest
    /\ PyStr.starts_inside rest = false
    /\ PyStr.len sample = Nat.min 500 (PyStr.len (get_text (visible doc)))
    /\ (PyStr.len (get_text (visible doc)) <= 500 ->
        sample = get_text (visible doc)).
Proof.
  intros H.
  destruct (ClassifierFacts.classify_outcome doc cnr)
    as [first rest He|He Hc|He Hi Hs Ht|He Hi Hs Ht]; try discriminate H.
  destruct (ClassifierMore.take_prefix 500 (get_text (visible doc)))
    as (rest & Hr & Hin).
  exists (PyStr.take 500 (get_text (visible doc))), rest.
  split; [reflexivity|]. split; [exact Hr|]. split; [exact Hin|].
  split; [apply ClassifierMore.take_length|].
  intros Hlen. apply ClassifierMore.take_all. exact Hlen.
Qed.

Lemma no_case_data_sample_witness :
  let U := Samples.latin in
  exists sample rest,
    classify (soup Samples.court_page) "MHAU010012342023" !! "page_content_sample"
      = Some (VStr sample)
    /\ get_text (visible (soup Samples.court_page)) = sample ++ rest
    /\ PyStr.starts_inside rest = false
    /\ PyStr.len sample
       = Nat.min 500 (PyStr.len (get_text (visible (soup Samples.court_page))))
    /\ (PyStr.len (get_text (visible (soup Samples.court_page))) <= 500 ->
        sample = get_text (visible (soup Samples.court_page))).
Proof.
  intros U.
  apply (no_case_data_sample (soup Samples.court_page) "MHAU010012342023").
  reflexivity.
Defined.

(** the slice counts characters, not bytes: the first two characters of
    a text of three two-byte characters *)
Example slice_counts_characters :
  PyStr.take 2 (PyStr.of_points [233; 233; 233]%N) = PyStr.of_points [233; 233]%N
  /\ PyStr.len (PyStr.of_points [233; 233; 233]%N) = 3
  /\ String.length (PyStr.of_points [233; 233; 233]%N) = 6.
Proof. repeat split; reflexivity. Qed.

(** X9.  The classifier never compares the page with the CNR that was
    searched: two CNRs give the same tag and the same fields, the echoed
    'cnr' field apart. *)
Theorem classification_ignores_cnr {U : PyStr.unicode}
    (doc : node) (cnr cnr' : string) :
  status (classify doc cnr) = status (classify doc cnr')
  /\ classify doc cnr !! "cnr" = Some (VStr cnr)
  /\ forall key, key <> "cnr" -> classify doc cnr !! key = classify doc cnr' !! key.
Proof.
  rewrite (ClassifierMore.classify_cnr doc cnr cnr'). unfold status.
  split; [by rewrite lookup_insert_ne|]. split; [apply lookup_insert_eq|].
  intros key Hk. by rewrite lookup_insert_ne.
Qed.

(** ** The search by case details and the listing *)
Module ListingFacts.
Import SoupFacts ClassifierFacts TotalityFacts.

Section WithUnicode.
Context {U : PyStr.unicode}.

Lemma case_search_cases date w h :
  (exists e, forall case_type case_number case_year,
     search_by_case_details case_type case_number case_year date w h
     = (Return (error_record e), (h ++ [Http first_fetch])%list))
  \/ (exists resp contents,
        send w h first_fetch = Return resp /\ status_code resp = 200%Z
        /\ html_parser w (content resp) = Return contents
        /\ forall case_type case_number case_year,
             search_by_case_details case_type case_number case_year date w h
             = (Return (found_record case_type case_number case_year date
                                     (page_title_of (soup contents))),
                (h ++ [Http first_fetch])%list)).
Proof.
  unfold search_by_case_details, try_except, bind, session_get, perform, BeautifulSoup.
  fold first_fetch. destruct (send w h first_fetch) as [resp|e].
  2: { left. by exists e. }
  destruct (Z.eqb (status_code resp) 200) eqn:Ec.
  2: { left. by eexists. }
  apply Z.eqb_eq in Ec.
  destruct (html_parser w (content resp)) as [contents|e] eqn:Ep.
  2: { left. by exists e. }
  right. by exists resp, contents.
Qed.

Lemma found_record_details ct cn cy ct' cn' cy' date title :
  found_record ct cn cy date title
  = <["case_type" := VStr ct]> (<["case_number" := VStr cn]>
      (<["case_year" := VStr cy]> (found_record ct' cn' cy' date title))).
Proof. reflexivity. Qed.

Lemma listing_of_found ct cn cy date title target w h :
  get_case_listing (VDict (found_record ct cn cy date title)) target w h
  = (Return (mk [("status", VStr "connected");
                 ("message", VStr "Successfully connected to eCourts website");
                 ("date", VStr target);
                 ("website_status", VStr "âœ… Connected to eCourts");
                 ("page_title", VStr title);
                 ("real_data", VBool true);
                 ("new_scraper_response", VBool true);
                 ("case_details", VDict (found_record ct cn cy date title))]), h).
Proof. reflexivity. Qed.

(** a dict that does not report a successful connection, or reports one
    with neither flag, is normalised to connection_failed *)
Lemma listing_fallback (d : dict) target w h :
  eq_str (Py.get d "connection") "success" = false
  \/ (truthy (Py.get d "captcha_required") = false
      /\ truthy (Py.get d "website_accessible") = false) ->
  get_case_listing (VDict d) target w h = (Return (connection_failed target), h).
Proof.
  unfold get_case_listing, try_except, bind, call_get, ret.
  intros [H|[H1 H2]].
  - by rewrite H.
  - rewrite H1, H2. by destruct (eq_str _ _).
Qed.

Lemma classify_no_connection doc cnr : Py.get (classify doc cnr) "connection" = VNone.
Proof. by destruct (classify_outcome doc cnr). Qed.

End WithUnicode.

End ListingFacts.

(** X10.  A search by case details sends the one request a search by CNR
    starts with and nothing that depends on the case type, number or
    year: two searches in the same world send the same request and give
    the same record, the three echoed fields apart. *)
Theorem case_search_ignores_the_details {U : PyStr.unicode}
    (case_type case_number case_year case_type' case_number' case_year' date : string)
    (w : world) (h : list event) :
  exists r r',
    search_by_case_details case_type case_number case_year date w h
      = (Return r, (h ++ [Http first_fetch])%list)
    /\ search_by_case_details case_type' case_number' case_year' date w h
      = (Return r', (h ++ [Http first_fetch])%list)
    /\ status r = status r'
    /\ forall key, key <> "case_type" -> key <> "case_number" -> key <> "case_year" ->
         r !! key = r' !! key.
Proof.
  destruct (ListingFacts.case_search_cases date w h)
    as [(e & He)|(resp & contents & Hs & Hc & Hp & Hr)].
  - rewrite !He. eexists _, _. split; [reflexivity|]. split; [reflexivity|]. done.
  - rewrite !Hr. eexists _, _. split; [reflexivity|]. split; [reflexivity|].
    split; [reflexivity|]. intros key H1 H2 H3.
    rewrite (ListingFacts.found_record_details case_type case_number case_year
               case_type' case_number' case_year').
    by rewrite !lookup_insert_ne.
Qed.


(** the title of a page is stripped of the white space of any script:
    here a no-break space and an ideographic space *)
Example page_title_stripped :
  let U := Samples.latin in
  page_title_of (soup [Tag "title" ∅
                         [NavigableString (PyStr.of_points [160; 32]%N ++ "eCourts"
                                           ++ PyStr.of_points [12288; 10]%N)]])
  = "eCourts".
Proof. reflexivity. Qed.

(** X12.  The records of the result classifier and the error records do
    not report a connection, so the listing normalizer maps each of them
    to connection_failed, whatever their tag. *)
Theorem listing_of_a_classified_page {U : PyStr.unicode}
    (doc : node) (cnr e target_date : string) (w : world) (h : list event) :
  get_case_listing (VDict (classify doc cnr)) target_date w h
    = (Return (connection_failed target_date), h)
  /\ get_case_listing (VDict (error_record e)) target_date w h
    = (Return (connection_failed target_date), h)
  /\ status (connection_failed target_date) = Some (VStr "connection_failed").
Proof.
  split; [|split; reflexivity].
  apply ListingFacts.listing_fallback. left.
  by rewrite ListingFacts.classify_no_connection.
Qed.

(** ** The API handlers *)
Module ApiFacts.
Import SoupFacts TotalityFacts.

Section WithUnicode.
Context {U : PyStr.unicode}.

Lemma validated_truthy c : Utils.validate_cnr (Some c) = true -> PyStr.truthy c = true.
Proof. by destruct c. Qed.

(** a CNR search without a captcha code ends with an error record or with
    the request for the captcha *)
Lemma search_without_code cnr date w h :
  exists r,
    search_by_cnr cnr date None w h = (Return r, (h ++ [Http first_fetch])%list)
    /\ ((exists e, r = error_record e)
        \/ (exists url, r = captcha_required url cnr date)).
Proof.
  destruct (send w h first_fetch) as [resp|e] eqn:Hsend.
  2: { rewrite (search_by_cnr_raise _ _ _ _ _ _ Hsend). eexists. split; [done|]. left. eauto. }
  destruct (Z.eq_dec (status_code resp) 200%Z) as [Hc|Hc].
  2: { rewrite (search_by_cnr_bad_status _ _ _ _ _ _ Hsend Hc).
       eexists. split; [done|]. left. eauto. }
  destruct (html_parser w (content resp)) as [contents|e] eqn:Hp.
  2: { rewrite (search_by_cnr_parse_raise _ _ _ _ _ _ _ Hsend Hc Hp).
       eexists. split; [done|]. left. eauto. }
  rewrite (LocatorFacts.search_by_cnr_fetched _ _ _ _ _ _ _ Hsend Hc Hp).
  destruct (find _ _ _); [|eexists; split; [done|]; left; by eexists].
  destruct (find _ _ _); [|eexists; split; [done|]; left; by eexists].
  destruct (find _ _ _); [|eexists; split; [done|]; left; by eexists].
  cbn [Utils.given].
  destruct (captcha_url w (soup contents)) as [url|e];
    eexists; (split; [done|]); [right | left]; by eexists.
Qed.

Lemma api_real_search data cnr w h :
  Api.q_cnr data = Some cnr ->
  Utils.validate_cnr (Some cnr) = true ->
  String.eqb (PyStr.upper cnr) "DEMO123" = false ->
  forall result h1,
    search_by_cnr cnr (Api.target_date_of w (default "today" (Api.q_date data)))
                  (Api.q_captcha_code data) w h = (Return result, h1) ->
    Api.status_is result "error" = true
    \/ Api.status_is result "captcha_required" = true ->
    Api.search_by_cnr data w h
    = (Return (if Api.status_is result "error" then (result, 500%Z)
               else (mk [("success", VBool true);
                         ("captcha_required", VBool true);
                         ("data", VDict result);
                         ("search_params",
                          VDict (mk [("cnr", VStr cnr);
                                     ("date", VStr (Api.target_date_of w
                                        (default "today" (Api.q_date data))))]))],
                     200%Z)), h1).
Proof.
  intros Hq Hv Hd result h1 Hs Htag.
  unfold Api.search_by_cnr. rewrite Hq, (validated_truthy _ Hv), Hv, Hd. cbn [negb].
  unfold try_except, bind at 1. unfold ask at 1. cbn iota beta.
  unfold bind at 1. rewrite Hs.
  destruct (Api.status_is result "error"); [reflexivity|].
  destruct Htag as [Ht|Ht]; [discriminate|]. by rewrite Ht.
Qed.

End WithUnicode.

End ApiFacts.

(** X13.  For a request body that is a JSON object whose 'cnr' member is
    a string or absent, the CNR endpoint rejects a CNR that is missing,
    empty or not valid with the status 400, before anything else happens:
    no request is sent and no file is written. *)
Theorem api_rejects_invalid_cnr {U : PyStr.unicode}
    (data : Api.cnr_query) (w : world) (h : list event) :
  Utils.validate_cnr (Api.q_cnr data) = false ->
  exists message,
    Api.search_by_cnr data w h = (Return (Api.error_body message, 400%Z), h)
    /\ (Utils.given (Api.q_cnr data) = false -> message = "CNR is required")
    /\ (Utils.given (Api.q_cnr data) = true -> message = "Invalid CNR format").
Proof.
  intros Hv. unfold Api.search_by_cnr.
  destruct (Api.q_cnr data) as [cnr|]; [|by eexists].
  cbn [Utils.given]. destruct (PyStr.truthy cnr) eqn:Et; cbn [negb].
  - rewrite Hv. cbn [negb]. by eexists.
  - by eexists.
Qed.

Lemma api_rejects_invalid_cnr_witness :
  let U := Samples.latin in
  Api.search_by_cnr {| Api.q_cnr := Some "MH123"; Api.q_date := None;
                       Api.q_captcha_code := None |} Samples.offline []
  = (Return (Api.error_body "Invalid CNR format", 400%Z), []).
Proof.
  intros U.
  destruct (api_rejects_invalid_cnr
              {| Api.q_cnr := Some "MH123"; Api.q_date := None;
                 Api.q_captcha_code := None |} Samples.offline [] eq_refl)
    as (message & Hr & _ & Hm).
  rewrite Hr, (Hm eq_refl). reflexivity.
Defined.

(** X14.  For a valid CNR other than the demo one and without a captcha
    code, the CNR endpoint sends the one fetch and writes no file; it
    answers 500 with an error record, or 200 with the captcha_required
    record of the scraper.  It never returns case data. *)
Theorem api_search_without_captcha {U : PyStr.unicode}
    (data : Api.cnr_query) (cnr : string) (w : world) (h : list event) :
  Api.q_cnr data = Some cnr ->
  Utils.validate_cnr (Some cnr) = true ->
  String.eqb (PyStr.upper cnr) "DEMO123" = false ->
  Api.q_captcha_code data = None ->
  exists body code,
    Api.search_by_cnr data w h = (Return (body, code), (h ++ [Http first_fetch])%list)
    /\ ((code = 500%Z /\ status body = Some (VStr "error"))
        \/ (code = 200%Z
            /\ body !! "captcha_required" = Some (VBool true)
            /\ exists r, body !! "data" = Some (VDict r)
                         /\ status r = Some (VStr "captcha_required"))).
Proof.
  intros Hq Hv Hd Hc.
  destruct (ApiFacts.search_without_code cnr
              (Api.target_date_of w (default "today" (Api.q_date data))) w h)
    as (r & Hs & Hr).
  rewrite <- Hc in Hs.
  destruct Hr as [[e ->]|[url ->]].
  - rewrite (ApiFacts.api_real_search _ _ _ _ Hq Hv Hd _ _ Hs) by (by left).
    eexists _, _. split; [reflexivity|]. left. split; reflexivity.
  - rewrite (ApiFacts.api_real_search _ _ _ _ Hq Hv Hd _ _ Hs) by (by right).
    eexists _, _. split; [reflexivity|]. right. split; [reflexivity|].
    split; [reflexivity|]. eexists. split; reflexivity.
Qed.

Lemma api_search_without_captcha_witness :
  let U := Samples.latin in
  exists body code,
    Api.search_by_cnr {| Api.q_cnr := Some "MHAU010012342023"; Api.q_date := None;
                         Api.q_captcha_code := None |}
                      (Samples.portal Samples.search_page) []
    = (Return (body, code), ([] ++ [Http first_fetch])%list)
    /\ ((code = 500%Z /\ status body = Some (VStr "error"))
        \/ (code = 200%Z
            /\ body !! "captcha_required" = Some (VBool true)
            /\ exists r, body !! "data" = Some (VDict r)
                         /\ status r = Some (VStr "captcha_required"))).
Proof.
  intros U.
  apply (api_search_without_captcha
           {| Api.q_cnr := Some "MHAU010012342023"; Api.q_date := None;
              Api.q_captcha_code := None |} "MHAU010012342023"
           (Samples.portal Samples.search_page) []); reflexivity.
Defined.

Module ApiFacts2.
Import SoupFacts TotalityFacts ClassifierFacts.

Section WithUnicode.
Context {U : PyStr.unicode}.

(** the search of the sample session, with a captcha code *)
Lemma session_search :
  search_by_cnr "MHAU010012342023" "04-11-2026" (Some "x7k2p") Samples.session []
  = (Return (classify (soup Samples.status_page) "MHAU010012342023"),
     [Http first_fetch;
      Http (submission "https://services.ecourts.gov.in/search"
                       "MHAU010012342023" "x7k2p" Samples.search_form)]).
Proof.
  rewrite (LocatorFacts.search_by_cnr_fetched _ _ _ Samples.session []
             {| status_code := 200; content := "search" |} Samples.search_page
             eq_refl eq_refl eq_refl).
  change (find (soup Samples.search_page) ["input"] (attr_is "name" "cino"))
    with (Some (Samples.input [("type", "text"); ("name", "cino"); ("value", "OLD")])).
  change (find (soup Samples.search_page) ["input"] (attr_is "name" "fcaptcha_code"))
    with (Some (Samples.input [("type", "text"); ("name", "fcaptcha_code");
                               ("value", "old")])).
  change (find (soup Samples.search_page) ["form"] any_tag)
    with (Some Samples.search_form).
  change (captcha_url Samples.session (soup Samples.search_page))
    with (Return (A:=value) (VStr "https://services.ecourts.gov.in/captcha.png")).
  cbn [Utils.given PyStr.truthy default]. unfold id.
  rewrite submit_unfold.
  change (submit_url Samples.session Samples.search_form)
    with (Return (A:=string) "https://services.ecourts.gov.in/search").
  reflexivity.
Qed.

End WithUnicode.

End ApiFacts2.

(** X15.  When a CNR search submitted with a captcha code ends with a
    classified result page, the CNR endpoint writes one file,
    output/case_result_<cnr>_<date>.json, and answers 200 with success set
    once it is written, 500 with the I/O error otherwise.  What it saves
    and returns is the record of the classifier, except for a page tagged
    unexpected_response, in place of which it saves and returns a listing
    tagged connection_failed. *)
Theorem api_answer_for_a_classified_page {U : PyStr.unicode}
    (data : Api.cnr_query) (cnr : string) (doc : node) (w : world)
    (h h1 : list event) :
  Api.q_cnr data = Some cnr ->
  Utils.validate_cnr (Some cnr) = true ->
  String.eqb (PyStr.upper cnr) "DEMO123" = false ->
  search_by_cnr cnr (Api.target_date_of w (default "today" (Api.q_date data)))
                (Api.q_captcha_code data) w h = (Return (classify doc cnr), h1) ->
  let target := Api.target_date_of w (default "today" (Api.q_date data)) in
  let filename := "case_result_" ++ cnr ++ "_" ++ target in
  let path := "output/" ++ filename ++ ".json" in
  let saved := if Api.status_is (classify doc cnr) "unexpected_response"
               then connection_failed target else classify doc cnr in
  exists body,
    Api.search_by_cnr data w h
    = (match write_file w h1 path with
       | Return _ => Return (body, 200%Z)
       | Raise e => Return (Api.error_body e, 500%Z)
       end, (h1 ++ [Write path saved "json"])%list)
    /\ body !! "success" = Some (VBool true)
    /\ body !! "data" = Some (VDict saved)
    /\ body !! "saved_to_file" = Some (VStr (filename ++ ".json")).
Proof.
  intros Hq Hv Hd Hs. cbn zeta.
  unfold Api.search_by_cnr. rewrite Hq, (ApiFacts.validated_truthy _ Hv), Hv, Hd.
  cbn [negb].
  unfold try_except, bind at 1. unfold ask at 1. cbn iota beta.
  unfold bind at 1. rewrite Hs.
  destruct (ClassifierFacts.classify_outcome doc cnr) as [first rest He|He Hc|He Hi Hst Ht|He Hi Hst Ht].
  - change (Api.status_is _ "error") with false.
    change (Api.status_is _ "captcha_required") with false.
    change (Api.status_is _ "case_found") with false.
    change (Api.status_is _ "no_case_data") with false.
    change (Api.status_is _ "search_failed") with true.
    change (Api.status_is _ "unexpected_response") with false.
    cbn [orb]. rewrite DemoFacts.bind_save_results. cbn zeta.
    change (String.eqb "json" "json") with true. cbn iota.
    change (Utils.output_path _) with
      ("output/" ++ ("case_result_" ++ cnr ++ "_"
                     ++ Api.target_date_of w (default "today" (Api.q_date data)))
       ++ ".json").
    eexists. split; [by destruct (write_file w h1 _)|]. repeat split; reflexivity.
  - change (Api.status_is _ "error") with false.
    change (Api.status_is _ "captcha_required") with false.
    change (Api.status_is _ "case_found") with true.
    change (Api.status_is _ "unexpected_response") with false.
    cbn [orb]. rewrite DemoFacts.bind_save_results. cbn zeta.
    change (String.eqb "json" "json") with true. cbn iota.
    change (Utils.output_path _) with
      ("output/" ++ ("case_result_" ++ cnr ++ "_"
                     ++ Api.target_date_of w (default "today" (Api.q_date data)))
       ++ ".json").
    eexists. split; [by destruct (write_file w h1 _)|]. repeat split; reflexivity.
  - change (Api.status_is _ "error") with false.
    change (Api.status_is _ "captcha_required") with false.
    change (Api.status_is _ "case_found") with false.
    change (Api.status_is _ "no_case_data") with true.
    change (Api.status_is _ "unexpected_response") with false.
    cbn [orb]. rewrite DemoFacts.bind_save_results. cbn zeta.
    change (String.eqb "json" "json") with true. cbn iota.
    change (Utils.output_path _) with
      ("output/" ++ ("case_result_" ++ cnr ++ "_"
                     ++ Api.target_date_of w (default "today" (Api.q_date data)))
       ++ ".json").
    eexists. split; [by destruct (write_file w h1 _)|]. repeat split; reflexivity.
  - change (Api.status_is _ "error") with false.
    change (Api.status_is _ "captcha_required") with false.
    change (Api.status_is _ "case_found") with false.
    change (Api.status_is _ "no_case_data") with false.
    change (Api.status_is _ "search_failed") with false.
    change (Api.status_is _ "unexpected_response") with true.
    cbn [orb]. unfold bind at 1.
    rewrite (ListingFacts.listing_fallback _ _ w h1)
      by (by left).
    rewrite DemoFacts.bind_save_results. cbn zeta.
    change (String.eqb "json" "json") with true. cbn iota.
    change (Utils.output_path _) with
      ("output/" ++ ("case_result_" ++ cnr ++ "_"
                     ++ Api.target_date_of w (default "today" (Api.q_date data)))
       ++ ".json").
    eexists. split; [by destruct (write_file w h1 _)|]. repeat split; reflexivity.
Qed.


Lemma api_answer_for_a_classified_page_witness :
  let U := Samples.latin in
  exists body,
    Api.search_by_cnr {| Api.q_cnr := Some "MHAU010012342023"; Api.q_date := None;
                         Api.q_captcha_code := Some "x7k2p" |} Samples.session []
    = (Return (body, 200%Z),
       [Http first_fetch;
        Http (submission "https://services.ecourts.gov.in/search"
                         "MHAU010012342023" "x7k2p" Samples.search_form);
        Write "output/case_result_MHAU010012342023_04-11-2026.json"
              (classify (soup Samples.status_page) "MHAU010012342023") "json"])
    /\ body !! "data"
       = Some (VDict (classify (soup Samples.status_page) "MHAU010012342023")).
Proof.
  intros U.
  destruct (api_answer_for_a_classified_page
              {| Api.q_cnr := Some "MHAU010012342023"; Api.q_date := None;
                 Api.q_captcha_code := Some "x7k2p" |} "MHAU010012342023"
              (soup Samples.status_page) Samples.session [] _
              eq_refl eq_refl eq_refl ApiFacts2.session_search)
    as (body & Hr & _ & Hd & _).
  exists body. split; [exact Hr | exact Hd].
Defined.

Module EndpointFacts.

Section WithUnicode.
Context {U : PyStr.unicode}.

Lemma validated_details limit year_now case_type case_number case_year :
  Utils.validate_case_details limit year_now case_type case_number case_year = true ->
  exists ct cn cy, case_type = Some ct /\ case_number = Some cn /\ case_year = Some cy.
Proof.
  unfold Utils.validate_case_details.
  destruct case_type as [ct|]; [|discriminate].
  destruct case_number as [cn|]; [|by rewrite andb_false_r].
  destruct case_year as [cy|]; [|by rewrite andb_false_r].
  intros _. by exists ct, cn, cy.
Qed.

Lemma api_case_search data ct cn cy w h :
  Api.q_case_type data = Some ct -> Api.q_case_number data = Some cn ->
  Api.q_case_year data = Some cy ->
  Utils.validate_case_details (int_max_str_digits w) (current_year w)
    (Some ct) (Some cn) (Some cy) = true ->
  Api.search_by_case_details data w h
  = let target := Api.target_date_of w (default "today" (Api.q_case_date data)) in
    match search_by_case_details ct cn cy target w h with
    | (Return result, h1) =>
        if Api.status_is result "error" then (Return (result, 500%Z), h1)
        else
          match get_case_listing (VDict result) target w h1 with
          | (Return listing, h2) =>
              (Return (mk [("success", VBool true);
                           ("data", VDict listing);
                           ("search_params",
                            VDict (mk [("case_type", VStr ct);
                                       ("case_number", VStr cn);
                                       ("case_year", VStr cy);
                                       ("date", VStr target)]));
                           ("real_ecourts_data", VBool true)], 200%Z), h2)
          | (Raise e, h2) => (Return (Api.error_body e, 500%Z), h2)
          end
    | (Raise e, h1) => (Return (Api.error_body e, 500%Z), h1)
    end.
Proof.
  intros Ht Hn Hy Hv. unfold Api.search_by_case_details.
  rewrite Ht, Hn, Hy. unfold try_except, bind at 1. unfold ask at 1. cbn iota beta.
  rewrite Hv. cbn [negb]. cbn zeta. unfold bind at 1.
  destruct (search_by_case_details _ _ _ _ w h) as [[result|e] h1]; [|reflexivity].
  destruct (Api.status_is result "error"); [reflexivity|].
  unfold bind at 1.
  destruct (get_case_listing _ _ w h1) as [[listing|e] h2]; reflexivity.
Qed.

Lemma case_search_found ct cn cy date w h resp contents :
  send w h first_fetch = Return resp -> status_code resp = 200%Z ->
  html_parser w (content resp) = Return contents ->
  search_by_case_details ct cn cy date w h
  = (Return (found_record ct cn cy date (page_title_of (soup contents))),
     (h ++ [Http first_fetch])%list).
Proof.
  intros H Hc Hp. unfold search_by_case_details, try_except, bind, session_get,
    perform, BeautifulSoup.
  fold first_fetch. rewrite H, Hc. cbn [Z.eqb Pos.eqb]. by rewrite Hp.
Qed.

Lemma demo_court_test court_name :
  String.eqb (PyStr.lower court_name) "demo" || PyStr.contains "demo" (PyStr.lower court_name)
  = PyStr.contains "demo" (PyStr.lower court_name).
Proof.
  destruct (String.eqb _ _) eqn:E; [|reflexivity].
  apply String.eqb_eq in E. by rewrite E.
Qed.

Lemma upper_demo_valid cnr :
  PyStr.upper cnr = "DEMO123" ->
  PyStr.truthy cnr = true /\ Utils.validate_cnr (Some cnr) = true.
Proof.
  intros Hu. unfold Utils.validate_cnr. rewrite Hu.
  destruct cnr; [discriminate|]. by split.
Qed.

End WithUnicode.

End EndpointFacts.

(** X16.  For a request body that is a JSON object whose members are
    strings or absent, the case-details endpoint answers 400 with
    "Invalid case details" and sends nothing when the details are not
    valid.  For valid details it sends the one fetch of the services page and writes no
    file: when the page was fetched with status 200 and parsed it answers
    200 with a listing tagged connected that nests the search record and
    echoes the details; otherwise it answers 500 with the error record of
    the scraper, so a listing tagged connection_failed is never
    returned. *)
Theorem api_case_search_answers {U : PyStr.unicode}
    (data : Api.case_query) (w : world) (h : list event) :
  if Utils.validate_case_details (int_max_str_digits w) (current_year w)
       (Api.q_case_type data) (Api.q_case_number data) (Api.q_case_year data)
  then
    exists body code,
      Api.search_by_case_details data w h
      = (Return (body, code), (h ++ [Http first_fetch])%list)
      /\ ((code = 500%Z /\ status body = Some (VStr "error")
           /\ forall resp contents,
                send w h first_fetch = Return resp -> status_code resp = 200%Z ->
                html_parser w (content resp) = Return contents -> False)
          \/ (code = 200%Z
              /\ (exists resp contents,
                    send w h first_fetch = Return resp /\ status_code resp = 200%Z
                    /\ html_parser w (content resp) = Return contents)
              /\ exists listing record params,
                   body !! "data" = Some (VDict listing)
                   /\ status listing = Some (VStr "connected")
                   /\ listing !! "case_details" = Some (VDict record)
                   /\ status record = Some (VStr "found")
                   /\ body !! "search_params" = Some (VDict params)
                   /\ params !! "case_type" = VStr <$> Api.q_case_type data
                   /\ params !! "case_number" = VStr <$> Api.q_case_number data
                   /\ params !! "case_year" = VStr <$> Api.q_case_year data))
  else
    Api.search_by_case_details data w h
    = (Return (Api.error_body "Invalid case details", 400%Z), h).
Proof.
  destruct (Utils.validate_case_details _ _ _ _ _) eqn:Hv.
  - destruct (EndpointFacts.validated_details _ _ _ _ _ Hv) as (ct & cn & cy & Ht & Hn & Hy).
    rewrite Ht, Hn, Hy in Hv.
    rewrite (EndpointFacts.api_case_search data ct cn cy w h Ht Hn Hy Hv). cbn zeta.
    destruct (ListingFacts.case_search_cases
                (Api.target_date_of w (default "today" (Api.q_case_date data))) w h)
      as [(e & He)|(resp & contents & Hs & Hc & Hp & Hr)].
    + rewrite He. eexists _, _. split; [reflexivity|]. left.
      split; [reflexivity|]. split; [reflexivity|].
      intros resp contents Hs Hc Hp.
      specialize (He ct cn cy).
      rewrite (EndpointFacts.case_search_found _ _ _ _ _ _ _ _ Hs Hc Hp) in He.
      pose proof (f_equal (fun p => match p.1 with
                                    | Return r => status r
                                    | Raise _ => None
                                    end) He) as Hst.
      change (Some (VStr "found") = Some (VStr "error")) in Hst. discriminate Hst.
    + rewrite Hr. change (Api.status_is (found_record _ _ _ _ _) "error") with false.
      cbn iota. rewrite ListingFacts.listing_of_found.
      eexists _, _. split; [reflexivity|]. right. split; [reflexivity|].
      split; [by exists resp, contents|].
      eexists _, _, _. split; [reflexivity|]. split; [reflexivity|].
      split; [reflexivity|]. split; [reflexivity|]. split; [reflexivity|].
      rewrite Ht, Hn, Hy. repeat split; reflexivity.
  - unfold Api.search_by_case_details, try_except, bind at 1. unfold ask at 1.
    cbn iota beta. rewrite Hv. reflexivity.
Qed.

(** X17.  The cause-list endpoint never contacts the portal.  For a court
    whose name contains "demo" in any case it writes the demo cause list of
    the date to output/causelist_<court>_<date>.json, the blanks of the
    name replaced by underscores, and answers 200 with it, or 500 with the
    I/O error when the file cannot be written.  For any other court it
    writes nothing and answers 200.  The data of a 200 answer is tagged
    connected and bears the date. *)
Theorem cause_list_endpoint_stays_local {U : PyStr.unicode}
    (court_name date : string) (w : world) (h : list event) :
  let demo := PyStr.contains "demo" (PyStr.lower court_name) in
  let filename := "causelist_" ++ PyStr.replace_char " " "_" court_name ++ "_" ++ date in
  let path := "output/" ++ filename ++ ".json" in
  exists body code h',
    Api.get_cause_list court_name date w h = (Return (body, code), h')
    /\ h' = (if demo then h ++ [Write path (Api.demo_cause_list date) "json"] else h)%list
    /\ requests h' = requests h
    /\ (code = 200%Z
        /\ (exists r, body !! "data" = Some (VDict r)
                      /\ status r = Some (VStr "connected")
                      /\ r !! "date" = Some (VStr date))
        /\ (demo = true -> body !! "data" = Some (VDict (Api.demo_cause_list date))
                           /\ body !! "saved_to_file" = Some (VStr (filename ++ ".json")))
        \/ code = 500%Z /\ demo = true
           /\ exists e, write_file w h path = Raise e /\ body = Api.error_body e).
Proof.
  cbn zeta. unfold Api.get_cause_list. rewrite EndpointFacts.demo_court_test.
  destruct (PyStr.contains "demo" (PyStr.lower court_name)) eqn:Hd.
  - unfold try_except. rewrite DemoFacts.bind_save_results. cbn zeta.
    change (String.eqb "json" "json") with true. cbn iota.
    change (Utils.output_path _)
      with ("output/" ++ ("causelist_" ++ PyStr.replace_char " " "_" court_name
                          ++ "_" ++ date) ++ ".json").
    destruct (write_file w h _) as [[]|e] eqn:Hw.
    + eexists _, _, _. split; [reflexivity|]. split; [reflexivity|].
      split; [rewrite DemoFacts.requests_app; cbn; apply app_nil_r|].
      left. split; [reflexivity|]. split.
      * eexists. split; [reflexivity|]. split; reflexivity.
      * intros _. split; reflexivity.
    + eexists _, _, _. split; [reflexivity|]. split; [reflexivity|].
      split; [rewrite DemoFacts.requests_app; cbn; apply app_nil_r|].
      right. split; [reflexivity|]. split; [reflexivity|]. by exists e.
  - eexists _, _, _. split; [reflexivity|]. split; [reflexivity|].
    split; [reflexivity|]. left. split; [reflexivity|]. split.
    + eexists. split; [reflexivity|]. split; reflexivity.
    + discriminate.
Qed.

(** X18.  The CNR endpoint recognises the demo CNR in any case: for a CNR
    whose upper-case form is DEMO123 it sends nothing, ignores the captcha
    code, and writes the demo record to
    output/case_result_<cnr>_<date>.json with the CNR as it was typed, in
    the file name and in the record alike; it answers 200 with that record,
    or 500 with the I/O error when the file cannot be written.  The case
    details of the record are the fixed ones. *)
Theorem api_demo_in_any_case {U : PyStr.unicode}
    (data : Api.cnr_query) (cnr : string) (w : world) (h : list event) :
  Api.q_cnr data = Some cnr ->
  PyStr.upper cnr = "DEMO123" ->
  let target := Api.target_date_of w (default "today" (Api.q_date data)) in
  let filename := "case_result_" ++ cnr ++ "_" ++ target in
  let path := "output/" ++ filename ++ ".json" in
  exists body,
    Api.search_by_cnr data w h
    = (match write_file w h path with
       | Return _ => Return (body, 200%Z)
       | Raise e => Return (Api.error_body e, 500%Z)
       end, (h ++ [Write path (Api.demo_result cnr) "json"])%list)
    /\ body !! "data" = Some (VDict (Api.demo_result cnr))
    /\ body !! "saved_to_file" = Some (VStr (filename ++ ".json"))
    /\ Api.demo_result cnr !! "cnr" = Some (VStr cnr)
    /\ status (Api.demo_result cnr) = Some (VStr "case_found")
    /\ Api.demo_result cnr !! "case_details"
       = Api.demo_result "DEMO123" !! "case_details".
Proof.
  intros Hq Hu. cbn zeta.
  destruct (EndpointFacts.upper_demo_valid cnr Hu) as [Ht Hv].
  unfold Api.search_by_cnr. rewrite Hq, Ht, Hv, Hu. cbn [negb].
  change (String.eqb "DEMO123" "DEMO123") with true. cbn iota.
  unfold try_except, bind at 1. unfold ask at 1. cbn iota beta zeta.
  rewrite DemoFacts.bind_save_results. cbn zeta.
  change (String.eqb "json" "json") with true. cbn iota.
  change (Utils.output_path _)
    with ("output/" ++ ("case_result_" ++ cnr ++ "_"
                        ++ Api.target_date_of w (default "today" (Api.q_date data)))
          ++ ".json").
  eexists. split.
  - destruct (write_file w h _); reflexivity.
  - repeat split; reflexivity.
Qed.

Lemma api_demo_in_any_case_witness :
  let U := Samples.latin in
  exists body,
    Api.search_by_cnr {| Api.q_cnr := Some "Demo123"; Api.q_date := Some "tomorrow";
                         Api.q_captcha_code := Some "x7k2p" |} Samples.offline []
    = (Return (body, 200%Z),
       [Write "output/case_result_Demo123_05-11-2026.json"
              (Api.demo_result "Demo123") "json"])
    /\ body !! "data" = Some (VDict (Api.demo_result "Demo123")).
Proof.
  intros U.
  destruct (api_demo_in_any_case
              {| Api.q_cnr := Some "Demo123"; Api.q_date := Some "tomorrow";
                 Api.q_captcha_code := Some "x7k2p" |} "Demo123" Samples.offline []
              eq_refl eq_refl) as (body & Hr & Hd & _).
  exists body. split; [exact Hr | exact Hd].
Defined.

(** ** The command line tool *)

Module CliFacts.

Section WithUnicode.
Context {U : PyStr.unicode}.

Lemma main_with_cnr real_cnr_search case_details_search c case_type case_number case_year
    today_flag tomorrow_flag causelist output_format w h :
  PyStr.truthy c = true ->
  Cli.main real_cnr_search case_details_search (Some c) case_type case_number case_year
           today_flag tomorrow_flag causelist output_format w h
  = try_except
      (if negb (Utils.validate_cnr (Some c)) then echo "Error: Invalid CNR format"
       else if String.eqb (PyStr.upper c) "DEMO123"
       then Cli.demo_mode c (cli_dated w h today_flag tomorrow_flag).2 output_format
       else real_cnr_search c (cli_dated w h today_flag tomorrow_flag).2 causelist
                            output_format)
      (fun e => echo ("Error: " ++ e)) w (cli_dated w h today_flag tomorrow_flag).1.
Proof.
  intros Ht. unfold Cli.main, cli_dated. cbn [Utils.given]. rewrite Ht. cbn [negb andb].
  destruct today_flag; [|destruct tomorrow_flag];
    cbv beta iota zeta delta [bind ask ret try_except prompt fst snd].
  - by rewrite Ht.
  - by rewrite Ht.
  - destruct (String.eqb (answer w h "Check for (1) Today or (2) Tomorrow?") "1");
      by rewrite Ht.
Qed.


End WithUnicode.

End CliFacts.
Module CliRun.

Section WithUnicode.
Context {U : PyStr.unicode}.

Lemma saved_path filename format_type :
  (if String.eqb format_type "json"
   then Utils.output_path (("case_result_" ++ filename) ++ ".json")
   else Utils.output_path (("case_result_" ++ filename) ++ ".txt"))
  = saved_file ("case_result_" ++ filename) format_type.
Proof. unfold saved_file. by destruct (String.eqb format_type "json"). Qed.

Lemma saved_cause_list target_date format_type :
  (if String.eqb format_type "json"
   then Utils.output_path (("causelist_Demo_Court_" ++ target_date) ++ ".json")
   else Utils.output_path (("causelist_Demo_Court_" ++ target_date) ++ ".txt"))
  = saved_file ("causelist_Demo_Court_" ++ target_date) format_type.
Proof. unfold saved_file. by destruct (String.eqb format_type "json"). Qed.

Lemma cause_list_run target_date output_format w h :
  Cli.cause_list_step target_date true output_format w h
  = let h1 := (h ++ cause_list_transcript target_date)%list in
    let file := saved_file ("causelist_Demo_Court_" ++ target_date) output_format in
    match write_file w h1 file with
    | Return _ =>
        (Return tt,
         (h1 ++ [Write file (Cli.cause_list_data target_date) output_format;
                 Echo (PyStr.newline ++ "Cause list saved to: "
                       ++ announced_file ("causelist_Demo_Court_" ++ target_date)
                                         output_format)])%list)
    | Raise e =>
        (Raise e,
         (h1 ++ [Write file (Cli.cause_list_data target_date) output_format])%list)
    end.
Proof.
  unfold Cli.cause_list_step. cbn zeta.
  rewrite !DemoFacts.bind_echo, DemoFacts.bind_for_each_echo, DemoFacts.bind_echo,
    DemoFacts.bind_for_each_echo, DemoFacts.bind_save_results.
  cbn zeta. rewrite saved_cause_list.
  match goal with
  | |- context [write_file w ?hh _] =>
      replace hh with (h ++ cause_list_transcript target_date)%list
        by (rewrite <- !app_assoc; reflexivity)
  end.
  destruct (write_file w _ _); [|reflexivity].
  unfold echo. rewrite <- !app_assoc. reflexivity.
Qed.

(** the cause list step sends nothing *)
Lemma cause_list_quiet target_date causelist output_format w h :
  exists o t,
    Cli.cause_list_step target_date causelist output_format w h = (o, (h ++ t)%list)
    /\ requests t = [].
Proof.
  destruct causelist.
  - rewrite cause_list_run. cbn zeta. destruct (write_file w _ _).
    + eexists _, _. rewrite <- app_assoc. split; [reflexivity|]. reflexivity.
    + eexists _, _. rewrite <- app_assoc. split; [reflexivity|]. reflexivity.
  - exists (Return tt), []. by rewrite app_nil_r.
Qed.

Lemma real_search_captcha repr show cnr target_date causelist output_format w h url h1 :
  search_by_cnr cnr target_date None w h
  = (Return (captcha_required url cnr target_date), h1) ->
  Cli.real_cnr_search repr show cnr target_date causelist output_format w h
  = (Return tt, (h1 ++ captcha_notice)%list).
Proof.
  intros Hs. unfold Cli.real_cnr_search. cbn zeta. unfold bind at 1. rewrite Hs.
  change (Api.status_is (captcha_required url cnr target_date) "captcha_required")
    with true.
  cbn iota. rewrite !DemoFacts.bind_echo. unfold echo. rewrite <- !app_assoc.
  reflexivity.
Qed.

Lemma real_search_failed repr show cnr target_date causelist output_format w h e h1 :
  search_by_cnr cnr target_date None w h = (Return (error_record e), h1) ->
  Cli.real_cnr_search repr show cnr target_date causelist output_format w h
  = let h2 := (h1 ++ failure_notice)%list in
    let file := saved_file ("case_result_" ++ cnr ++ "_" ++ target_date) output_format in
    match write_file w h2 file with
    | Return _ =>
        Cli.cause_list_step target_date causelist output_format w
          (h2 ++ [Write file (connection_failed target_date) output_format;
                  Echo (PyStr.newline ++ "Results saved to: "
                        ++ announced_file ("case_result_" ++ cnr ++ "_" ++ target_date)
                                          output_format)])%list
    | Raise e' =>
        (Raise e', (h2 ++ [Write file (connection_failed target_date) output_format])%list)
    end.
Proof.
  intros Hs. unfold Cli.real_cnr_search. cbn zeta. unfold bind at 1. rewrite Hs.
  change (Api.status_is (error_record e) "captcha_required") with false.
  change (Api.status_is (error_record e) "case_found") with false.
  change (Api.status_is (error_record e) "no_case_data") with false.
  change (Api.status_is (error_record e) "search_failed") with false.
  cbn [orb]. cbn iota.
  unfold bind at 1. unfold bind at 1.
  rewrite (ListingFacts.listing_fallback (error_record e) target_date w h1)
    by (left; reflexivity).
  change (Api.status_is (connection_failed target_date) "connected") with false.
  cbn iota.
  change (Cli.str repr (Py.get_default (connection_failed target_date) "website_status"
                          (VStr "Failed"))) with "Failed".
  change (Cli.str repr (Py.get (connection_failed target_date) "message"))
    with "Failed to connect to eCourts".
  unfold Utils.save_results, bind, echo, write, ret. cbn beta iota zeta.
  rewrite saved_path.
  match goal with
  | |- context [write_file w ?hh _] =>
      replace hh with (h1 ++ failure_notice)%list
        by (rewrite <- !app_assoc; reflexivity)
  end.
  destruct (write_file w _ _); [|reflexivity].
  rewrite <- (app_assoc (h1 ++ failure_notice)%list). reflexivity.
Qed.

End WithUnicode.

End CliRun.
(** X19.  For a valid CNR other than the demo one the command line tool
    sends the one fetch of the services page, since it never has a captcha
    code to submit, and shows no case: either the search ends with the
    request for a captcha, and it echoes the captcha notice and stops,
    saving nothing and producing no cause list even when one was asked
    for; or the search ends with an error record, and it echoes the same
    three lines of the failure notice whatever the error is, and saves a
    listing tagged connection_failed under
    output/case_result_<cnr>_<date>.  The run does not depend on how a
    found case would be displayed. *)
Theorem cli_cnr_search_shows_no_case {U : PyStr.unicode}
    (repr : value -> string) (show_case_found : dict -> M unit) (cnr : string)
    (case_type case_number case_year : option string)
    (today_flag tomorrow_flag causelist : bool) (output_format : string)
    (w : world) (h : list event) :
  Utils.validate_cnr (Some cnr) = true ->
  String.eqb (PyStr.upper cnr) "DEMO123" = false ->
  let h0 := (cli_dated w h today_flag tomorrow_flag).1 in
  let target := (cli_dated w h today_flag tomorrow_flag).2 in
  let file := saved_file ("case_result_" ++ cnr ++ "_" ++ target) output_format in
  exists rest,
    Cli.run repr show_case_found (Some cnr) case_type case_number case_year
            today_flag tomorrow_flag causelist output_format w h
    = (Return tt, (h0 ++ Http first_fetch :: rest)%list)
    /\ requests rest = []
    /\ ((exists url,
           search_by_cnr cnr target None w h0
           = (Return (captcha_required url cnr target), (h0 ++ [Http first_fetch])%list)
           /\ rest = captcha_notice)
        \/ (exists e tail,
              search_by_cnr cnr target None w h0
              = (Return (error_record e), (h0 ++ [Http first_fetch])%list)
              /\ rest = (failure_notice
                           ++ Write file (connection_failed target) output_format
                           :: tail)%list))
    /\ forall repr' show',
         Cli.run repr' show' (Some cnr) case_type case_number case_year
                 today_flag tomorrow_flag causelist output_format w h
         = Cli.run repr show_case_found (Some cnr) case_type case_number case_year
                   today_flag tomorrow_flag causelist output_format w h.
Proof.
  intros Hv Hd. cbn zeta.
  set (h0 := (cli_dated w h today_flag tomorrow_flag).1).
  set (target := (cli_dated w h today_flag tomorrow_flag).2).
  assert (Hrun : forall repr show,
    Cli.run repr show (Some cnr) case_type case_number case_year
            today_flag tomorrow_flag causelist output_format w h
    = try_except (Cli.real_cnr_search repr show cnr target causelist output_format)
                 (fun e => echo ("Error: " ++ e)) w h0).
  { intros. unfold Cli.run.
    rewrite (CliFacts.main_with_cnr _ _ _ _ _ _ _ _ _ _ _ _
               (ApiFacts.validated_truthy _ Hv)).
    by rewrite Hv, Hd. }
  destruct (ApiFacts.search_without_code cnr target w h0)
    as (r & Hs & [[e ->]|[url ->]]).
  - assert (Hfail : forall repr' show',
      Cli.real_cnr_search repr' show' cnr target causelist output_format w h0
      = Cli.real_cnr_search repr show_case_found cnr target causelist output_format w h0).
    { intros repr' show'.
      rewrite (CliRun.real_search_failed repr' show' _ _ _ _ _ _ _ _ Hs).
      by rewrite (CliRun.real_search_failed repr show_case_found _ _ _ _ _ _ _ _ Hs). }
    assert (Hind : forall repr' show',
      Cli.run repr' show' (Some cnr) case_type case_number case_year
              today_flag tomorrow_flag causelist output_format w h
      = Cli.run repr show_case_found (Some cnr) case_type case_number case_year
                today_flag tomorrow_flag causelist output_format w h).
    { intros. rewrite !Hrun. unfold try_except. by rewrite Hfail. }
    pose proof (Hrun repr show_case_found) as Hr0. unfold try_except in Hr0.
    rewrite (CliRun.real_search_failed _ _ _ _ _ _ _ _ _ _ Hs) in Hr0.
    cbn zeta in Hr0. revert Hr0.
    destruct (write_file w _ _) as [[]|e'].
    + match goal with
      | |- context [Cli.cause_list_step _ _ _ w ?hh] =>
          destruct (CliRun.cause_list_quiet target causelist output_format w hh)
            as (o & t & Hc & Ht)
      end.
      rewrite Hc. destruct o as [[]|e']; intros Hr0.
      * eexists. split; [rewrite Hr0, <- !app_assoc; cbn [app]; reflexivity|].
        split; [rewrite DemoFacts.requests_app; exact Ht|].
        split; [|exact Hind]. right. exists e. eexists. split; [exact Hs | reflexivity].
      * eexists.
        split; [rewrite Hr0; unfold echo; rewrite <- !app_assoc; cbn [app]; reflexivity|].
        split; [rewrite DemoFacts.requests_app; cbn;
                rewrite DemoFacts.requests_app, Ht; reflexivity|].
        split; [|exact Hind]. right. exists e. eexists. split; [exact Hs | reflexivity].
    + intros Hr0. eexists.
      split; [rewrite Hr0; unfold echo; rewrite <- !app_assoc; cbn [app]; reflexivity|].
      split; [reflexivity|].
      split; [|exact Hind]. right. exists e. eexists. split; [exact Hs | reflexivity].
  - assert (Hind : forall repr' show',
      Cli.run repr' show' (Some cnr) case_type case_number case_year
              today_flag tomorrow_flag causelist output_format w h
      = Cli.run repr show_case_found (Some cnr) case_type case_number case_year
                today_flag tomorrow_flag causelist output_format w h).
    { intros repr' show'. rewrite !Hrun. unfold try_except.
      rewrite (CliRun.real_search_captcha repr' show' _ _ _ _ _ _ _ _ Hs).
      by rewrite (CliRun.real_search_captcha repr show_case_found _ _ _ _ _ _ _ _ Hs). }
    pose proof (Hrun repr show_case_found) as Hr0. unfold try_except in Hr0.
    rewrite (CliRun.real_search_captcha _ _ _ _ _ _ _ _ _ _ Hs) in Hr0.
    exists captcha_notice. split; [by rewrite Hr0, <- app_assoc|].
    split; [reflexivity|]. split; [|exact Hind]. left. by exists url.
Qed.

Lemma cli_cnr_search_shows_no_case_witness :
  let U := Samples.latin in
  exists rest,
    Cli.run (fun _ => "") (fun _ => ret tt) (Some "MHAU010012342023") None None None
            true false true "json" Samples.unavailable []
    = (Return tt, Http first_fetch :: rest)
    /\ requests rest = [].
Proof.
  intros U.
  destruct (cli_cnr_search_shows_no_case
              (fun _ => "") (fun _ => ret tt) "MHAU010012342023" None None None
              true false true "json" Samples.unavailable [] eq_refl eq_refl)
    as (rest & Hr & Hq & _).
  exists rest. split; [exact Hr | exact Hq].
Defined.

(** X20.  A CNR that is given but not valid makes the command line tool
    print "Error: Invalid CNR format" and stop: once the date is settled
    nothing else is printed, no request is sent, no file is written, and
    neither search is run. *)
Theorem cli_rejects_invalid_cnr {U : PyStr.unicode}
    (real_cnr_search : string -> string -> bool -> string -> M unit)
    (case_details_search :
       option string -> option string -> option string ->
       string -> bool -> string -> M unit)
    (cnr : string) (case_type case_number case_year : option string)
    (today_flag tomorrow_flag causelist : bool) (output_format : string)
    (w : world) (h : list event) :
  PyStr.truthy cnr = true ->
  Utils.validate_cnr (Some cnr) = false ->
  Cli.main real_cnr_search case_details_search (Some cnr) case_type case_number
           case_year today_flag tomorrow_flag causelist output_format w h
  = (Return tt,
     ((cli_dated w h today_flag tomorrow_flag).1
        ++ [Echo "Error: Invalid CNR format"])%list).
Proof.
  intros Ht Hv. rewrite (CliFacts.main_with_cnr _ _ _ _ _ _ _ _ _ _ _ _ Ht).
  by rewrite Hv.
Qed.

Lemma cli_rejects_invalid_cnr_witness :
  let U := Samples.latin in
  Cli.main (fun _ _ _ _ => raise "not reached") (fun _ _ _ _ _ _ => raise "not reached")
           (Some "MH123") None None None false true true "text" Samples.offline []
  = (Return tt, [Echo "Error: Invalid CNR format"]).
Proof.
  intros U.
  apply (cli_rejects_invalid_cnr
           (fun _ _ _ _ => raise "not reached") (fun _ _ _ _ _ _ => raise "not reached")
           "MH123" None None None false true true "text" Samples.offline []);
    reflexivity.
Defined.
Module CliSearch.

Section WithUnicode.
Context {U : PyStr.unicode}.




End WithUnicode.

End CliSearch.


Module CliFiles.

Section WithUnicode.
Context {U : PyStr.unicode}.

Lemma append_inv_head (s a b : string) : s ++ a = s ++ b -> a = b.
Proof.
  induction s as [|c s IH]; [done|].
  intros H. apply IH.
  change (String c (s ++ a) = String c (s ++ b)) in H. by injection H.
Qed.

Lemma announced_is_saved filename output_format :
  output_format = "json" \/ output_format = "text" ->
  saved_file filename output_format = announced_file filename output_format
  <-> output_format = "json".
Proof.
  intros [->| ->]; unfold saved_file, announced_file.
  - by split.
  - split; [|discriminate]. intros H.
    apply (append_inv_head "output/"), append_inv_head in H. discriminate H.
Qed.

Lemma demo_mode_any cnr target_date output_format w h :
  exists lines,
    requests lines = []
    /\ Cli.demo_mode cnr target_date output_format w h
       = let file := saved_file ("case_result_" ++ cnr ++ "_" ++ target_date)
                                output_format in
         match write_file w (h ++ lines)%list file with
         | Return _ =>
             (Return tt,
              ((h ++ lines)
                 ++ [Write file (Cli.demo_result cnr) output_format;
                     Echo (PyStr.newline ++ "Results saved to: "
                           ++ announced_file ("case_result_" ++ cnr ++ "_" ++ target_date)
                                             output_format)])%list)
         | Raise e =>
             (Raise e,
              ((h ++ lines) ++ [Write file (Cli.demo_result cnr) output_format])%list)
         end.
Proof.
  exists ([Echo "Case Information Found!";
           Echo ("CNR: " ++ cnr);
           Echo "Message: Demo case information retrieved successfully";
           Echo (PyStr.newline ++ "Case Details:")]
            ++ map (fun kv : string * string =>
                      Echo ("  " ++ PyStr.title (PyStr.replace_char "_" " " kv.1)
                            ++ ": " ++ kv.2)) Api.demo_case_details
            ++ [Echo (PyStr.newline ++ "Status Indicators:")]
            ++ map (fun indicator => Echo ("  - " ++ indicator))
                   Api.demo_status_indicators)%list.
  split; [reflexivity|].
  unfold Cli.demo_mode. cbn zeta.
  rewrite !DemoFacts.bind_echo, DemoFacts.bind_for_each_echo, DemoFacts.bind_echo,
    DemoFacts.bind_for_each_echo, DemoFacts.bind_save_results.
  cbn zeta. rewrite CliRun.saved_path.
  match goal with
  | |- context [write_file w ?hh _] =>
      match goal with
      | |- _ = match write_file w ?hh2 _ with _ => _ end =>
          replace hh with hh2 by (rewrite <- !app_assoc; reflexivity)
      end
  end.
  destruct (write_file w _ _); [|reflexivity].
  unfold echo. rewrite <- !app_assoc. reflexivity.
Qed.

End WithUnicode.

End CliFiles.

(** X22.  The cause list of the command line tool is the demo cause list
    of the API for the target date, whatever was searched for: with the
    flag set the tool prints its fixed lines and the sample cases, sends
    nothing, and hands that list to be saved as
    output/causelist_Demo_Court_<date>; without the flag it does
    nothing. *)
Theorem cli_cause_list_is_the_demo_list
    (target_date output_format : string) (w : world) (h : list event) :
  let file := saved_file ("causelist_Demo_Court_" ++ target_date) output_format in
  Cli.cause_list_data target_date = Api.demo_cause_list target_date
  /\ Cli.cause_list_step target_date false output_format w h = (Return tt, h)
  /\ exists outcome tail,
       Cli.cause_list_step target_date true output_format w h
       = (outcome,
          (h ++ cause_list_transcript target_date
             ++ Write file (Api.demo_cause_list target_date) output_format :: tail)%list)
       /\ requests (snd (Cli.cause_list_step target_date true output_format w h))
          = requests h
       /\ (tail = [] \/ exists line, tail = [Echo line])
       /\ (outcome = Return tt
           <-> write_file w (h ++ cause_list_transcript target_date)%list file
               = Return tt).
Proof.
  cbn zeta. split; [reflexivity|]. split; [reflexivity|].
  rewrite CliRun.cause_list_run. cbn zeta.
  change (Cli.cause_list_data target_date) with (Api.demo_cause_list target_date).
  destruct (write_file w _ _) as [[]|e].
  - eexists _, _. split; [by rewrite <- app_assoc|]. cbn [snd].
    split; [rewrite !DemoFacts.requests_app; cbn; by rewrite !app_nil_r|].
    split; [right; by eexists|]. done.
  - eexists _, _. split; [by rewrite <- app_assoc|]. cbn [snd].
    split; [rewrite !DemoFacts.requests_app; cbn; by rewrite !app_nil_r|].
    split; [by left|]. done.
Qed.

(** X23.  In demo mode, for a CNR that spells DEMO123 in any case, the
    command line tool saves the demo record as a .json file when the
    output format is json and as a .txt file when it is text, and then
    announces output/<name>.<format>: the file it announces is the file
    it wrote for json, and another one, ending in .text, for text. *)
Theorem cli_announces_the_saved_file_for_json_only {U : PyStr.unicode}
    (repr : value -> string) (show_case_found : dict -> M unit) (cnr : string)
    (case_type case_number case_year : option string)
    (today_flag tomorrow_flag causelist : bool) (output_format : string)
    (w : world) (h : list event) :
  PyStr.upper cnr = "DEMO123" ->
  output_format = "json" \/ output_format = "text" ->
  (forall h' path, write_file w h' path = Return tt) ->
  let target := (cli_dated w h today_flag tomorrow_flag).2 in
  let filename := "case_result_" ++ cnr ++ "_" ++ target in
  exists before,
    Cli.run repr show_case_found (Some cnr) case_type case_number case_year
            today_flag tomorrow_flag causelist output_format w h
    = (Return tt,
       (before ++ [Write (saved_file filename output_format) (Cli.demo_result cnr)
                         output_format;
                   Echo (PyStr.newline ++ "Results saved to: "
                         ++ announced_file filename output_format)])%list)
    /\ requests before = requests h
    /\ saved_file filename output_format
       = "output/" ++ filename ++ (if String.eqb output_format "json" then ".json" else ".txt")
    /\ announced_file filename output_format = "output/" ++ filename ++ "." ++ output_format
    /\ (saved_file filename output_format = announced_file filename output_format
        <-> output_format = "json").
Proof.
  intros Hu Hf Hw. cbn zeta.
  destruct (EndpointFacts.upper_demo_valid cnr Hu) as [Ht Hv].
  unfold Cli.run. rewrite (CliFacts.main_with_cnr _ _ _ _ _ _ _ _ _ _ _ _ Ht).
  rewrite Hv, Hu. cbn [negb]. change (String.eqb "DEMO123" "DEMO123") with true.
  cbn iota. unfold try_except.
  destruct (CliFiles.demo_mode_any cnr (cli_dated w h today_flag tomorrow_flag).2
              output_format w (cli_dated w h today_flag tomorrow_flag).1)
    as (lines & Hl & Hrun).
  rewrite Hrun. cbn zeta. rewrite Hw.
  exists ((cli_dated w h today_flag tomorrow_flag).1 ++ lines)%list.
  split; [reflexivity|].
  split; [by rewrite DemoFacts.requests_app, DemoFacts.requests_dated, Hl, app_nil_r|].
  split; [reflexivity|]. split; [reflexivity|].
  by apply CliFiles.announced_is_saved.
Qed.

Lemma cli_announces_the_saved_file_for_json_only_witness :
  let U := Samples.latin in
  exists before,
    Cli.run (fun _ => "") (fun _ => ret tt) (Some "demo123") None None None
            true false false "text" Samples.offline []
    = (Return tt,
       (before ++ [Write "output/case_result_demo123_04-11-2026.txt"
                         (Cli.demo_result "demo123") "text";
                   Echo (PyStr.newline
                         ++ "Results saved to: output/case_result_demo123_04-11-2026.text")])%list).
Proof.
  intros U.
  destruct (cli_announces_the_saved_file_for_json_only
              (fun _ => "") (fun _ => ret tt) "demo123" None None None
              true false false "text" Samples.offline []
              eq_refl (or_intror eq_refl) (fun _ _ => eq_refl))
    as (before & Hr & _).
  exists before. exact Hr.
Defined.

(** X24.  CNR validation accepts exactly the strings whose upper-case
    form is DEMO123 and the strings of at least ten characters, whatever
    the characters are; a missing CNR, the empty string and any other
    shorter string are rejected.  DEMO123 is accepted in any letter
    case. *)
Theorem cnr_accepted_iff {U : PyStr.unicode} (cnr : option string) :
  (Utils.validate_cnr cnr = true
   <-> exists c, cnr = Some c
                 /\ (PyStr.upper c = "DEMO123" \/ 10 <= PyStr.len c))
  /\ Forall (fun c => Utils.validate_cnr (Some c) = true)
            ["DEMO123"; "demo123"; "Demo123"; "dEmO123"].
Proof.
  split; [|repeat constructor].
  unfold Utils.validate_cnr. destruct cnr as [c|].
  2: { split; [discriminate | by intros (c & ? & _)]. }
  destruct (String.eqb (PyStr.upper c) "DEMO123") eqn:Ed.
  - apply String.eqb_eq in Ed.
    destruct (EndpointFacts.upper_demo_valid c Ed) as [Ht _]. rewrite Ht. cbn.
    split; [|done]. intros _. exists c. by split; [|left].
  - rewrite andb_false_r.
    assert (Hne : PyStr.upper c <> "DEMO123") by (by apply String.eqb_neq).
    destruct (PyStr.truthy c) eqn:Et; cbn [negb orb].
    + destruct (Nat.ltb (PyStr.len c) 10) eqn:El.
      * apply Nat.ltb_lt in El. split; [discriminate|].
        intros (c' & [= <-] & [H|H]); [done | lia].
      * apply Nat.ltb_ge in El. split; [|done]. intros _. exists c. by split; [|right].
    + split; [discriminate|]. intros (c' & [= <-] & [H|H]); [done|].
      destruct c; [cbn in H; lia | discriminate Et].
Qed.

(** the length is counted in characters: nine two-byte letters are too
    short, ten are enough *)
Example cnr_length_in_characters :
  let U := Samples.latin in
  Utils.validate_cnr
    (Some (PyStr.of_points [233; 233; 233; 233; 233; 233; 233; 233; 233]%N)) = false
  /\ Utils.validate_cnr
       (Some (PyStr.of_points [233; 233; 233; 233; 233; 233; 233; 233; 233; 233]%N))
     = true.
Proof. intros U. split; reflexivity. Qed.
